(** * Batch transcription pipeline: a shallow embedding

    This development models the per-file pipeline of
    [batch_transcribe_to_pdf_1.py]: base-name sanitisation, discovery,
    the skip policy, audio preparation, transcript extraction, artifact
    persistence and document rendering.

    Python [str] values are sequences of Unicode code points, so they are
    modelled as [list N].  The Unicode character database that backs
    [str.isalnum], [str.isspace] and [str.lower] lives in the interpreter,
    not in the repository; it is taken as a parameter ([PyChars]) that is
    pinned down on the ASCII range only. *)

From Stdlib Require Import NArith ZArith List Ascii String Bool Lia.
From Stdlib Require Import Sorting.Sorted Sorting.Permutation.
From stdpp Require Import gmap.

Import ListNotations.
Set Warnings "-register-all".
Set Default Proof Using "Type".
Local Open Scope N_scope.
Local Open Scope list_scope.

(** ** Python strings *)

Abbreviation pystr := (list N).

(** [py "abc"] is the code-point sequence of an ASCII literal. *)
Definition py (s : string) : pystr :=
  List.map N_of_ascii (list_ascii_of_string s).
Arguments py : simpl never.

Definition in_range (lo hi c : N) : bool := (lo <=? c) && (c <=? hi).

Definition ascii_isalnum (c : N) : bool :=
  in_range 48 57 c || in_range 65 90 c || in_range 97 122 c.

(** [str.isspace] on the ASCII range: TAB..CR, FS..US and the space. *)
Definition ascii_isspace (c : N) : bool :=
  in_range 9 13 c || in_range 28 32 c.

Definition ascii_lower (c : N) : N :=
  if in_range 65 90 c then c + 32 else c.

(** The interpreter's character tables.  [lower] acts on whole strings
    because [str.lower] is context sensitive outside ASCII. *)
Class PyChars := {
  isalnum : N -> bool;
  isspace : N -> bool;
  lower : pystr -> pystr;
  isalnum_ascii : forall c, c < 128 -> isalnum c = ascii_isalnum c;
  isspace_ascii : forall c, c < 128 -> isspace c = ascii_isspace c;
  lower_ascii : forall s, Forall (fun c => c < 128) s ->
                          lower s = List.map ascii_lower s
}.

(** A table that is exact on ASCII and takes every other code point to
    be a caseless, non-blank symbol.  It is used on ASCII file names and
    transcripts; the only other characters it meets are the accented
    letters of the fixed messages, which are indeed not blank. *)
Definition ascii_table : PyChars.
Proof.
  refine {| isalnum := ascii_isalnum;
            isspace := ascii_isspace;
            lower := List.map ascii_lower |}; reflexivity.
Defined.

Section Strings.
Context {T : PyChars}.

Fixpoint lstrip (s : pystr) : pystr :=
  match s with
  | [] => []
  | c :: r => if isspace c then lstrip r else s
  end.

Definition rstrip (s : pystr) : pystr := rev (lstrip (rev s)).

(** [s.strip()] *)
Definition strip (s : pystr) : pystr := rstrip (lstrip s).

(** [s.replace(old, new)] for a one-character [old]. *)
Definition replace1 (old : N) (new : pystr) (s : pystr) : pystr :=
  flat_map (fun c => if c =? old then new else [c]) s.

Definition SPACE : N := 32.
Definition HYPHEN : N := 45.
Definition DOT : N := 46.
Definition UNDERSCORE : N := 95.

(** [ch.isalnum() or ch in (" ", "-", "_", ".")] *)
Definition keep_char (ch : N) : bool :=
  isalnum ch || (ch =? SPACE) || (ch =? HYPHEN) || (ch =? UNDERSCORE) || (ch =? DOT).

Definition clean_filename (name : pystr) : pystr :=
  let safe := List.filter keep_char name in
  replace1 SPACE [UNDERSCORE] (strip safe).

(** A string starts clean when its first character is not whitespace. *)
Definition head_ok (s : pystr) : Prop :=
  match s with
  | [] => True
  | c :: _ => isspace c = false
  end.

(** [c] after replacing the character [old] by [new]. *)
Definition swap_char (old new c : N) : N := if c =? old then new else c.

(** The characters a sanitised base name may contain. *)
Definition safe_char (ch : N) : Prop :=
  isalnum ch = true \/ ch = HYPHEN \/ ch = UNDERSCORE \/ ch = DOT.

End Strings.

(** ** Paths ([pathlib]) *)

(** [name.rfind(".")]: position of the last dot, if any.  [i] is the
    index of the head of [s]. *)
Fixpoint rfind_dot_from (i : nat) (s : pystr) (last : option nat) : option nat :=
  match s with
  | [] => last
  | c :: r => rfind_dot_from (S i) r (if c =? 46 then Some i else last)
  end.

Definition rfind_dot (name : pystr) : option nat := rfind_dot_from 0 name None.

(** The split point used by [PurePath.suffix] and [PurePath.stem]
    (CPython 3.8 to 3.13): the last dot, provided
    [0 < i < len(name) - 1]. *)
Definition split_point (name : pystr) : option nat :=
  match rfind_dot name with
  | Some i => if (0 <? i)%nat && (i <? length name - 1)%nat then Some i else None
  | None => None
  end.

Definition suffix (name : pystr) : pystr :=
  match split_point name with
  | Some i => skipn i name
  | None => []
  end.

Definition stem (name : pystr) : pystr :=
  match split_point name with
  | Some i => firstn i name
  | None => name
  end.

(** [dir / name] *)
Definition joinpath (dir name : pystr) : pystr := dir ++ py "/" ++ name.

(** Lexicographic comparison of strings by code point, the order of
    sibling paths under [sorted] on a POSIX host. *)
Fixpoint pystr_leb (a b : pystr) : bool :=
  match a, b with
  | [], _ => true
  | _ :: _, [] => false
  | x :: a', y :: b' =>
      if x <? y then true else if y <? x then false else pystr_leb a' b'
  end.


Fixpoint insert_sorted (x : pystr) (l : list pystr) : list pystr :=
  match l with
  | [] => [x]
  | y :: r => if pystr_leb x y then x :: l else y :: insert_sorted x r
  end.

(** [sorted(xs)] *)
Definition sorted (l : list pystr) : list pystr :=
  fold_right insert_sorted [] l.

(** ** Discovery *)

Definition VIDEO_EXTS : list pystr :=
  [py ".mp4"; py ".mov"; py ".mkv"; py ".avi"; py ".mpg"; py ".mpeg"; py ".m4v"; py ".webm"].

Definition AUDIO_EXTS : list pystr :=
  [py ".wav"; py ".mp3"; py ".m4a"; py ".aac"; py ".flac"; py ".ogg"; py ".opus"; py ".wma"].

Definition pystr_eqb (a b : pystr) : bool := bool_decide (a = b).

Definition mem (x : pystr) (l : list pystr) : bool := existsb (pystr_eqb x) l.

(** One entry of [in_dir.iterdir()]. *)
Record dir_entry := {
  entry_name : pystr;
  entry_is_file : bool
}.

Section Discovery.
Context {T : PyChars}.

(** [p.suffix.lower() in VIDEO_EXTS] *)
Definition is_video (name : pystr) : bool := mem (lower (suffix name)) VIDEO_EXTS.

(** [p.is_file() and p.suffix.lower() in (VIDEO_EXTS | AUDIO_EXTS)] *)
Definition is_candidate (e : dir_entry) : bool :=
  entry_is_file e && mem (lower (suffix (entry_name e))) (VIDEO_EXTS ++ AUDIO_EXTS).

(** [sorted([p for p in in_dir.iterdir() if ...])], as entry names. *)
Definition discover (listing : list dir_entry) : list pystr :=
  sorted (List.map entry_name (List.filter is_candidate listing)).

End Discovery.

(** ** Python values, exceptions *)

Inductive exn :=
| KeyError
| IndexError
| TypeError
| AttributeError
| ValueError
| OSError
| FileNotFoundError
| CalledProcessError
| UnicodeEncodeError
| ServiceError (code : N).

(** Outcome of a call: a value, or a raised exception. *)
Inductive result (A : Type) :=
| Ok (a : A)
| Raise (e : exn).
Arguments Ok {A} a.
Arguments Raise {A} e.

(** The opaque structured response is a tree of scalars, sequences and
    mappings; mappings have string keys, as decoded JSON has.  A float
    is kept as mantissa and exponent; only its being zero is observed. *)
Inductive pyval :=
| VNone
| VBool (b : bool)
| VInt (z : Z)
| VFloat (mant : Z) (exp : Z)
| VStr (s : pystr)
| VList (l : list pyval)
| VDict (kvs : list (pystr * pyval)).

(** [bool(v)] *)
Definition truthy (v : pyval) : bool :=
  match v with
  | VNone => false
  | VBool b => b
  | VInt z => negb (z =? 0)%Z
  | VFloat m _ => negb (m =? 0)%Z
  | VStr s => match s with [] => false | _ => true end
  | VList l => match l with [] => false | _ => true end
  | VDict d => match d with [] => false | _ => true end
  end.

Fixpoint assoc (k : pystr) (kvs : list (pystr * pyval)) : option pyval :=
  match kvs with
  | [] => None
  | (k', v) :: r => if pystr_eqb k k' then Some v else assoc k r
  end.

(** [v[key]] for a string key. *)
Definition getitem (v : pyval) (key : pystr) : result pyval :=
  match v with
  | VDict d => match assoc key d with Some x => Ok x | None => Raise KeyError end
  | _ => Raise TypeError
  end.

(** [v[0]] *)
Definition getitem0 (v : pyval) : result pyval :=
  match v with
  | VList (x :: _) => Ok x
  | VList [] => Raise IndexError
  | VStr (c :: _) => Ok (VStr [c])
  | VStr [] => Raise IndexError
  | VDict _ => Raise KeyError
  | _ => Raise TypeError
  end.

(** [v.get(key, default)]: only mappings have a [get] method. *)
Definition dict_get (v : pyval) (key : pystr) (default : pyval) : result pyval :=
  match v with
  | VDict d => Ok (match assoc key d with Some x => x | None => default end)
  | _ => Raise AttributeError
  end.

Definition rbind {A B} (m : result A) (k : A -> result B) : result B :=
  match m with
  | Ok a => k a
  | Raise e => Raise e
  end.

Notation "x <~ m ;; k" := (rbind m (fun x => k))
  (at level 100, m at next level, right associativity).

(** What the transcription call hands back: an SDK model object, whose
    [to_dict()] returns a value or raises and which has no [keys]
    attribute, or a plain Python value, which has no [to_dict] method. *)
Inductive response :=
| SdkResponse (to_dict : result pyval)
| PlainValue (v : pyval).

Definition call_to_dict (r : response) : result pyval :=
  match r with
  | SdkResponse d => d
  | PlainValue _ => Raise AttributeError
  end.

(** [hasattr(response_obj, "keys")] *)
Definition has_keys (r : response) : bool :=
  match r with
  | PlainValue (VDict _) => true
  | _ => false
  end.

Definition as_data (r : response) : pyval :=
  match r with
  | PlainValue v => v
  | SdkResponse _ => VNone
  end.

(** ** ResultExtractor *)

Definition ERROR_MARKER : pystr := py "[Error: Could not process response object]".

(** [data["results"]["channels"][0]["alternatives"][0]] *)
Definition first_alternative (data : pyval) : result pyval :=
  r <~ getitem data (py "results") ;;
  chs <~ getitem r (py "channels") ;;
  ch <~ getitem0 chs ;;
  alts <~ getitem ch (py "alternatives") ;;
  getitem0 alts.

(** [alt.get("paragraphs", {}).get("transcript") or alt.get("transcript", "") or ""] *)
Definition pick_transcript (alt : pyval) : result pyval :=
  paras <~ dict_get alt (py "paragraphs") (VDict []) ;;
  a <~ dict_get paras (py "transcript") VNone ;;
  if truthy a then Ok a else
  b <~ dict_get alt (py "transcript") (VStr []) ;;
  if truthy b then Ok b else Ok (VStr []).

(** The second [try] block: [transcript] and [confidence] keep the
    values they had when an exception interrupts the block. *)
Definition read_alternative (data : pyval) : pyval * pyval :=
  match first_alternative data with
  | Raise _ => (VStr [], VNone)
  | Ok alt =>
      match pick_transcript alt with
      | Raise _ => (VStr [], VNone)
      | Ok transcript =>
          match dict_get alt (py "confidence") VNone with
          | Raise _ => (transcript, VNone)
          | Ok confidence => (transcript, confidence)
          end
      end
  end.

(** Returns [(transcript_text, full_json, confidence)]. *)
Definition extract_transcript_from_response (response_obj : response)
  : result (pyval * pyval * pyval) :=
  let finish (data : pyval) :=
    let '(transcript, confidence) := read_alternative data in
    Ok (transcript, data, confidence) in
  match call_to_dict response_obj with
  | Ok data => finish data
  | Raise _ =>
      if has_keys response_obj then finish (as_data response_obj)
      else Ok (VStr ERROR_MARKER, VDict [], VNone)
  end.

(** The data the extractor reads the alternative from: the result of
    [to_dict()], or the response itself when it is a mapping; [None]
    when the response is neither convertible nor mapping-like. *)
Definition payload_of (r : response) : option pyval :=
  match call_to_dict r with
  | Ok data => Some data
  | Raise _ => if has_keys r then Some (as_data r) else None
  end.

(** The response has the nested first-channel/first-alternative shape. *)
Definition expected_shape (r : response) : Prop :=
  exists data alt, payload_of r = Some data /\ first_alternative data = Ok alt.

(** ** DocumentRenderer *)

Definition EM_DASH : N := 8212.
Definition EN_DASH : N := 8211.

(** The [replacements] dictionary, in insertion order. *)
Definition replacements : list (N * pystr) :=
  [ (EM_DASH, py "-"); (EN_DASH, py "-"); (8230, py "...");
    (8220, [34]); (8221, [34]); (8216, py "'"); (8217, py "'");
    (160, py " "); (8203, []) ].

(** [s.encode("latin-1", "replace").decode("latin-1")] *)
Definition latin1_replace (s : pystr) : pystr :=
  List.map (fun c => if c <=? 255 then c else 63) s.

Definition _sanitize_for_core_fonts (s : pystr) : pystr :=
  latin1_replace
    (fold_left (fun acc kv => replace1 (fst kv) (snd kv) acc) replacements s).

(** What the renderer can see of the machine it runs on. *)
Record FontEnv := {
  fonts_dir : pystr;
  path_exists : pystr -> bool;
  add_font_ok : pystr -> bool
}.

Definition local_candidates : list (pystr * pystr) :=
  [ (py "DejaVuSans.ttf", py "DejaVuSans-Bold.ttf");
    (py "NotoSans-Regular.ttf", py "NotoSans-Bold.ttf");
    (py "Inter-Regular.ttf", py "Inter-Bold.ttf") ].

Definition win_fonts : pystr := py "C:/Windows/Fonts".

Definition win_pairs : list (pystr * pystr) :=
  [ (py "segoeui.ttf", py "segoeuib.ttf");
    (py "arial.ttf", py "arialbd.ttf");
    (py "calibri.ttf", py "calibrib.ttf");
    (py "times.ttf", py "timesbd.ttf") ].

Fixpoint first_existing (env : FontEnv) (dir : pystr) (pairs : list (pystr * pystr))
  : option (pystr * option pystr) :=
  match pairs with
  | [] => None
  | (reg, bold) :: rest =>
      let reg_p := joinpath dir reg in
      let bold_p := joinpath dir bold in
      if path_exists env reg_p
      then Some (reg_p, if path_exists env bold_p then Some bold_p else None)
      else first_existing env dir rest
  end.

Definition _find_unicode_font_paths (env : FontEnv) : option pystr * option pystr :=
  match first_existing env (fonts_dir env) local_candidates with
  | Some (r, b) => (Some r, b)
  | None =>
      if path_exists env win_fonts then
        match first_existing env win_fonts win_pairs with
        | Some (r, b) => (Some r, b)
        | None => (None, None)
        end
      else (None, None)
  end.

Inductive pdf_op :=
| SetAutoPageBreak (margin : N)
| AddPage
| AddFont (family style file : pystr)
| SetFont (family style : pystr) (size : N)
| Cell (w h : N) (txt : pystr)
| MultiCell (w h : N) (txt : pystr)
| Ln (h : N)
| Output (path : pystr).

Definition font : Type := pystr * pystr * N.
Definition family (f : font) : pystr := fst (fst f).
Definition set_font (f : font) : pdf_op := SetFont (fst (fst f)) (snd (fst f)) (snd f).

Record fonts := {
  header_font : font;
  body_font : font;
  meta_font : font
}.

Definition core_fonts : fonts :=
  {| header_font := (py "Helvetica", py "B", 16);
     body_font := (py "Helvetica", py "", 12);
     meta_font := (py "Helvetica", py "", 10) |}.

Definition unicode_fonts (header_style : pystr) : fonts :=
  {| header_font := (py "U", header_style, 16);
     body_font := (py "U", py "", 12);
     meta_font := (py "U", py "", 10) |}.

(** The font registration block: the [add_font] calls issued and, when
    no exception interrupted the [try], the fonts it selected.  [None]
    is the case [using_core = True]. *)
Definition register_fonts (env : FontEnv) (reg_ttf bold_ttf : option pystr)
  : list pdf_op * option fonts :=
  match reg_ttf with
  | None => ([], None)
  | Some reg =>
      if add_font_ok env reg then
        match bold_ttf with
        | Some b =>
            if path_exists env b then
              if add_font_ok env b
              then ([AddFont (py "U") (py "") reg; AddFont (py "U") (py "B") b],
                    Some (unicode_fonts (py "B")))
              else ([AddFont (py "U") (py "") reg], None)
            else ([AddFont (py "U") (py "") reg], Some (unicode_fonts (py "")))
        | None => ([AddFont (py "U") (py "") reg], Some (unicode_fonts (py "")))
        end
      else ([], None)
  end.

(** [if using_core: header_font = ("Helvetica", "B", 16) ...] *)
Definition fonts_in_force (chosen : option fonts) : fonts :=
  match chosen with
  | Some fs => fs
  | None => core_fonts
  end.

Fixpoint prefixb (p s : pystr) : bool :=
  match p, s with
  | [], _ => true
  | _ :: _, [] => false
  | x :: p', y :: s' => (x =? y) && prefixb p' s'
  end.

(** [needle in hay] on strings *)
Fixpoint contains (needle hay : pystr) : bool :=
  prefixb needle hay ||
  match hay with
  | [] => false
  | _ :: r => contains needle r
  end.

(** [if "Helvetica" in f[0]: s = _sanitize_for_core_fonts(s)] *)
Definition sanitize_if_core (f : font) (s : pystr) : pystr :=
  if contains (py "Helvetica") (family f) then _sanitize_for_core_fonts s else s.

(** Line boundaries recognised by [str.splitlines]. *)
Definition is_linebreak (c : N) : bool :=
  in_range 10 13 c || in_range 28 30 c || (c =? 133) || (c =? 8232) || (c =? 8233).

(** [cur] holds the current line, reversed. *)
Fixpoint splitlines_from (cur : pystr) (s : pystr) : list pystr :=
  match s with
  | [] => match cur with [] => [] | _ => [rev cur] end
  | c :: r =>
      if is_linebreak c then
        rev cur :: match r with
                   | d :: r' =>
                       if (c =? 13) && (d =? 10) then splitlines_from [] r'
                       else splitlines_from [] r
                   | [] => []
                   end
      else splitlines_from (c :: cur) r
  end.

Definition splitlines (s : pystr) : list pystr := splitlines_from [] s.

(** [not nonempty] strings and [None] both fail the test
    [Path(x) if x else None]. *)
Definition if_given (o : option pystr) : option pystr :=
  match o with
  | Some (c :: r) => Some (c :: r)
  | _ => None
  end.

Section Renderer.
Context {T : PyChars}.

Definition body_op (f : font) (line : pystr) : pdf_op :=
  let out := sanitize_if_core f line in
  match strip out with
  | [] => Ln 4
  | _ => MultiCell 0 6 out
  end.

(** [title.replace(EM_DASH, "-").replace(EN_DASH, "-")] *)
Definition title_dashes (title : pystr) : pystr :=
  replace1 EN_DASH (py "-") (replace1 EM_DASH (py "-") title).

(** [meta["info"]] when [meta] is a non-empty mapping with that key. *)
Definition meta_info_of (meta : option (list (pystr * pystr))) : option pystr :=
  match meta with
  | Some ((k, v) :: d) =>
      match List.find (fun kv => pystr_eqb (py "info") (fst kv)) ((k, v) :: d) with
      | Some (_, info) => Some info
      | None => None
      end
  | _ => None
  end.

Definition header_ops (fs : fonts) (now title : pystr)
  (meta : option (list (pystr * pystr))) : list pdf_op :=
  [ set_font (header_font fs);
    Cell 0 10 (sanitize_if_core (header_font fs) (title_dashes title));
    set_font (meta_font fs);
    Cell 0 8 (sanitize_if_core (meta_font fs) (py "Generated: " ++ now)) ]
  ++ match meta_info_of meta with
     | Some info =>
         [MultiCell 0 6 (py "Info: " ++ sanitize_if_core (meta_font fs) info)]
     | None => []
     end
  ++ [Ln 3].

(** [reg_ttf] and [bold_ttf] after the caller's paths are preferred
    over the fonts found on the machine. *)
Definition resolve_fonts (env : FontEnv) (font_regular font_bold : option pystr)
  : option pystr * option pystr :=
  let chosen_reg := if_given font_regular in
  let chosen_bold := if_given font_bold in
  let '(found_reg, auto_bold) := _find_unicode_font_paths env in
  (match chosen_reg with Some r => Some r | None => found_reg end,
   match chosen_bold with Some b => Some b | None => auto_bold end).

(** The calls [to_pdf] issues on the [FPDF] object, ending with
    [pdf.output].  [now] is the formatted [datetime.now()]. *)
Definition to_pdf_document (env : FontEnv) (now : pystr)
  (text pdf_path title : pystr) (meta : option (list (pystr * pystr)))
  (font_regular font_bold : option pystr) (minimal : bool) : list pdf_op :=
  let '(reg_ttf, bold_ttf) := resolve_fonts env font_regular font_bold in
  let '(added, chosen) := register_fonts env reg_ttf bold_ttf in
  let fs := fonts_in_force chosen in
  [SetAutoPageBreak 15; AddPage] ++ added
  ++ (if minimal then [] else header_ops fs now title meta)
  ++ [set_font (body_font fs)]
  ++ List.map (body_op (body_font fs)) (splitlines text)
  ++ [Output pdf_path].

(** [using_core] at the end of the registration block. *)
Definition using_core (env : FontEnv) (font_regular font_bold : option pystr) : bool :=
  let '(reg_ttf, bold_ttf) := resolve_fonts env font_regular font_bold in
  match snd (register_fonts env reg_ttf bold_ttf) with
  | Some _ => false
  | None => true
  end.

(** The text fragments a document carries, in order. *)
Definition written_texts (doc : list pdf_op) : list pystr :=
  flat_map (fun op => match op with
                      | Cell _ _ txt => [txt]
                      | MultiCell _ _ txt => [txt]
                      | _ => []
                      end) doc.

Definition nonblank (line : pystr) : bool :=
  match strip line with
  | [] => false
  | _ => true
  end.

(** The fragments of a document whose title, timestamp line, metadata
    value and body lines are each passed through [f]; the title has its
    dashes replaced beforehand, and blank lines carry no text. *)
Definition fragments_through (f : pystr -> pystr) (now text title : pystr)
  (meta : option (list (pystr * pystr))) (minimal : bool) : list pystr :=
  (if minimal then []
   else [f (title_dashes title); f (py "Generated: " ++ now)]
        ++ match meta_info_of meta with
           | Some info => [py "Info: " ++ f info]
           | None => []
           end)
  ++ List.filter nonblank (List.map f (splitlines text)).

End Renderer.

(** ** The orchestrator's state and effects *)

Inductive file_content :=
| TextFile (s : pystr)
| PdfFile (doc : list pdf_op).

(** One constructor per [log_callback] call site, carrying the values
    interpolated into the message. *)
Inductive log_msg :=
| MsgNoFfmpeg
| MsgNoFiles
| MsgFound (n : nat)
| MsgSkip (idx total : nat) (name : pystr)
| MsgProcessing (idx total : nat) (name : pystr)
| MsgAudioExtracted (wav_name : pystr)
| MsgExtractFailed (name : pystr)
| MsgTranscriptionError (e : exn)
| MsgPdfError (e : exn)
| MsgSaved (txt_name json_name pdf_name : pystr)
| MsgDone.

(** [files]: the regular files on disk; [log]: what the progress sink
    received, oldest first; [submitted]: the paths handed to
    [transcribe_audio_file]; [rendered]: the texts handed to [to_pdf]. *)
Record State := {
  files : gmap pystr file_content;
  log : list log_msg;
  submitted : list pystr;
  rendered : list pystr
}.

(** [s'] differs from [s] at most in its files. *)
Definition only_files (s s' : State) : Prop :=
  log s' = log s /\ submitted s' = submitted s /\ rendered s' = rendered s.

Definition M (A : Type) : Type := State -> result A * State.

Definition ret {A} (a : A) : M A := fun s => (Ok a, s).

Definition raise {A} (e : exn) : M A := fun s => (Raise e, s).

Definition bind {A B} (m : M A) (k : A -> M B) : M B :=
  fun s => match m s with
           | (Ok a, s') => k a s'
           | (Raise e, s') => (Raise e, s')
           end.

Notation "x <- m ;; k" := (bind m (fun x => k))
  (at level 100, m at next level, right associativity).
Notation "m1 ;; m2" := (bind m1 (fun _ => m2))
  (at level 100, right associativity).

(** [try: body / except Exception as e: handler e]; the effects of the
    interrupted body stay. *)
Definition try_except {A} (body : M A) (handler : exn -> M A) : M A :=
  fun s => match body s with
           | (Ok a, s') => (Ok a, s')
           | (Raise e, s') => handler e s'
           end.

Definition lift {A} (r : result A) : M A := fun s => (r, s).

Definition log_callback (m : log_msg) : M unit :=
  fun s => (Ok tt, {| files := files s; log := log s ++ [m];
                      submitted := submitted s; rendered := rendered s |}).

(** [p.exists()] for a path that can only name a regular file. *)
Definition has_file (s : State) (p : pystr) : bool :=
  bool_decide (is_Some (files s !! p)).

Definition path_is_file (p : pystr) : M bool :=
  fun s => (Ok (has_file s p), s).

(** The file name announced by a per-file opening message. *)
Definition header_of (m : log_msg) : option pystr :=
  match m with
  | MsgSkip _ _ name => Some name
  | MsgProcessing _ _ name => Some name
  | _ => None
  end.

(** The files a log announces, in the order it announces them. *)
Definition headers (l : list log_msg) : list pystr :=
  flat_map (fun m => match header_of m with Some n => [n] | None => [] end) l.

(** The messages of a run of [names], numbered from [idx], in which
    every file is skipped. *)
Fixpoint skip_msgs (total idx : nat) (names : list pystr) : list log_msg :=
  match names with
  | [] => []
  | name :: rest => MsgSkip idx total name :: skip_msgs total (S idx) rest
  end.

Definition put_file (p : pystr) (c : file_content) : M unit :=
  fun s => (Ok tt, {| files := <[p := c]> (files s); log := log s;
                      submitted := submitted s; rendered := rendered s |}).

Definition note_submitted (p : pystr) : M unit :=
  fun s => (Ok tt, {| files := files s; log := log s;
                      submitted := submitted s ++ [p]; rendered := rendered s |}).

Definition note_rendered (text : pystr) : M unit :=
  fun s => (Ok tt, {| files := files s; log := log s;
                      submitted := submitted s; rendered := rendered s ++ [text] |}).

(** [s'] is [s] after more work: no file is gone and the log has grown
    by messages announcing exactly [hs]. *)
Definition grows (s s' : State) (hs : list pystr) : Prop :=
  (forall p, is_Some (files s !! p) -> is_Some (files s' !! p))
  /\ exists l, log s' = log s ++ l /\ headers l = hs.

(** The machine and the services the batch talks to.  Every field is
    the outcome of one external call of the source: [mkdir_ok p] and
    [can_write p] tell whether [p.mkdir] and [open(p, "w")] succeed,
    [ffmpeg_run src wav] is how the extraction run ends, [service p] is
    what [transcribe_file] answers for the bytes of [p] under the run's
    options, [json_dumps ensure_ascii indent v] is the text [json.dump]
    writes or the exception it raises, [mkdtemp idx] names the temporary
    directory of iteration [idx], and [now] is the formatted clock.
    Creating the temporary directory is taken to succeed.  Once a file
    has been opened, writing the transcript succeeds exactly when UTF-8
    can encode it; what [json.dump] raises while it writes is part of
    [json_dumps], and the string form of a response is taken to be
    encodable. *)
Record World := {
  mkdir_ok : pystr -> bool;
  is_dir : pystr -> bool;
  iterdir : pystr -> list dir_entry;
  client_ok : bool;
  ffmpeg_present : bool;
  ffmpeg_run : pystr -> pystr -> result unit;
  mkdtemp : nat -> pystr;
  service : pystr -> result response;
  json_dumps : bool -> N -> pyval -> result pystr;
  str_of_response : response -> pystr;
  str_of_value : pyval -> pystr;
  can_write : pystr -> bool;
  font_env : FontEnv;
  now : pystr
}.

(** [tmp_dir / f"{input_path.stem}.wav"] in iteration [idx]. *)
Definition wav_of (w : World) (idx : nat) (name : pystr) : pystr :=
  joinpath (mkdtemp w idx) (stem name ++ py ".wav").

(** The arguments of [process_videos]; directory strings are taken as
    already expanded and resolved. *)
Record Config := {
  input_dir : pystr;
  output_dir : pystr;
  language : option pystr;
  model : pystr;
  smart_format : bool;
  overwrite : bool;
  pdf_minimal : bool;
  txt_dir_str : option pystr;
  json_dir_str : option pystr;
  pdf_dir_str : option pystr;
  font_regular : option pystr;
  font_bold : option pystr
}.

Definition dir_or (given : option pystr) (default : pystr) : pystr :=
  match if_given given with
  | Some d => d
  | None => default
  end.

Definition txt_dir (cfg : Config) : pystr :=
  dir_or (txt_dir_str cfg) (joinpath (output_dir cfg) (py "txt")).
Definition json_dir (cfg : Config) : pystr :=
  dir_or (json_dir_str cfg) (joinpath (output_dir cfg) (py "json")).
Definition pdf_dir (cfg : Config) : pystr :=
  dir_or (pdf_dir_str cfg) (joinpath (output_dir cfg) (py "pdf")).

(** A code point in the surrogate range, which UTF-8 does not encode. *)
Definition is_surrogate (c : N) : bool := (55296 <=? c) && (c <=? 57343).

(** [s.encode("utf-8")] succeeds. *)
Definition utf8_encodable (s : pystr) : bool :=
  forallb (fun c => negb (is_surrogate c)) s.

Definition PLACEHOLDER : pystr :=
  py "[Transcripci" ++ [243] ++ py "n vac" ++ [237] ++ py "a]" ++ [10]
  ++ py "(Revisa el archivo .deepgram.json para ver la respuesta completa.)".

Definition TITLE_PREFIX : pystr := py "Transcripci" ++ [243] ++ py "n - ".

(** ** BatchOrchestrator *)

Section Orchestrator.
Context {T : PyChars}.
Variable w : World.
Variable cfg : Config.

(** [clean_filename(src.stem)] *)
Definition base_name (name : pystr) : pystr := clean_filename (stem name).

Definition txt_path (name : pystr) : pystr :=
  joinpath (txt_dir cfg) (base_name name ++ py ".txt").
Definition json_path (name : pystr) : pystr :=
  joinpath (json_dir cfg) (base_name name ++ py ".deepgram.json").
Definition pdf_path (name : pystr) : pystr :=
  joinpath (pdf_dir cfg) (base_name name ++ py ".pdf").

(** All three artifacts of [name] are on disk. *)
Definition complete (s : State) (name : pystr) : bool :=
  has_file s (txt_path name) && has_file s (pdf_path name)
  && has_file s (json_path name).

(** [src], the path of the directory entry called [name]. *)
Definition src_path (name : pystr) : pystr := joinpath (input_dir cfg) name.

(** [p.mkdir(parents=True, exist_ok=True)] *)
Definition mkdir (p : pystr) : M unit :=
  if mkdir_ok w p then ret tt else raise OSError.

(** [open(path, "w")]: truncates the file, or raises. *)
Definition open_w (path : pystr) : M unit :=
  if can_write w path then put_file path (TextFile []) else raise OSError.

Definition extract_audio_with_ffmpeg (name : pystr) (tmp_dir : pystr) : M pystr :=
  let output_wav := joinpath tmp_dir (stem name ++ py ".wav") in
  _ <- lift (ffmpeg_run w (src_path name) output_wav) ;;
  ret output_wav.

Definition transcribe_audio_file (audio_path : pystr) : M response :=
  note_submitted audio_path ;;
  lift (service w audio_path).

(** The body of the [with tempfile.TemporaryDirectory()] block up to the
    transcription call: the path that will be submitted. *)
Definition prepare_audio (ffmpeg_ok : bool) (idx : nat) (name : pystr) : M pystr :=
  if is_video name && ffmpeg_ok then
    try_except
      (use_path <- extract_audio_with_ffmpeg name (mkdtemp w idx) ;;
       log_callback (MsgAudioExtracted (stem name ++ py ".wav")) ;;
       ret use_path)
      (fun e => match e with
                | CalledProcessError =>
                    log_callback (MsgExtractFailed name) ;;
                    ret (src_path name)
                | _ => raise e
                end)
  else ret (src_path name).

(** [if not transcript_text.strip(): transcript_text = PLACEHOLDER] *)
Definition text_or_placeholder (t : pystr) : pystr :=
  match strip t with
  | [] => PLACEHOLDER
  | _ => t
  end.

(** The same test on what the extractor returned: a transcript that is
    not a string has no [strip]. *)
Definition final_text (transcript : pyval) : M pystr :=
  match transcript with
  | VStr t => ret (text_or_placeholder t)
  | _ => raise AttributeError
  end.

(** What the two-step structured-payload write leaves at its path when
    the path can be opened. *)
Definition json_artifact (full_json : pyval) (resp : response) : file_content :=
  TextFile match json_dumps w false 2 full_json with
           | Ok text => text
           | Raise _ => str_of_response w resp
           end.

Definition write_json (path : pystr) (full_json : pyval) (resp : response) : M unit :=
  try_except
    (open_w path ;;
     text <- lift (json_dumps w false 2 full_json) ;;
     put_file path (TextFile text))
    (fun _ =>
     open_w path ;;
     put_file path (TextFile (str_of_response w resp))).

(** [with open(path, "w", encoding="utf-8") as f: f.write(text)]: the
    file is truncated when it is opened, and stays empty when the text
    cannot be encoded. *)
Definition write_txt (path : pystr) (text : pystr) : M unit :=
  open_w path ;;
  if utf8_encodable text then put_file path (TextFile text)
  else raise UnicodeEncodeError.

Definition meta_info (confidence : pyval) : pystr :=
  py "Model=" ++ model cfg
  ++ py " | Language=" ++ match if_given (language cfg) with
                          | Some l => l
                          | None => py "auto"
                          end
  ++ py " | Confidence=" ++ match confidence with
                            | VNone => py "n/a"
                            | c => str_of_value w c
                            end.

(** The document [to_pdf] builds for one call. *)
Definition pdf_artifact (text path title : pystr)
  (meta : option (list (pystr * pystr))) : file_content :=
  PdfFile (to_pdf_document (font_env w) (now w) text path title meta
             (font_regular cfg) (font_bold cfg) (pdf_minimal cfg)).

Definition to_pdf (text path title : pystr) (meta : option (list (pystr * pystr))) : M unit :=
  note_rendered text ;;
  if can_write w path then put_file path (pdf_artifact text path title meta)
  else raise OSError.

(** The [meta] argument of the [to_pdf] call. *)
Definition meta_of (confidence : pyval) : option (list (pystr * pystr)) :=
  Some [(py "info", meta_info confidence)].

(** Everything after the [with] block. *)
Definition finish_file (name : pystr) (resp : response) : M unit :=
  ex <- lift (extract_transcript_from_response resp) ;;
  let '(transcript, full_json, confidence) := ex in
  transcript_text <- final_text transcript ;;
  write_json (json_path name) full_json resp ;;
  write_txt (txt_path name) transcript_text ;;
  let meta := meta_of confidence in
  try_except
    (to_pdf transcript_text (pdf_path name) (TITLE_PREFIX ++ stem name) meta)
    (fun e => log_callback (MsgPdfError e)) ;;
  log_callback (MsgSaved (base_name name ++ py ".txt")
                         (base_name name ++ py ".deepgram.json")
                         (base_name name ++ py ".pdf")).

(** The transcription call and everything after it, for the path
    [use_path] chosen by [prepare_audio].  A failed call is logged and
    ends the iteration ([continue]). *)
Definition transcribe_and_finish (use_path name : pystr) : M unit :=
  r <- try_except
         (resp <- transcribe_audio_file use_path ;; ret (Some resp))
         (fun e => log_callback (MsgTranscriptionError e) ;; ret None) ;;
  match r with
  | None => ret tt
  | Some resp => finish_file name resp
  end.

(** [not overwrite and txt_path.exists() and pdf_path.exists() and
    json_path.exists()] *)
Definition already_processed (name : pystr) : M bool :=
  t <- path_is_file (txt_path name) ;;
  p <- path_is_file (pdf_path name) ;;
  j <- path_is_file (json_path name) ;;
  ret (negb (overwrite cfg) && t && p && j).

(** One iteration of the loop. *)
Definition process_file (ffmpeg_ok : bool) (total idx : nat) (name : pystr) : M unit :=
  skip <- already_processed name ;;
  if skip then
    log_callback (MsgSkip idx total name)
  else
    log_callback (MsgProcessing idx total name) ;;
    use_path <- prepare_audio ffmpeg_ok idx name ;;
    transcribe_and_finish use_path name.

(** [for idx, src in enumerate(files, start=idx): body idx src] *)
Fixpoint for_each (idx : nat) (names : list pystr) (body : nat -> pystr -> M unit) : M unit :=
  match names with
  | [] => ret tt
  | name :: rest => body idx name ;; for_each (S idx) rest body
  end.

(** The part of [process_videos] that follows discovery. *)
Definition transcribe_all (ffmpeg_ok : bool) (names : list pystr) : M unit :=
  match names with
  | [] => log_callback MsgNoFiles
  | _ =>
      log_callback (MsgFound (length names)) ;;
      for_each 1 names (process_file ffmpeg_ok (length names)) ;;
      log_callback MsgDone
  end.

Definition process_videos : M unit :=
  mkdir (output_dir cfg) ;;
  mkdir (txt_dir cfg) ;;
  mkdir (json_dir cfg) ;;
  mkdir (pdf_dir cfg) ;;
  if negb (is_dir w (input_dir cfg)) then raise FileNotFoundError else
  (if client_ok w then ret tt else raise ValueError) ;;
  let ffmpeg_ok := ffmpeg_present w in
  (if ffmpeg_ok then ret tt else log_callback MsgNoFfmpeg) ;;
  transcribe_all ffmpeg_ok (discover (iterdir w (input_dir cfg))).

(** Everything [process_videos] does before discovery succeeds. *)
Definition starts : bool :=
  mkdir_ok w (output_dir cfg) && mkdir_ok w (txt_dir cfg)
  && mkdir_ok w (json_dir cfg) && mkdir_ok w (pdf_dir cfg)
  && is_dir w (input_dir cfg) && client_ok w.

(** What the sink receives in a run over [names] that skips them all. *)
Definition all_skipped_log (names : list pystr) : list log_msg :=
  (if ffmpeg_present w then [] else [MsgNoFfmpeg])
  ++ match names with
     | [] => [MsgNoFiles]
     | _ => MsgFound (length names)
            :: skip_msgs (length names) 1 names ++ [MsgDone]
     end.

End Orchestrator.

Definition initial_state : State :=
  {| files := ∅; log := []; submitted := []; rendered := [] |}.

(** [ffmpeg], when run, either succeeds or exits non-zero. *)
Definition ffmpeg_exits (w : World) : Prop :=
  forall a b, ffmpeg_run w a b = Ok tt \/ ffmpeg_run w a b = Raise CalledProcessError.


(** A machine on which nothing fails: every path can be opened for
    writing, every transcription request returns a response with a
    textual transcript that UTF-8 can encode, and [ffmpeg] at worst
    exits non-zero. *)
Definition healthy (w : World) : Prop :=
  (forall p, can_write w p = true)
  /\ (forall p, exists resp t d c,
         service w p = Ok resp
         /\ extract_transcript_from_response resp = Ok (VStr t, d, c)
         /\ utf8_encodable t = true)
  /\ ffmpeg_exits w.

(** The state a run leaves behind, with the record of the earlier run's
    messages and calls cleared: the starting point of the next run. *)
Definition next_run (s : State) : State :=
  {| files := files s; log := []; submitted := []; rendered := [] |}.

(** ** Sanitisation, character by character *)

(** What [_sanitize_for_core_fonts] makes of one character. *)
Definition sanitize_char (c : N) : pystr :=
  if (c =? EM_DASH) || (c =? EN_DASH) then py "-"
  else if c =? 8230 then py "..."
  else if (c =? 8220) || (c =? 8221) then [34]
  else if (c =? 8216) || (c =? 8217) then py "'"
  else if c =? 160 then py " "
  else if c =? 8203 then []
  else if c <=? 255 then [c]
  else [63].

(** A code point the core fonts can encode and the sanitiser keeps. *)
Definition core_char (c : N) : Prop := c <= 255 /\ c <> 160.

(** ** Reading the log *)

Definition is_skip (m : log_msg) : bool :=
  match m with
  | MsgSkip _ _ _ => true
  | _ => false
  end.

(** Index, total and file name of a per-file opening message. *)
Definition opening_of (m : log_msg) : option (nat * nat * pystr) :=
  match m with
  | MsgSkip idx total name => Some (idx, total, name)
  | MsgProcessing idx total name => Some (idx, total, name)
  | _ => None
  end.

Definition openings (l : list log_msg) : list (nat * nat * pystr) :=
  flat_map (fun m => match opening_of m with Some o => [o] | None => [] end) l.

(** [enumerate(names, start=idx)], each entry paired with [total]. *)
Fixpoint numbered (total idx : nat) (names : list pystr) : list (nat * nat * pystr) :=
  match names with
  | [] => []
  | name :: rest => (idx, total, name) :: numbered total (S idx) rest
  end.

(** ** Entry points *)

(** What [main] prints on the error stream. *)
Inductive stderr_line :=
| ErrMissingKey
| ErrException (e : exn).

(** The fields of the form, as [get()] returns them. *)
Record Form := {
  api_key_entry : pystr;
  input_dir_entry : pystr;
  output_dir_entry : pystr;
  language_entry : pystr;
  model_entry : pystr;
  smart_format_var : bool;
  overwrite_var : bool;
  pdf_minimal_var : bool
}.

Inductive dialog :=
| ErrorRequiredFields
| ErrorInputDir
| ErrorOutputDir
| ErrorDuringRun (e : exn)
| InfoSuccess.

(** A line of the log text box: a pipeline message, or one of the
    front end's own. *)
Inductive gui_line :=
| Line (m : log_msg)
| LineOutputCreated (dir : pystr)
| LineCompleted
| LineError (e : exn).

Record Gui := {
  textbox : list gui_line;
  dialogs : list dialog;
  start_enabled : bool
}.

(** [x or default] on strings *)
Definition str_or (x default : pystr) : pystr :=
  match x with
  | [] => default
  | _ => x
  end.

(** [x or None] on strings *)
Definition str_or_none (x : pystr) : option pystr :=
  match x with
  | [] => None
  | _ => Some x
  end.

(** The keyword arguments [run_transcription] passes on; the optional
    directories and fonts keep their [None] defaults. *)
Definition gui_config (f : Form) : Config :=
  {| input_dir := input_dir_entry f;
     output_dir := output_dir_entry f;
     language := str_or_none (language_entry f);
     model := str_or (model_entry f) (py "nova-3");
     smart_format := smart_format_var f;
     overwrite := overwrite_var f;
     pdf_minimal := pdf_minimal_var f;
     txt_dir_str := None;
     json_dir_str := None;
     pdf_dir_str := None;
     font_regular := None;
     font_bold := None |}.

Section EntryPoints.
Context {T : PyChars}.
Variable w : World.

(** [main], after [argparse] has produced [cfg] and [os.getenv] has
    produced [api_key]: the exit status, the error stream and the state
    left behind.  Standard output is the progress sink. *)
Definition main (api_key : option pystr) (cfg : Config) (s : State)
  : N * list stderr_line * State :=
  match if_given api_key with
  | None => (1, [ErrMissingKey], s)
  | Some _ =>
      match process_videos w cfg s with
      | (Ok _, s') => (0, [], s')
      | (Raise e, s') => (1, [ErrException e], s')
      end
  end.

(** [start_transcription_thread] up to the creation of the thread:
    the front end afterwards and, when a thread is started, the
    arguments it is given. *)
Definition start_transcription_thread (f : Form) (g : Gui) : Gui * option Config :=
  let reject (d : dialog) :=
    ({| textbox := textbox g; dialogs := dialogs g ++ [d];
        start_enabled := start_enabled g |}, None) in
  match api_key_entry f, input_dir_entry f, output_dir_entry f with
  | [], _, _ => reject ErrorRequiredFields
  | _, [], _ => reject ErrorRequiredFields
  | _, _, [] => reject ErrorRequiredFields
  | _, _, _ =>
      if negb (is_dir w (input_dir_entry f)) then reject ErrorInputDir
      else if negb (is_dir w (output_dir_entry f)) && negb (mkdir_ok w (output_dir_entry f))
      then reject ErrorOutputDir
      else ({| textbox := []; dialogs := dialogs g; start_enabled := false |},
            Some (gui_config f))
  end.

(** [run_transcription], the body of the thread: the front end and the
    state afterwards.  The sink is the text box. *)
Definition run_transcription (cfg : Config) (g : Gui) (s : State) : Gui * State :=
  match process_videos w cfg (next_run s) with
  | (Ok _, s') =>
      ({| textbox := textbox g ++ List.map Line (log s') ++ [LineCompleted];
          dialogs := dialogs g ++ [InfoSuccess];
          start_enabled := true |}, s')
  | (Raise e, s') =>
      ({| textbox := textbox g ++ List.map Line (log s') ++ [LineError e];
          dialogs := dialogs g ++ [ErrorDuringRun e];
          start_enabled := true |}, s')
  end.

End EntryPoints.

(** ** The footprint of a run *)

Section Footprint.
Context {T : PyChars}.
Variable w : World.
Variable cfg : Config.

(** [p] is one of the three destination paths of a file of [names]. *)
Definition destination (names : list pystr) (p : pystr) : Prop :=
  exists n, In n names
            /\ (p = txt_path cfg n \/ p = json_path cfg n \/ p = pdf_path cfg n).

(** [p] is a file of [names] in the source directory, or the audio
    extracted from one in a temporary directory. *)
Definition source_or_wav (names : list pystr) (p : pystr) : Prop :=
  exists n, In n names /\ (p = src_path cfg n \/ exists idx, p = wav_of w idx n).

(** What may differ between [s] and a later [s']: files at destination
    paths of [names], at most [k] further submissions, all of files of
    [names], and further log lines whose opening messages are [opens]
    and, with overwrite enabled, contain no skip. *)
Definition footprint (names : list pystr) (k : nat) (opens : list (nat * nat * pystr))
  (s s' : State) : Prop :=
  (forall p, ~ destination names p -> files s' !! p = files s !! p)
  /\ (exists l, submitted s' = submitted s ++ l
                /\ (length l <= k)%nat /\ Forall (source_or_wav names) l)
  /\ (exists l, log s' = log s ++ l /\ openings l = opens
                /\ (overwrite cfg = true -> Forall (fun m => is_skip m = false) l)).

End Footprint.

(** ** Sample environments

    Concrete machines and inputs on which the model is evaluated. *)

(** A machine on which only the font file [/f.ttf] exists, and
    registers. *)
Definition one_font_env : FontEnv :=
  {| fonts_dir := py "/app/fonts";
     path_exists := fun p => pystr_eqb p (py "/f.ttf");
     add_font_ok := fun _ => true |}.

(** A machine without any Unicode font. *)
Definition no_font_env : FontEnv :=
  {| fonts_dir := py "/app/fonts";
     path_exists := fun _ => false;
     add_font_ok := fun _ => true |}.

(** The title [A], em dash, [B]. *)
Definition dashed_title : pystr := [65; EM_DASH; 66].

(** A well-formed service response carrying [text] as its transcript. *)
Definition sample_response (text : pystr) : response :=
  SdkResponse (Ok (VDict [(py "results",
    VDict [(py "channels",
      VList [VDict [(py "alternatives",
        VList [VDict [(py "transcript", VStr text);
                      (py "confidence", VFloat 1 0)]])]])])])).

Definition file_entry (name : string) : dir_entry :=
  {| entry_name := py name; entry_is_file := true |}.

(** A machine whose input directory lists [listing], whose service
    answers [svc], on which exactly the paths accepted by [writable] can
    be opened for writing, and on which [ffmpeg], when present, ends
    with [run]. *)
Definition sample_world (listing : list dir_entry) (svc : pystr -> result response)
  (writable : pystr -> bool) (has_ffmpeg : bool) (run : result unit) : World :=
  {| mkdir_ok := fun _ => true;
     is_dir := fun _ => true;
     iterdir := fun _ => listing;
     client_ok := true;
     ffmpeg_present := has_ffmpeg;
     ffmpeg_run := fun _ _ => run;
     mkdtemp := fun _ => py "/tmp/td";
     service := svc;
     json_dumps := fun _ _ _ => Ok (py "{}");
     str_of_response := fun _ => py "<response>";
     str_of_value := fun _ => py "1.0";
     can_write := writable;
     font_env := no_font_env;
     now := py "2025-01-01 00:00:00" |}.

Definition sample_cfg (ow : bool) : Config :=
  {| input_dir := py "/in";
     output_dir := py "/out";
     language := Some (py "es");
     model := py "nova-3";
     smart_format := true;
     overwrite := ow;
     pdf_minimal := false;
     txt_dir_str := None;
     json_dir_str := None;
     pdf_dir_str := None;
     font_regular := None;
     font_bold := None |}.

Definition always_hola : pystr -> result response :=
  fun _ => Ok (sample_response (py "hola")).

Definition except_path (locked : string) : pystr -> bool :=
  fun p => negb (pystr_eqb p (py locked)).

(** One audio file; the text artifact's path cannot be opened. *)
Definition txt_locked_world : World :=
  sample_world [file_entry "a.mp3"] always_hola (except_path "/out/txt/a.txt")
               false (Ok tt).

(** One audio file; the structured payload's path cannot be opened. *)
Definition json_locked_world : World :=
  sample_world [file_entry "a.mp3"] always_hola
               (except_path "/out/json/a.deepgram.json") false (Ok tt).

(** One audio file; the transcription service rejects every request. *)
Definition service_down_world : World :=
  sample_world [file_entry "a.mp3"] (fun _ => Raise (ServiceError 401))
               (fun _ => true) false (Ok tt).

(** One audio file whose payload [json.dump] cannot serialise. *)
Definition unserialisable_world : World :=
  {| mkdir_ok := fun _ => true;
     is_dir := fun _ => true;
     iterdir := fun _ => [file_entry "a.mp3"];
     client_ok := true;
     ffmpeg_present := false;
     ffmpeg_run := fun _ _ => Ok tt;
     mkdtemp := fun _ => py "/tmp/td";
     service := always_hola;
     json_dumps := fun _ _ _ => Raise TypeError;
     str_of_response := fun _ => py "<response>";
     str_of_value := fun _ => py "1.0";
     can_write := fun _ => true;
     font_env := no_font_env;
     now := py "2025-01-01 00:00:00" |}.

(** Two audio files on a rough machine: the service fails on the first,
    the payload of the second does not serialise and its document cannot
    be written. *)
Definition rough_world : World :=
  {| mkdir_ok := fun _ => true;
     is_dir := fun _ => true;
     iterdir := fun _ => [file_entry "a.mp3"; file_entry "b.mp3"];
     client_ok := true;
     ffmpeg_present := false;
     ffmpeg_run := fun _ _ => Ok tt;
     mkdtemp := fun _ => py "/tmp/td";
     service := fun p => if pystr_eqb p (py "/in/a.mp3")
                         then Raise (ServiceError 500)
                         else Ok (sample_response (py "hola"));
     json_dumps := fun _ _ _ => Raise TypeError;
     str_of_response := fun _ => py "<response>";
     str_of_value := fun _ => py "1.0";
     can_write := except_path "/out/pdf/b.pdf";
     font_env := no_font_env;
     now := py "2025-01-01 00:00:00" |}.

(** One video file on a machine without [ffmpeg]. *)
Definition no_ffmpeg_world : World :=
  sample_world [file_entry "v.mp4"] always_hola (fun _ => true) false (Ok tt).

(** One video file; [ffmpeg] is present but its run exits non-zero. *)
Definition ffmpeg_failing_world : World :=
  sample_world [file_entry "v.mp4"] always_hola (fun _ => true) true
               (Raise CalledProcessError).

(** One audio file whose transcript comes back as blanks. *)
Definition blank_world : World :=
  sample_world [file_entry "a.mp3"] (fun _ => Ok (sample_response (py "  ")))
               (fun _ => true) false (Ok tt).

(** Two audio files whose names differ in one character, a space
    against an underscore; the service tells them apart. *)
Definition collision_world : World :=
  sample_world [file_entry "a_b.mp3"; file_entry "a b.mp3"]
               (fun p => if pystr_eqb p (py "/in/a b.mp3")
                         then Ok (sample_response (py "first"))
                         else Ok (sample_response (py "second")))
               (fun _ => true) false (Ok tt).

(** A payload whose first alternative is the mapping [alt], and the
    response that converts to it. *)
Definition payload_of_alternative (alt : list (pystr * pyval)) : pyval :=
  VDict [(py "results",
    VDict [(py "channels",
      VList [VDict [(py "alternatives", VList [VDict alt])]])])].

Definition response_of_alternative (alt : list (pystr * pyval)) : response :=
  SdkResponse (Ok (payload_of_alternative alt)).

(** An alternative with both transcripts. *)
Definition both_alt : list (pystr * pyval) :=
  [(py "transcript", VStr (py "flat"));
   (py "confidence", VFloat 1 0);
   (py "paragraphs", VDict [(py "transcript", VStr (py "by paragraph"))])].

(** An alternative whose paragraphs carry an empty transcript. *)
Definition empty_paragraphs_alt : list (pystr * pyval) :=
  [(py "transcript", VStr (py "flat"));
   (py "paragraphs", VDict [(py "transcript", VStr [])])].

(** An alternative whose paragraphs field is null. *)
Definition null_paragraphs_alt : list (pystr * pyval) :=
  [(py "transcript", VStr (py "flat"));
   (py "confidence", VFloat 1 0);
   (py "paragraphs", VNone)].

(** [alt.get("confidence")] *)
Definition confidence_of (alt : list (pystr * pyval)) : pyval :=
  match assoc (py "confidence") alt with
  | Some c => c
  | None => VNone
  end.

(** [alt.get("transcript", "") or ""] *)
Definition flat_transcript_of (alt : list (pystr * pyval)) : pyval :=
  match assoc (py "transcript") alt with
  | Some t => if truthy t then t else VStr []
  | None => VStr []
  end.

(** A machine whose source directory does not exist. *)
Definition missing_dir_world : World :=
  {| mkdir_ok := fun _ => true;
     is_dir := fun _ => false;
     iterdir := fun _ => [];
     client_ok := true;
     ffmpeg_present := true;
     ffmpeg_run := fun _ _ => Ok tt;
     mkdtemp := fun _ => py "/tmp/td";
     service := always_hola;
     json_dumps := fun _ _ _ => Ok (py "{}");
     str_of_response := fun _ => py "<response>";
     str_of_value := fun _ => py "1.0";
     can_write := fun _ => true;
     font_env := no_font_env;
     now := py "2025-01-01 00:00:00" |}.


(** A disk that already holds the source file. *)
Definition disk_with_source : State :=
  {| files := {[ py "/in/a.mp3" := TextFile (py "RIFF") ]};
     log := []; submitted := []; rendered := [] |}.

(** One video file; [ffmpeg] is present and its run succeeds. *)
Definition ffmpeg_ok_world : World :=
  sample_world [file_entry "v.mp4"] always_hola (fun _ => true) true (Ok tt).

(** One video file; [ffmpeg] is present but the attempt to run it ends
    with an operating-system error, not with a non-zero exit. *)
Definition ffmpeg_crash_world : World :=
  sample_world [file_entry "v.mp4"] always_hola (fun _ => true) true (Raise OSError).

(** One audio file on a machine whose service hands back [resp]. *)
Definition answering_world (resp : response) : World :=
  sample_world [file_entry "a.mp3"] (fun _ => Ok resp) (fun _ => true) false (Ok tt).

(** A response whose transcript field holds a number. *)
Definition numeric_transcript_response : response :=
  response_of_alternative [(py "transcript", VInt 5)].

(** The letters [hi] followed by a lone high surrogate, as
    [json.loads] makes of an escaped one. *)
Definition lone_surrogate_text : pystr := [104; 105; 55296].

(** One audio file whose transcript comes back with a lone surrogate. *)
Definition surrogate_world : World :=
  answering_world (sample_response lone_surrogate_text).

(** A filled-in form with the optional fields left empty. *)
Definition sample_form : Form :=
  {| api_key_entry := py "key";
     input_dir_entry := py "/in";
     output_dir_entry := py "/out";
     language_entry := [];
     model_entry := [];
     smart_format_var := true;
     overwrite_var := false;
     pdf_minimal_var := false |}.

Definition idle_gui : Gui :=
  {| textbox := [LineCompleted]; dialogs := []; start_enabled := true |}.

(** * Properties *)

(** ** Strings *)

Section StringFacts.
Context {T : PyChars}.

Lemma space_isspace : isspace SPACE = true.
Proof. rewrite isspace_ascii; [reflexivity | unfold SPACE; lia]. Qed.

Lemma lstrip_incl (s : pystr) (c : N) : In c (lstrip s) -> In c s.
Proof.
  induction s as [|d r IH]; simpl; [tauto|].
  destruct (isspace d); simpl; intuition.
Qed.

Lemma strip_incl (s : pystr) (c : N) : In c (strip s) -> In c s.
Proof.
  unfold strip, rstrip. intros H.
  apply in_rev in H. apply lstrip_incl in H.
  apply in_rev in H. now apply lstrip_incl.
Qed.

Lemma head_ok_lstrip_id (s : pystr) : head_ok s -> lstrip s = s.
Proof. destruct s as [|c r]; simpl; [reflexivity|]. now intros ->. Qed.

Lemma lstrip_head_ok (s : pystr) : head_ok (lstrip s).
Proof.
  induction s as [|c r IH]; simpl; [exact I|].
  destruct (isspace c) eqn:E; [exact IH | exact E].
Qed.

Lemma lstrip_snoc (x : pystr) (c : N) :
  isspace c = false -> lstrip (x ++ [c]) = lstrip x ++ [c].
Proof.
  intros Hc. induction x as [|d x IH]; simpl.
  - now rewrite Hc.
  - destruct (isspace d); [exact IH | reflexivity].
Qed.

Lemma rstrip_head_ok (s : pystr) : head_ok s -> head_ok (rstrip s).
Proof.
  unfold rstrip. destruct s as [|c r]; simpl; [intros _; exact I|].
  intros Hc. rewrite lstrip_snoc by exact Hc.
  rewrite rev_app_distr. simpl. exact Hc.
Qed.

Lemma strip_head_ok (s : pystr) : head_ok (strip s).
Proof. unfold strip. apply rstrip_head_ok, lstrip_head_ok. Qed.

Lemma strip_last_ok (s : pystr) : head_ok (rev (strip s)).
Proof.
  unfold strip, rstrip. rewrite rev_involutive. apply lstrip_head_ok.
Qed.

Lemma strip_fixed (s : pystr) : head_ok s -> head_ok (rev s) -> strip s = s.
Proof.
  intros H1 H2. unfold strip, rstrip.
  rewrite (head_ok_lstrip_id s H1), (head_ok_lstrip_id (rev s) H2).
  apply rev_involutive.
Qed.

Lemma replace1_single (old new : N) (s : pystr) :
  replace1 old [new] s = List.map (swap_char old new) s.
Proof.
  unfold replace1, swap_char. induction s as [|c r IH]; simpl; [reflexivity|].
  rewrite IH. now destruct (c =? old).
Qed.

Lemma swap_head_ok (s : pystr) :
  head_ok s -> head_ok (List.map (swap_char SPACE UNDERSCORE) s).
Proof.
  destruct s as [|c r]; simpl; [tauto|]. intros Hc.
  unfold swap_char. destruct (N.eqb_spec c SPACE) as [->|_]; [|exact Hc].
  rewrite space_isspace in Hc. discriminate.
Qed.

Lemma keep_char_filter_idem (s : pystr) :
  List.filter keep_char (List.filter keep_char s) = List.filter keep_char s.
Proof.
  induction s as [|c r IH]; simpl; [reflexivity|].
  destruct (keep_char c) eqn:E; simpl; [rewrite E, IH|]; auto.
Qed.

Lemma keep_char_cases (ch : N) :
  keep_char ch = true -> ch = SPACE \/ safe_char ch.
Proof.
  unfold keep_char, safe_char. rewrite !orb_true_iff, !N.eqb_eq. tauto.
Qed.

Lemma clean_filename_as_map (name : pystr) :
  clean_filename name =
  List.map (swap_char SPACE UNDERSCORE) (strip (List.filter keep_char name)).
Proof. unfold clean_filename. apply replace1_single. Qed.

Lemma lstrip_split (s : pystr) :
  exists lead, s = lead ++ lstrip s /\ Forall (fun ch => isspace ch = true) lead.
Proof.
  induction s as [|c r (lead & E & H)]; [now exists []|]. simpl.
  destruct (isspace c) eqn:Ec.
  - exists (c :: lead). split; [simpl; now rewrite <- E | now constructor].
  - now exists [].
Qed.

(** [strip] takes away a run of whitespace at either end and nothing
    else. *)
Lemma strip_split (s : pystr) :
  exists lead trail,
    s = lead ++ strip s ++ trail
    /\ Forall (fun ch => isspace ch = true) lead
    /\ Forall (fun ch => isspace ch = true) trail.
Proof.
  destruct (lstrip_split s) as (lead & E1 & H1).
  destruct (lstrip_split (rev (lstrip s))) as (l & E2 & H2).
  exists lead, (rev l). split; [|split; [exact H1|]].
  - unfold strip, rstrip. rewrite <- rev_app_distr, <- E2, rev_involutive. exact E1.
  - apply List.Forall_forall. intros x Hx. apply in_rev in Hx.
    exact (proj1 (List.Forall_forall _ _) H2 x Hx).
Qed.

(** C5. For every filename string, [clean_filename] yields a base name
    made only of alphanumerics, hyphen, underscore and dot, with no space
    left in it.  Characters outside the allowed set are removed (the
    result only depends on the allowed characters of the input),
    whitespace is stripped at both ends (stripping the result again
    changes nothing), and every remaining space has become an
    underscore.  In full: the characters of the name that are
    alphanumeric or one of space, hyphen, underscore and dot, taken in
    order, split into a run of whitespace, a core that neither starts nor
    ends with whitespace, and a run of whitespace; the base name is that
    core, character for character, with every space turned into one
    underscore. *)
Theorem clean_filename_safe (name : pystr) :
  Forall safe_char (clean_filename name)
  /\ ~ In SPACE (clean_filename name)
  /\ clean_filename name = clean_filename (List.filter keep_char name)
  /\ strip (clean_filename name) = clean_filename name
  /\ clean_filename name =
     List.map (swap_char SPACE UNDERSCORE) (strip (List.filter keep_char name))
  /\ exists lead core trail,
       List.filter (fun ch => isalnum ch || (ch =? 32) || (ch =? 45)
                              || (ch =? 95) || (ch =? 46)) name
       = lead ++ core ++ trail
       /\ Forall (fun ch => isspace ch = true) lead
       /\ Forall (fun ch => isspace ch = true) trail
       /\ (forall c r, core = c :: r -> isspace c = false)
       /\ (forall r c, core = r ++ [c] -> isspace c = false)
       /\ clean_filename name
          = List.map (fun ch => if ch =? 32 then 95 else ch) core.
Proof.
  split; [|split; [|split; [|split; [|split]]]].
  6:{ destruct (strip_split (List.filter keep_char name)) as (lead & trail & E & Hl & Ht).
      exists lead, (strip (List.filter keep_char name)), trail.
      split; [exact E|]. split; [exact Hl|]. split; [exact Ht|].
      split; [|split].
      - intros c r Hc. pose proof (strip_head_ok (List.filter keep_char name)) as H.
        rewrite Hc in H. exact H.
      - intros r c Hc. pose proof (strip_last_ok (List.filter keep_char name)) as H.
        rewrite Hc, rev_app_distr in H. exact H.
      - apply clean_filename_as_map. }
  - rewrite clean_filename_as_map. apply List.Forall_forall. intros c Hc.
    apply in_map_iff in Hc as (x & <- & Hx).
    apply strip_incl, filter_In in Hx as [_ Hk].
    unfold swap_char. destruct (N.eqb_spec x SPACE) as [_|Hne].
    + right; right; left; reflexivity.
    + destruct (keep_char_cases x Hk) as [->|Hs]; [congruence | exact Hs].
  - rewrite clean_filename_as_map. intros Hin.
    apply in_map_iff in Hin as (x & Hx & _).
    unfold swap_char in Hx. destruct (N.eqb_spec x SPACE); [discriminate | congruence].
  - unfold clean_filename. now rewrite keep_char_filter_idem.
  - rewrite clean_filename_as_map. apply strip_fixed.
    + apply swap_head_ok, strip_head_ok.
    + rewrite <- map_rev. apply swap_head_ok, strip_last_ok.
  - apply clean_filename_as_map.
Qed.

End StringFacts.

(** Each space that survives the strip becomes one underscore. *)
Example clean_filename_sample :
  clean_filename (T := ascii_table) (py "  he!!o  wo rld- .x ")
  = py "heo__wo_rld-_.x".
Proof. reflexivity. Qed.

(** ** Sorting and discovery *)



Lemma pystr_leb_refl (a : pystr) : pystr_leb a a = true.
Proof.
  induction a as [|x a IH]; simpl; [reflexivity|].
  now rewrite N.ltb_irrefl.
Qed.

Lemma insert_sorted_perm (x : pystr) (l : list pystr) :
  Permutation (insert_sorted x l) (x :: l).
Proof.
  induction l as [|y r IH]; simpl; [reflexivity|].
  destruct (pystr_leb x y); [reflexivity|].
  rewrite IH. apply perm_swap.
Qed.

Lemma sorted_perm (l : list pystr) : Permutation (sorted l) l.
Proof.
  induction l as [|x r IH]; simpl; [reflexivity|].
  rewrite insert_sorted_perm. now constructor.
Qed.





Lemma mem_In (x : pystr) (l : list pystr) : mem x l = true <-> In x l.
Proof.
  unfold mem. rewrite existsb_exists. split.
  - intros (y & Hy & Heq). unfold pystr_eqb in Heq.
    apply bool_decide_eq_true in Heq. now subst.
  - intros H. exists x. split; [exact H|].
    unfold pystr_eqb. now apply bool_decide_eq_true.
Qed.

Section DiscoveryFacts.
Context {T : PyChars}.

Lemma discover_perm (listing : list dir_entry) :
  Permutation (discover listing)
              (List.map entry_name (List.filter is_candidate listing)).
Proof. apply sorted_perm. Qed.

Lemma discover_In (listing : list dir_entry) (name : pystr) :
  In name (discover listing) <->
  exists e, In e listing /\ entry_name e = name /\ entry_is_file e = true
            /\ In (lower (suffix name)) (VIDEO_EXTS ++ AUDIO_EXTS).
Proof.
  split.
  - intros H. apply (Permutation_in _ (discover_perm listing)) in H.
    apply in_map_iff in H as (e & <- & He).
    apply filter_In in He as [He Hc]. unfold is_candidate in Hc.
    apply andb_true_iff in Hc as [Hf Hm]. apply mem_In in Hm.
    exists e. auto.
  - intros (e & He & <- & Hf & Hm).
    apply (Permutation_in _ (Permutation_sym (discover_perm listing))).
    apply in_map, filter_In. split; [exact He|].
    unfold is_candidate. rewrite Hf. apply (proj2 (mem_In _ _)) in Hm.
    now rewrite Hm.
Qed.

(** The extension is compared after lower-casing, under every
    character table. *)
Example upper_case_extension_selected (listing : list dir_entry) :
  In (file_entry "b.MP4") listing -> In (py "b.MP4") (discover listing).
Proof.
  intros H. apply discover_In. exists (file_entry "b.MP4").
  split; [exact H|]. split; [reflexivity|]. split; [reflexivity|].
  change (suffix (py "b.MP4")) with (py ".MP4").
  rewrite lower_ascii by (repeat constructor).
  vm_compute. tauto.
Qed.

End DiscoveryFacts.

(** ** ResultExtractor *)

Lemma read_alternative_no_shape (data : pyval) :
  (forall alt, first_alternative data <> Ok alt) ->
  read_alternative data = (VStr [], VNone).
Proof.
  intros H. unfold read_alternative.
  destruct (first_alternative data) as [alt|e]; [|reflexivity].
  now destruct (H alt).
Qed.

Lemma extract_on_payload (r : response) (data : pyval) :
  payload_of r = Some data ->
  extract_transcript_from_response r =
  Ok (fst (read_alternative data), data, snd (read_alternative data)).
Proof.
  unfold payload_of, extract_transcript_from_response.
  destruct (call_to_dict r) as [d|e].
  - intros [= ->]. now destruct (read_alternative data).
  - destruct (has_keys r); [|discriminate].
    intros [= <-]. now destruct (read_alternative (as_data r)).
Qed.

Lemma extract_without_payload (r : response) :
  payload_of r = None ->
  extract_transcript_from_response r = Ok (VStr ERROR_MARKER, VDict [], VNone).
Proof.
  unfold payload_of, extract_transcript_from_response.
  destruct (call_to_dict r) as [d|e]; [discriminate|].
  now destruct (has_keys r).
Qed.

Lemma extract_total (r : response) :
  exists transcript data conf,
    extract_transcript_from_response r = Ok (transcript, data, conf).
Proof.
  destruct (payload_of r) as [d|] eqn:Hp.
  - rewrite (extract_on_payload r d Hp). eauto.
  - rewrite (extract_without_payload r Hp). eauto.
Qed.

Example extract_sample :
  exists payload,
    extract_transcript_from_response (sample_response (py "hola"))
    = Ok (VStr (py "hola"), payload, VFloat 1 0).
Proof. eexists. reflexivity. Qed.

Example extract_empty_mapping :
  extract_transcript_from_response (PlainValue (VDict []))
  = Ok (VStr [], VDict [], VNone).
Proof. reflexivity. Qed.

(** C3, as stated, fails: [None] is a response without the nested shape,
    and the transcript returned for it is the error marker, not the
    empty string. *)
Lemma extract_marker_not_empty :
  ~ expected_shape (PlainValue VNone)
  /\ extract_transcript_from_response (PlainValue VNone)
     = Ok (VStr ERROR_MARKER, VDict [], VNone)
  /\ ERROR_MARKER <> [].
Proof.
  split; [|split].
  - intros (d & alt & Hp & _). discriminate Hp.
  - reflexivity.
  - discriminate.
Qed.

(** C3, amended. For every raw response value the extraction returns
    without raising.  When the response converts to a mapping (or is one)
    that lacks the first-channel/first-alternative shape, the returned
    transcript is the empty string, the payload is that mapping and no
    confidence is reported.  When the response can neither be converted
    nor is mapping-like, the returned transcript is the fixed error
    marker, with an empty payload. *)
Theorem extract_never_raises (r : response) :
  exists transcript data conf,
    extract_transcript_from_response r = Ok (transcript, data, conf)
    /\ (forall d, payload_of r = Some d ->
          data = d /\ (~ expected_shape r -> transcript = VStr [] /\ conf = VNone))
    /\ (payload_of r = None ->
          transcript = VStr ERROR_MARKER /\ data = VDict [] /\ conf = VNone).
Proof.
  destruct (payload_of r) as [d|] eqn:Hp.
  - exists (fst (read_alternative d)), d, (snd (read_alternative d)).
    split; [now apply extract_on_payload|]. split; [|discriminate].
    intros d' [= <-]. split; [reflexivity|]. intros Hno.
    rewrite read_alternative_no_shape; [now split|].
    intros alt Halt. apply Hno. now exists d, alt.
  - exists (VStr ERROR_MARKER), (VDict []), VNone.
    split; [now apply extract_without_payload|]. split; [discriminate|].
    now intros _.
Qed.

(** ** DocumentRenderer *)

Section RendererFacts.
Context {T : PyChars}.

Lemma written_texts_app (a b : list pdf_op) :
  written_texts (a ++ b) = written_texts a ++ written_texts b.
Proof. apply flat_map_app. Qed.

Lemma written_texts_body (f : font) (lines : list pystr) :
  written_texts (List.map (body_op f) lines) =
  List.filter nonblank (List.map (sanitize_if_core f) lines).
Proof.
  induction lines as [|l r IH]; simpl; [reflexivity|].
  unfold body_op at 1, nonblank at 1.
  destruct (strip (sanitize_if_core f l)); simpl; now rewrite IH.
Qed.

Lemma written_texts_header (fs : fonts) (now title : pystr)
  (meta : option (list (pystr * pystr))) :
  written_texts (header_ops fs now title meta) =
  [sanitize_if_core (header_font fs) (title_dashes title);
   sanitize_if_core (meta_font fs) (py "Generated: " ++ now)]
  ++ match meta_info_of meta with
     | Some info => [py "Info: " ++ sanitize_if_core (meta_font fs) info]
     | None => []
     end.
Proof.
  unfold header_ops. rewrite !written_texts_app.
  destruct (meta_info_of meta); reflexivity.
Qed.

Lemma written_texts_added (env : FontEnv) (reg bold : option pystr) :
  written_texts (fst (register_fonts env reg bold)) = [].
Proof.
  unfold register_fonts.
  destruct reg as [r|]; [|reflexivity].
  destruct (add_font_ok env r); [|reflexivity].
  destruct bold as [b|]; [|reflexivity].
  destruct (path_exists env b); [|reflexivity].
  destruct (add_font_ok env b); reflexivity.
Qed.

Lemma register_fonts_unicode (env : FontEnv) (reg bold : option pystr) (fs : fonts) :
  snd (register_fonts env reg bold) = Some fs ->
  exists style, fs = unicode_fonts style.
Proof.
  unfold register_fonts.
  destruct reg as [r|]; [|discriminate].
  destruct (add_font_ok env r); [|discriminate].
  destruct bold as [b|]; [|intros [= <-]; eauto].
  destruct (path_exists env b); [|intros [= <-]; eauto].
  destruct (add_font_ok env b); [intros [= <-]; eauto | discriminate].
Qed.

Lemma sanitize_if_core_unicode (style : pystr) (size : N) (s : pystr) :
  sanitize_if_core (py "U", style, size) s = s.
Proof. reflexivity. Qed.

Lemma sanitize_if_core_helvetica (style : pystr) (size : N) (s : pystr) :
  sanitize_if_core (py "Helvetica", style, size) s = _sanitize_for_core_fonts s.
Proof. reflexivity. Qed.

Lemma written_texts_fonts (fs : fonts) (f : pystr -> pystr)
  (now text path title : pystr) (meta : option (list (pystr * pystr)))
  (minimal : bool) (added : list pdf_op) :
  written_texts added = [] ->
  (forall s, sanitize_if_core (header_font fs) s = f s) ->
  (forall s, sanitize_if_core (meta_font fs) s = f s) ->
  (forall s, sanitize_if_core (body_font fs) s = f s) ->
  written_texts
    ([SetAutoPageBreak 15; AddPage] ++ added
     ++ (if minimal then [] else header_ops fs now title meta)
     ++ [set_font (body_font fs)]
     ++ List.map (body_op (body_font fs)) (splitlines text)
     ++ [Output path])
  = fragments_through f now text title meta minimal.
Proof.
  intros Ha Hh Hm Hb. unfold fragments_through.
  rewrite !written_texts_app, Ha, written_texts_body.
  change (written_texts [SetAutoPageBreak 15; AddPage]) with (@nil pystr).
  change (written_texts [set_font (body_font fs)]) with (@nil pystr).
  change (written_texts [Output path]) with (@nil pystr).
  rewrite !app_nil_r. cbn [app]. f_equal.
  - destruct minimal; [reflexivity|].
    rewrite written_texts_header, Hh, Hm.
    destruct (meta_info_of meta); [rewrite Hm|]; reflexivity.
  - f_equal. apply map_ext, Hb.
Qed.

(** C4, amended. In every render call the text fragments written to the
    document are the title with its em and en dashes replaced by hyphens,
    the generated-timestamp line, the metadata line and each non-blank
    body line.  When a Unicode font is resolved and registered they are
    written without further change; when the core-font fallback is in
    use, and only then, each is first passed through
    [_sanitize_for_core_fonts]. *)
Theorem to_pdf_fragments (env : FontEnv) (now text path title : pystr)
  (meta : option (list (pystr * pystr))) (font_regular font_bold : option pystr)
  (minimal : bool) :
  written_texts
    (to_pdf_document env now text path title meta font_regular font_bold minimal)
  = fragments_through
      (if using_core env font_regular font_bold
       then _sanitize_for_core_fonts else (fun s => s))
      now text title meta minimal.
Proof.
  unfold to_pdf_document, using_core.
  destruct (resolve_fonts env font_regular font_bold) as [reg bold].
  pose proof (written_texts_added env reg bold) as Ha.
  pose proof (register_fonts_unicode env reg bold) as Hu.
  destruct (register_fonts env reg bold) as [added [fs|]]; simpl in *.
  - destruct (Hu fs eq_refl) as [style ->].
    apply written_texts_fonts; [exact Ha | reflexivity..].
  - apply written_texts_fonts; [exact Ha | reflexivity..].
Qed.

End RendererFacts.

(** C4, as stated, fails: with a registered Unicode font the title is
    not written as given; its em dash has become a hyphen. *)
Lemma unicode_title_not_verbatim :
  let doc := to_pdf_document (T := ascii_table) one_font_env (py "2025-01-01 00:00:00")
               (py "hello") (py "/out/pdf/a.pdf") dashed_title None
               (Some (py "/f.ttf")) None false in
  using_core one_font_env (Some (py "/f.ttf")) None = false
  /\ ~ In dashed_title (written_texts doc)
  /\ In (py "A-B") (written_texts doc).
Proof.
  vm_compute. split; [reflexivity|]. split.
  - intros [H|[H|[H|[]]]]; discriminate H.
  - left. reflexivity.
Qed.

(** ** Destination paths *)

Lemma last_of_path (dir base ext : pystr) (c : N) :
  List.last (joinpath dir (base ++ ext ++ [c])) 0 = c.
Proof.
  unfold joinpath. rewrite !app_assoc. apply last_last.
Qed.

Section PathFacts.
Context {T : PyChars}.
Variable cfg : Config.

Lemma txt_path_last (n : pystr) : List.last (txt_path cfg n) 0 = 116.
Proof. apply (last_of_path _ _ [46; 116; 120] 116). Qed.

Lemma json_path_last (n : pystr) : List.last (json_path cfg n) 0 = 110.
Proof.
  apply (last_of_path _ _ [46; 100; 101; 101; 112; 103; 114; 97; 109; 46; 106; 115; 111] 110).
Qed.

Lemma pdf_path_last (n : pystr) : List.last (pdf_path cfg n) 0 = 102.
Proof. apply (last_of_path _ _ [46; 112; 100] 102). Qed.

Lemma txt_json_distinct (n n' : pystr) : txt_path cfg n <> json_path cfg n'.
Proof.
  intros H. apply (f_equal (fun l => List.last l 0)) in H.
  rewrite txt_path_last, json_path_last in H. discriminate.
Qed.

Lemma txt_pdf_distinct (n n' : pystr) : txt_path cfg n <> pdf_path cfg n'.
Proof.
  intros H. apply (f_equal (fun l => List.last l 0)) in H.
  rewrite txt_path_last, pdf_path_last in H. discriminate.
Qed.

Lemma json_pdf_distinct (n n' : pystr) : json_path cfg n <> pdf_path cfg n'.
Proof.
  intros H. apply (f_equal (fun l => List.last l 0)) in H.
  rewrite json_path_last, pdf_path_last in H. discriminate.
Qed.

End PathFacts.

(** ** The per-file iteration *)

Section FileFacts.
Context {T : PyChars}.
Variable w : World.
Variable cfg : Config.

Lemma already_processed_run (name : pystr) (s : State) :
  already_processed cfg name s = (Ok (negb (overwrite cfg) && complete cfg s name), s).
Proof.
  unfold already_processed, complete, bind, path_is_file, ret. simpl.
  now rewrite !andb_assoc.
Qed.

Lemma process_file_skip (ok : bool) (total idx : nat) (name : pystr) (s : State) :
  overwrite cfg = false -> complete cfg s name = true ->
  process_file w cfg ok total idx name s = log_callback (MsgSkip idx total name) s.
Proof.
  intros Ho Hc. unfold process_file, bind at 1.
  now rewrite already_processed_run, Ho, Hc.
Qed.

Lemma process_file_go (ok : bool) (total idx : nat) (name : pystr) (s : State) :
  overwrite cfg = true \/ complete cfg s name = false ->
  process_file w cfg ok total idx name s =
  (log_callback (MsgProcessing idx total name) ;;
   use_path <- prepare_audio w cfg ok idx name ;;
   transcribe_and_finish w cfg use_path name) s.
Proof.
  intros H. unfold process_file, bind at 1. rewrite already_processed_run.
  destruct H as [-> | ->]; [reflexivity|]. now rewrite andb_false_r.
Qed.

Lemma process_file_started (ok : bool) (total idx : nat) (name : pystr) (s : State) :
  overwrite cfg = true \/ complete cfg s name = false ->
  exists s0,
    process_file w cfg ok total idx name s =
    (use_path <- prepare_audio w cfg ok idx name ;;
     transcribe_and_finish w cfg use_path name) s0
    /\ files s0 = files s /\ log s0 = log s ++ [MsgProcessing idx total name]
    /\ submitted s0 = submitted s /\ rendered s0 = rendered s.
Proof.
  intros H. rewrite (process_file_go _ _ _ _ _ H).
  eexists. split; [reflexivity|]. now simpl.
Qed.

(** Degraded audio preparation: without [ffmpeg], or when its run exits
    non-zero, the path to submit is the source file itself. *)
Lemma prepare_audio_degraded (ok : bool) (idx : nat) (name : pystr) (s : State) :
  ok = false \/ ffmpeg_run w (src_path cfg name) (wav_of w idx name) = Raise CalledProcessError ->
  exists s',
    prepare_audio w cfg ok idx name s = (Ok (src_path cfg name), s')
    /\ files s' = files s /\ submitted s' = submitted s /\ rendered s' = rendered s
    /\ log s' = log s ++ (if is_video name && ok then [MsgExtractFailed name] else []).
Proof.
  intros H. unfold prepare_audio.
  destruct (is_video name && ok) eqn:E.
  - destruct H as [-> | H]; [now rewrite andb_false_r in E|].
    unfold try_except, bind, extract_audio_with_ffmpeg, lift. fold (wav_of w idx name).
    rewrite H. simpl. eexists. split; [reflexivity|]. now simpl.
  - eexists. split; [reflexivity|]. simpl. now rewrite app_nil_r.
Qed.

Lemma write_json_ok (p : pystr) (d : pyval) (resp : response) (s : State) :
  can_write w p = true ->
  exists s', write_json w p d resp s = (Ok tt, s')
             /\ files s' = <[p := json_artifact w d resp]> (files s)
             /\ only_files s s'.
Proof.
  intros Hw. unfold write_json, try_except, bind, open_w, lift, json_artifact.
  rewrite Hw. simpl.
  destruct (json_dumps w false 2 d) as [text|e]; simpl; rewrite ?Hw; simpl;
    eexists; (split; [reflexivity|]); simpl;
    rewrite ?insert_insert_eq; (split; [reflexivity | now repeat split]).
Qed.

Lemma write_json_locked (p : pystr) (d : pyval) (resp : response) (s : State) :
  can_write w p = false -> write_json w p d resp s = (Raise OSError, s).
Proof.
  intros Hw. unfold write_json, try_except, bind, open_w. now rewrite Hw.
Qed.

Lemma write_txt_ok (p text : pystr) (s : State) :
  can_write w p = true ->
  utf8_encodable text = true ->
  exists s', write_txt w p text s = (Ok tt, s')
             /\ files s' = <[p := TextFile text]> (files s)
             /\ only_files s s'.
Proof.
  intros Hw He. unfold write_txt, bind, open_w. rewrite Hw, He. simpl.
  eexists. split; [reflexivity|]. simpl. rewrite insert_insert_eq.
  split; [reflexivity | now repeat split].
Qed.

(** The path opens but the text cannot be encoded: the file is left
    empty. *)
Lemma write_txt_unencodable (p text : pystr) (s : State) :
  can_write w p = true ->
  utf8_encodable text = false ->
  exists s', write_txt w p text s = (Raise UnicodeEncodeError, s')
             /\ files s' = <[p := TextFile []]> (files s)
             /\ only_files s s'.
Proof.
  intros Hw He. unfold write_txt, bind, open_w. rewrite Hw, He. simpl.
  eexists. split; [reflexivity|]. simpl. now repeat split.
Qed.

Lemma placeholder_encodable : utf8_encodable PLACEHOLDER = true.
Proof. reflexivity. Qed.

Lemma text_or_placeholder_encodable (t : pystr) :
  utf8_encodable t = true -> utf8_encodable (text_or_placeholder t) = true.
Proof.
  intros H. unfold text_or_placeholder.
  destruct (strip t); [exact placeholder_encodable | exact H].
Qed.

Lemma write_txt_locked (p text : pystr) (s : State) :
  can_write w p = false -> write_txt w p text s = (Raise OSError, s).
Proof. intros Hw. unfold write_txt, bind, open_w. now rewrite Hw. Qed.

(** The guarded [to_pdf] call never raises. *)
Lemma guarded_to_pdf_run (text path title : pystr)
  (meta : option (list (pystr * pystr))) (s : State) :
  exists s',
    try_except (to_pdf w cfg text path title meta)
               (fun e => log_callback (MsgPdfError e)) s = (Ok tt, s')
    /\ files s' = (if can_write w path
                   then <[path := pdf_artifact w cfg text path title meta]> (files s)
                   else files s)
    /\ log s' = log s ++ (if can_write w path then [] else [MsgPdfError OSError])
    /\ submitted s' = submitted s
    /\ rendered s' = rendered s ++ [text].
Proof.
  unfold try_except, to_pdf, bind, note_rendered.
  destruct (can_write w path); simpl; eexists; (split; [reflexivity|]); simpl;
    rewrite ?app_nil_r; now repeat split.
Qed.

Lemma finish_file_unfold (name : pystr) (resp : response)
  (t : pystr) (d c : pyval) (s : State) :
  extract_transcript_from_response resp = Ok (VStr t, d, c) ->
  finish_file w cfg name resp s =
  (write_json w (json_path cfg name) d resp ;;
   write_txt w (txt_path cfg name) (text_or_placeholder t) ;;
   try_except
     (to_pdf w cfg (text_or_placeholder t) (pdf_path cfg name)
             (TITLE_PREFIX ++ stem name) (meta_of w cfg c))
     (fun e => log_callback (MsgPdfError e)) ;;
   log_callback (MsgSaved (base_name name ++ py ".txt")
                          (base_name name ++ py ".deepgram.json")
                          (base_name name ++ py ".pdf"))) s.
Proof.
  intros H. unfold finish_file, bind at 1, lift. rewrite H. reflexivity.
Qed.

Lemma finish_file_not_text (name : pystr) (resp : response)
  (v d c : pyval) (s : State) :
  extract_transcript_from_response resp = Ok (v, d, c) ->
  (forall t, v <> VStr t) ->
  finish_file w cfg name resp s = (Raise AttributeError, s).
Proof.
  intros H Hv. unfold finish_file, bind at 1, lift. rewrite H.
  destruct v; try reflexivity. now destruct (Hv s0).
Qed.

Lemma finish_file_json_locked (name : pystr) (resp : response)
  (t : pystr) (d c : pyval) (s : State) :
  extract_transcript_from_response resp = Ok (VStr t, d, c) ->
  can_write w (json_path cfg name) = false ->
  finish_file w cfg name resp s = (Raise OSError, s).
Proof.
  intros H Hj. rewrite (finish_file_unfold _ _ _ _ _ _ H).
  unfold bind at 1. now rewrite write_json_locked.
Qed.

Lemma finish_file_txt_locked (name : pystr) (resp : response)
  (t : pystr) (d c : pyval) (s : State) :
  extract_transcript_from_response resp = Ok (VStr t, d, c) ->
  can_write w (json_path cfg name) = true ->
  can_write w (txt_path cfg name) = false ->
  exists s', finish_file w cfg name resp s = (Raise OSError, s')
             /\ files s' = <[json_path cfg name := json_artifact w d resp]> (files s)
             /\ only_files s s'.
Proof.
  intros H Hj Ht. rewrite (finish_file_unfold _ _ _ _ _ _ H).
  destruct (write_json_ok (json_path cfg name) d resp s Hj) as (s1 & E1 & F1 & O1).
  unfold bind at 1. rewrite E1. unfold bind at 1. rewrite write_txt_locked by exact Ht.
  now exists s1.
Qed.

(** The payload is written, the text path opens, and the text cannot be
    encoded. *)
Lemma finish_file_txt_unencodable (name : pystr) (resp : response)
  (t : pystr) (d c : pyval) (s : State) :
  extract_transcript_from_response resp = Ok (VStr t, d, c) ->
  can_write w (json_path cfg name) = true ->
  can_write w (txt_path cfg name) = true ->
  utf8_encodable (text_or_placeholder t) = false ->
  exists s', finish_file w cfg name resp s = (Raise UnicodeEncodeError, s')
             /\ files s' = <[txt_path cfg name := TextFile []]>
                             (<[json_path cfg name := json_artifact w d resp]> (files s))
             /\ only_files s s'.
Proof.
  intros H Hj Ht Hu. rewrite (finish_file_unfold _ _ _ _ _ _ H).
  destruct (write_json_ok (json_path cfg name) d resp s Hj) as (s1 & E1 & F1 & L1 & S1 & R1).
  destruct (write_txt_unencodable (txt_path cfg name) (text_or_placeholder t) s1 Ht Hu)
    as (s2 & E2 & F2 & L2 & S2 & R2).
  unfold bind at 1. rewrite E1. unfold bind at 1. rewrite E2.
  exists s2. split; [reflexivity|]. rewrite F2, F1. split; [reflexivity|].
  unfold only_files. rewrite L2, S2, R2. now repeat split.
Qed.

Lemma finish_file_run (name : pystr) (resp : response)
  (t : pystr) (d c : pyval) (s : State) :
  extract_transcript_from_response resp = Ok (VStr t, d, c) ->
  can_write w (json_path cfg name) = true ->
  can_write w (txt_path cfg name) = true ->
  utf8_encodable (text_or_placeholder t) = true ->
  let text := text_or_placeholder t in
  let doc := pdf_artifact w cfg text (pdf_path cfg name)
               (TITLE_PREFIX ++ stem name) (meta_of w cfg c) in
  let written := <[txt_path cfg name := TextFile text]>
                   (<[json_path cfg name := json_artifact w d resp]> (files s)) in
  exists s',
    finish_file w cfg name resp s = (Ok tt, s')
    /\ files s' = (if can_write w (pdf_path cfg name)
                   then <[pdf_path cfg name := doc]> written else written)
    /\ log s' = log s
                ++ (if can_write w (pdf_path cfg name) then [] else [MsgPdfError OSError])
                ++ [MsgSaved (base_name name ++ py ".txt")
                             (base_name name ++ py ".deepgram.json")
                             (base_name name ++ py ".pdf")]
    /\ submitted s' = submitted s
    /\ rendered s' = rendered s ++ [text].
Proof.
  intros H Hj Ht Hu text doc written. rewrite (finish_file_unfold _ _ _ _ _ _ H).
  destruct (write_json_ok (json_path cfg name) d resp s Hj)
    as (s1 & E1 & F1 & L1 & S1 & R1).
  destruct (write_txt_ok (txt_path cfg name) text s1 Ht Hu)
    as (s2 & E2 & F2 & L2 & S2 & R2).
  destruct (guarded_to_pdf_run text (pdf_path cfg name)
              (TITLE_PREFIX ++ stem name) (meta_of w cfg c) s2)
    as (s3 & E3 & F3 & L3 & S3 & R3).
  unfold bind at 1. rewrite E1. unfold bind at 1. fold text. rewrite E2.
  unfold bind at 1. rewrite E3.
  eexists. split; [reflexivity|]. simpl.
  rewrite F3, F2, F1, L3, L2, L1, S3, S2, S1, R3, R2, R1.
  rewrite <- app_assoc. now repeat split.
Qed.

Lemma transcribe_and_finish_ok (use_path name : pystr) (resp : response) (s : State) :
  service w use_path = Ok resp ->
  exists s1,
    transcribe_and_finish w cfg use_path name s = finish_file w cfg name resp s1
    /\ files s1 = files s /\ log s1 = log s
    /\ submitted s1 = submitted s ++ [use_path] /\ rendered s1 = rendered s.
Proof.
  intros H.
  unfold transcribe_and_finish, bind at 1, try_except, bind, transcribe_audio_file,
    note_submitted, lift, ret.
  rewrite H. eexists. split; [reflexivity|]. now simpl.
Qed.

Lemma transcribe_and_finish_failed (use_path name : pystr) (e : exn) (s : State) :
  service w use_path = Raise e ->
  exists s',
    transcribe_and_finish w cfg use_path name s = (Ok tt, s')
    /\ files s' = files s /\ log s' = log s ++ [MsgTranscriptionError e]
    /\ submitted s' = submitted s ++ [use_path] /\ rendered s' = rendered s.
Proof.
  intros H.
  unfold transcribe_and_finish, bind at 1, try_except, bind, transcribe_audio_file,
    note_submitted, lift, ret, log_callback.
  rewrite H. eexists. split; [reflexivity|]. now simpl.
Qed.

Lemma is_Some_insert (p q : pystr) (c : file_content) (m : gmap pystr file_content) :
  is_Some (m !! q) -> is_Some (<[p := c]> m !! q).
Proof.
  intros H. destruct (decide (p = q)) as [->|Hne].
  - rewrite lookup_insert_eq. eauto.
  - now rewrite lookup_insert_ne.
Qed.

(** Whatever happens while a response is persisted, no file disappears,
    no transcription is requested, and no file is announced. *)
Lemma finish_file_frame (name : pystr) (resp : response) (s : State) :
  let s' := snd (finish_file w cfg name resp s) in
  submitted s' = submitted s
  /\ (forall p, is_Some (files s !! p) -> is_Some (files s' !! p))
  /\ exists l, log s' = log s ++ l /\ headers l = [].
Proof.
  destruct (extract_total resp) as (v & d & c & E).
  assert (Hnil : exists l : list log_msg, log s = log s ++ l /\ headers l = []).
  { exists []. now rewrite app_nil_r. }
  assert (Hcase : (exists t, v = VStr t) \/ (forall t, v <> VStr t)).
  { destruct v; eauto; right; discriminate. }
  destruct Hcase as [[t ->] | Hv].
  2:{ rewrite (finish_file_not_text _ _ _ _ _ _ E Hv). simpl. auto. }
  destruct (can_write w (json_path cfg name)) eqn:Hj.
  2:{ rewrite (finish_file_json_locked _ _ _ _ _ _ E Hj). simpl. auto. }
  destruct (can_write w (txt_path cfg name)) eqn:Ht.
  2:{ destruct (finish_file_txt_locked _ _ _ _ _ s E Hj Ht) as (s' & -> & F & L & S & R).
      simpl. rewrite F, L, S. split; [reflexivity|]. split; [|exact Hnil].
      intros p. apply is_Some_insert. }
  destruct (utf8_encodable (text_or_placeholder t)) eqn:Hu.
  2:{ destruct (finish_file_txt_unencodable _ _ _ _ _ s E Hj Ht Hu)
        as (s' & -> & F & L & S & R).
      simpl. rewrite F, L, S. split; [reflexivity|]. split; [|exact Hnil].
      intros p Hp. repeat apply is_Some_insert. exact Hp. }
  destruct (finish_file_run _ _ _ _ _ s E Hj Ht Hu) as (s' & -> & F & L & S & R).
  simpl. rewrite F, L, S. split; [reflexivity|]. split.
  - intros p Hp. destruct (can_write w (pdf_path cfg name));
      repeat apply is_Some_insert; exact Hp.
  - eexists. split; [reflexivity|].
    now destruct (can_write w (pdf_path cfg name)).
Qed.

Lemma transcribe_and_finish_submitted (use_path name : pystr) (s : State) :
  submitted (snd (transcribe_and_finish w cfg use_path name s))
  = submitted s ++ [use_path].
Proof.
  destruct (service w use_path) as [resp|e] eqn:E.
  - destruct (transcribe_and_finish_ok use_path name resp s E) as (s1 & -> & _ & _ & S1 & _).
    destruct (finish_file_frame name resp s1) as (Hs & _). now rewrite Hs.
  - destruct (transcribe_and_finish_failed use_path name e s E) as (s' & -> & _ & _ & S & _).
    exact S.
Qed.

(** C6, amended. For every file whose transcription returned a response
    with a textual transcript, if the structured payload's destination
    can be opened for writing, then after the file's processing, however
    it ends, that path holds the full payload serialised with
    [ensure_ascii=False] and [indent=2] or, when that serialisation
    raises, the plain string representation of the response. *)
Theorem structured_payload_written (use_path name : pystr) (resp : response)
  (t : pystr) (d c : pyval) (s : State) :
  service w use_path = Ok resp ->
  extract_transcript_from_response resp = Ok (VStr t, d, c) ->
  can_write w (json_path cfg name) = true ->
  files (snd (transcribe_and_finish w cfg use_path name s)) !! json_path cfg name
  = Some (TextFile match json_dumps w false 2 d with
                   | Ok text => text
                   | Raise _ => str_of_response w resp
                   end).
Proof.
  intros Hs He Hj.
  destruct (transcribe_and_finish_ok use_path name resp s Hs) as (s1 & -> & _).
  destruct (can_write w (txt_path cfg name)) eqn:Ht.
  - destruct (utf8_encodable (text_or_placeholder t)) eqn:Hu.
    + destruct (finish_file_run _ _ _ _ _ s1 He Hj Ht Hu) as (s' & -> & F & _).
      simpl. rewrite F.
      destruct (can_write w (pdf_path cfg name)).
      * rewrite lookup_insert_ne by (apply not_eq_sym, json_pdf_distinct).
        rewrite lookup_insert_ne by apply txt_json_distinct.
        apply lookup_insert_eq.
      * rewrite lookup_insert_ne by apply txt_json_distinct.
        apply lookup_insert_eq.
    + destruct (finish_file_txt_unencodable _ _ _ _ _ s1 He Hj Ht Hu)
        as (s' & -> & F & _).
      simpl. rewrite F. rewrite lookup_insert_ne by apply txt_json_distinct.
      apply lookup_insert_eq.
  - destruct (finish_file_txt_locked _ _ _ _ _ s1 He Hj Ht) as (s' & -> & F & _).
    simpl. rewrite F. apply lookup_insert_eq.
Qed.


(** C7. For every video file that is not skipped, if [ffmpeg] is
    unavailable or its extraction run exits non-zero, the path submitted
    to transcription is the original source file, and the iteration goes
    on exactly as the transcription-and-persistence pipeline run on that
    original path: the file is neither skipped nor does the failure
    abort it. *)
Theorem degraded_audio_submits_original (total idx : nat) (name : pystr) (s : State) :
  is_video name = true ->
  ffmpeg_present w = false
  \/ ffmpeg_run w (src_path cfg name) (wav_of w idx name) = Raise CalledProcessError ->
  overwrite cfg = true \/ complete cfg s name = false ->
  let out := process_file w cfg (ffmpeg_present w) total idx name s in
  submitted (snd out) = submitted s ++ [src_path cfg name]
  /\ exists s1,
       out = transcribe_and_finish w cfg (src_path cfg name) name s1
       /\ files s1 = files s /\ submitted s1 = submitted s /\ rendered s1 = rendered s
       /\ log s1 = log s ++ MsgProcessing idx total name
                         :: (if ffmpeg_present w then [MsgExtractFailed name] else []).
Proof.
  intros Hv Hd Hgo out. subst out.
  destruct (process_file_started (ffmpeg_present w) total idx name s Hgo)
    as (s0 & -> & F0 & L0 & S0 & R0).
  destruct (prepare_audio_degraded (ffmpeg_present w) idx name s0 Hd)
    as (s1 & E & F & S & R & L).
  unfold bind. rewrite E. split.
  - rewrite transcribe_and_finish_submitted. now rewrite S, S0.
  - exists s1. split; [reflexivity|]. rewrite F, S, R, L, F0, L0, S0, R0, Hv.
    rewrite <- app_assoc. now repeat split.
Qed.

(** ** The loop *)

Lemma headers_app (a b : list log_msg) : headers (a ++ b) = headers a ++ headers b.
Proof. apply flat_map_app. Qed.

Lemma grows_refl (s : State) : grows s s [].
Proof. split; [auto|]. exists []. now rewrite app_nil_r. Qed.

Lemma grows_trans (s1 s2 s3 : State) (h1 h2 : list pystr) :
  grows s1 s2 h1 -> grows s2 s3 h2 -> grows s1 s3 (h1 ++ h2).
Proof.
  intros [F1 (l1 & L1 & H1)] [F2 (l2 & L2 & H2)]. split; [auto|].
  exists (l1 ++ l2). rewrite L2, L1, <- app_assoc, headers_app, H1, H2. auto.
Qed.


Lemma grows_same_files (s s' : State) (l : list log_msg) (hs : list pystr) :
  files s' = files s -> log s' = log s ++ l -> headers l = hs -> grows s s' hs.
Proof.
  intros F L H. split; [intros p; now rewrite F|]. now exists l.
Qed.

Lemma prepare_audio_frame (ok : bool) (idx : nat) (name : pystr) (s : State) :
  grows s (snd (prepare_audio w cfg ok idx name s)) [].
Proof.
  unfold prepare_audio. destruct (is_video name && ok); [|apply grows_refl].
  unfold try_except, bind, extract_audio_with_ffmpeg, lift.
  destruct (ffmpeg_run w _ _) as [[]|e]; simpl.
  - eapply grows_same_files; [reflexivity | simpl; reflexivity | reflexivity].
  - destruct e; simpl; try apply grows_refl.
    eapply grows_same_files; [reflexivity | simpl; reflexivity | reflexivity].
Qed.

Lemma transcribe_and_finish_frame (use_path name : pystr) (s : State) :
  grows s (snd (transcribe_and_finish w cfg use_path name s)) [].
Proof.
  destruct (service w use_path) as [resp|e] eqn:E.
  - destruct (transcribe_and_finish_ok use_path name resp s E) as (s1 & -> & F & L & _).
    destruct (finish_file_frame name resp s1) as (_ & Hf & l & Hl & Hh).
    split.
    + intros p Hp. apply Hf. now rewrite F.
    + exists l. now rewrite Hl, L.
  - destruct (transcribe_and_finish_failed use_path name e s E) as (s' & -> & F & L & _).
    now apply (grows_same_files _ _ [MsgTranscriptionError e]).
Qed.

Lemma process_file_frame (ok : bool) (total idx : nat) (name : pystr) (s : State) :
  grows s (snd (process_file w cfg ok total idx name s)) [name].
Proof.
  assert (Hcase : (overwrite cfg = false /\ complete cfg s name = true)
                  \/ (overwrite cfg = true \/ complete cfg s name = false)).
  { destruct (overwrite cfg), (complete cfg s name); auto. }
  destruct Hcase as [[Ho Hc] | Hgo].
  - rewrite process_file_skip by assumption.
    now apply (grows_same_files _ _ [MsgSkip idx total name]).
  - destruct (process_file_started ok total idx name s Hgo) as (s0 & -> & F0 & L0 & _).
    apply (grows_trans s s0 _ [name] []).
    { now apply (grows_same_files _ _ [MsgProcessing idx total name]). }
    unfold bind. pose proof (prepare_audio_frame ok idx name s0) as Hp.
    destruct (prepare_audio w cfg ok idx name s0) as [[use_path|e] s1]; simpl in Hp;
      [|exact Hp].
    apply (grows_trans s0 s1 _ [] []); [exact Hp|].
    apply transcribe_and_finish_frame.
Qed.


Lemma process_videos_not_started (s : State) :
  starts w cfg = false -> exists e, process_videos w cfg s = (Raise e, s).
Proof.
  unfold starts, process_videos, mkdir, bind, ret, raise.
  destruct (mkdir_ok w (output_dir cfg)); [|eauto].
  destruct (mkdir_ok w (txt_dir cfg)); [|eauto].
  destruct (mkdir_ok w (json_dir cfg)); [|eauto].
  destruct (mkdir_ok w (pdf_dir cfg)); [|eauto].
  destruct (is_dir w (input_dir cfg)); [|eauto].
  destruct (client_ok w); [discriminate | eauto].
Qed.

Lemma process_videos_started (s : State) :
  starts w cfg = true ->
  exists s0,
    process_videos w cfg s
    = transcribe_all w cfg (ffmpeg_present w) (discover (iterdir w (input_dir cfg))) s0
    /\ files s0 = files s /\ submitted s0 = submitted s /\ rendered s0 = rendered s
    /\ log s0 = log s ++ (if ffmpeg_present w then [] else [MsgNoFfmpeg]).
Proof.
  unfold starts, process_videos, mkdir, bind, ret, raise. intros H.
  repeat (apply andb_true_iff in H as [H ?]).
  repeat match goal with E : _ = true |- _ => rewrite E; clear E end. simpl.
  destruct (ffmpeg_present w); eexists; (split; [reflexivity|]); simpl;
    rewrite ?app_nil_r; auto.
Qed.

Lemma returns_means_started (s s' : State) :
  process_videos w cfg s = (Ok tt, s') -> starts w cfg = true.
Proof.
  intros H. destruct (starts w cfg) eqn:E; [reflexivity|].
  destruct (process_videos_not_started s E) as (e & He). congruence.
Qed.




(** ** Skipping and re-running *)

Lemma complete_ext (s s' : State) (name : pystr) :
  files s' = files s -> complete cfg s' name = complete cfg s name.
Proof. intros F. unfold complete, has_file. now rewrite F. Qed.

Lemma for_each_all_skipped (ok : bool) (total : nat) (names : list pystr)
  (idx : nat) (s : State) :
  overwrite cfg = false ->
  (forall n, In n names -> complete cfg s n = true) ->
  exists s',
    for_each idx names (process_file w cfg ok total) s = (Ok tt, s')
    /\ files s' = files s /\ submitted s' = submitted s /\ rendered s' = rendered s
    /\ log s' = log s ++ skip_msgs total idx names.
Proof.
  intros Ho. revert idx s. induction names as [|name names IH]; intros idx s Hc.
  - exists s. simpl. rewrite app_nil_r. now repeat split.
  - simpl. unfold bind.
    rewrite process_file_skip by (auto; apply Hc; now left).
    unfold log_callback.
    match goal with |- context [for_each (S idx) names _ ?s0] =>
      destruct (IH (S idx) s0) as (s' & -> & F & S & R & L) end.
    { intros n Hn. rewrite (complete_ext s); [|reflexivity]. apply Hc. now right. }
    exists s'. split; [reflexivity|]. simpl in F, S, R, L.
    rewrite F, S, R, L, <- app_assoc. now repeat split.
Qed.

Lemma transcribe_all_skipped (names : list pystr) (s : State) :
  overwrite cfg = false ->
  (forall n, In n names -> complete cfg s n = true) ->
  exists s',
    transcribe_all w cfg (ffmpeg_present w) names s = (Ok tt, s')
    /\ files s' = files s /\ submitted s' = submitted s /\ rendered s' = rendered s
    /\ log s' = log s ++ match names with
                         | [] => [MsgNoFiles]
                         | _ => MsgFound (length names)
                                :: skip_msgs (length names) 1 names ++ [MsgDone]
                         end.
Proof.
  intros Ho Hc. unfold transcribe_all. destruct names as [|n0 names0]; cbv iota.
  - eexists. split; [reflexivity|]. now simpl.
  - remember (n0 :: names0) as names eqn:En. clear En.
    unfold bind, log_callback.
    match goal with |- context [for_each 1 names _ ?s0] =>
      destruct (for_each_all_skipped (ffmpeg_present w) (length names) names 1 s0 Ho)
        as (s' & -> & F & S & R & L) end.
    { intros n Hn. rewrite (complete_ext s); [|reflexivity]. now apply Hc. }
    eexists. split; [reflexivity|]. simpl in *.
    rewrite F, S, R, L, <- !app_assoc. now repeat split.
Qed.

Lemma process_videos_all_complete (s : State) :
  starts w cfg = true ->
  overwrite cfg = false ->
  (forall n, In n (discover (iterdir w (input_dir cfg))) -> complete cfg s n = true) ->
  exists s',
    process_videos w cfg s = (Ok tt, s')
    /\ files s' = files s /\ submitted s' = submitted s /\ rendered s' = rendered s
    /\ log s' = log s ++ all_skipped_log w (discover (iterdir w (input_dir cfg))).
Proof.
  intros Hs Ho Hc.
  destruct (process_videos_started s Hs) as (s0 & -> & F0 & S0 & R0 & L0).
  destruct (transcribe_all_skipped (discover (iterdir w (input_dir cfg))) s0 Ho)
    as (s' & -> & F & S & R & L).
  { intros n Hn. rewrite (complete_ext s); [now apply Hc | exact F0]. }
  exists s'. split; [reflexivity|]. unfold all_skipped_log.
  rewrite F, S, R, L, F0, S0, R0, L0, <- app_assoc. now repeat split.
Qed.

(** ** Runs in which nothing fails *)

Lemma has_file_true (s : State) (p : pystr) :
  has_file s p = true <-> is_Some (files s !! p).
Proof. unfold has_file. apply bool_decide_eq_true. Qed.

Lemma complete_true (s : State) (name : pystr) :
  complete cfg s name = true <->
  is_Some (files s !! txt_path cfg name)
  /\ is_Some (files s !! pdf_path cfg name)
  /\ is_Some (files s !! json_path cfg name).
Proof.
  unfold complete. rewrite !andb_true_iff, !has_file_true. tauto.
Qed.

Lemma complete_mono (s s' : State) (name : pystr) :
  (forall p, is_Some (files s !! p) -> is_Some (files s' !! p)) ->
  complete cfg s name = true -> complete cfg s' name = true.
Proof. rewrite !complete_true. intros H (A & B & C). auto. Qed.

Lemma prepare_audio_healthy (ok : bool) (idx : nat) (name : pystr) (s : State) :
  ffmpeg_exits w ->
  exists use_path s',
    prepare_audio w cfg ok idx name s = (Ok use_path, s') /\ files s' = files s.
Proof.
  intros Hf. unfold prepare_audio.
  destruct (is_video name && ok); [|now exists (src_path cfg name), s].
  unfold try_except, bind, extract_audio_with_ffmpeg, lift.
  destruct (Hf (src_path cfg name) (joinpath (mkdtemp w idx) (stem name ++ py ".wav")))
    as [-> | ->]; simpl; eauto.
Qed.

Lemma process_file_healthy (ok : bool) (total idx : nat) (name : pystr) (s : State) :
  healthy w ->
  exists s',
    process_file w cfg ok total idx name s = (Ok tt, s')
    /\ complete cfg s' name = true.
Proof.
  intros Hw.
  assert (Hcase : (overwrite cfg = false /\ complete cfg s name = true)
                  \/ (overwrite cfg = true \/ complete cfg s name = false)).
  { destruct (overwrite cfg), (complete cfg s name); auto. }
  destruct Hcase as [[Ho Hc] | Hgo].
  - rewrite process_file_skip by assumption.
    eexists. split; [reflexivity|]. now rewrite (complete_ext s).
  - destruct (process_file_started ok total idx name s Hgo) as (s0 & -> & _).
    destruct (prepare_audio_healthy ok idx name s0 (proj2 (proj2 Hw)))
      as (use_path & s1 & E1 & _).
    unfold bind. rewrite E1.
    destruct Hw as (Hcw & Hsv & _).
    destruct (Hsv use_path) as (resp & t & d & c & Hs & He & Hu).
    destruct (transcribe_and_finish_ok use_path name resp s1 Hs) as (s2 & -> & _).
    destruct (finish_file_run name resp t d c s2 He (Hcw _) (Hcw _)
                (text_or_placeholder_encodable t Hu)) as (s3 & -> & F & _).
    exists s3. split; [reflexivity|]. apply complete_true. rewrite F, Hcw.
    repeat split.
    + apply is_Some_insert. rewrite lookup_insert_eq. eauto.
    + rewrite lookup_insert_eq. eauto.
    + do 2 apply is_Some_insert. rewrite lookup_insert_eq. eauto.
Qed.

Lemma for_each_healthy (ok : bool) (total : nat) (names : list pystr)
  (idx : nat) (s : State) :
  healthy w ->
  exists s',
    for_each idx names (process_file w cfg ok total) s = (Ok tt, s')
    /\ (forall n, In n names -> complete cfg s' n = true)
    /\ (forall p, is_Some (files s !! p) -> is_Some (files s' !! p)).
Proof.
  intros Hw. revert idx s. induction names as [|name names IH]; intros idx s.
  - exists s. simpl. split; [reflexivity|]. split; [tauto | auto].
  - simpl. unfold bind.
    pose proof (process_file_frame ok total idx name s) as [Hm _].
    destruct (process_file_healthy ok total idx name s Hw) as (s1 & E1 & C1).
    rewrite E1 in Hm |- *. simpl in Hm.
    destruct (IH (S idx) s1) as (s' & -> & Hall & Hm').
    exists s'. split; [reflexivity|]. split; [|auto].
    intros n [<- | Hn]; [|now apply Hall].
    now apply (complete_mono s1).
Qed.

Lemma process_videos_healthy (s : State) :
  healthy w -> starts w cfg = true ->
  exists s',
    process_videos w cfg s = (Ok tt, s')
    /\ forall n, In n (discover (iterdir w (input_dir cfg))) -> complete cfg s' n = true.
Proof.
  intros Hw Hs.
  destruct (process_videos_started s Hs) as (s0 & -> & _).
  unfold transcribe_all.
  destruct (discover (iterdir w (input_dir cfg))) as [|n0 names0]; cbv iota.
  - eexists. split; [reflexivity|]. intros n [].
  - remember (n0 :: names0) as names eqn:En. clear En.
    unfold bind, log_callback.
    match goal with |- context [for_each 1 names _ ?s1] =>
      destruct (for_each_healthy (ffmpeg_present w) (length names) names 1 s1 Hw)
        as (s' & -> & Hall & _) end.
    eexists. split; [reflexivity|].
    intros n Hn. rewrite (complete_ext s'); [now apply Hall | reflexivity].
Qed.

(** ** Failures the guards contain *)





(** C2, amended. For every discovered file, when overwrite is disabled
    and all three destination artifacts exist, the iteration only reports
    the skip: no file changes, nothing is submitted, nothing is rendered.
    Otherwise the file is processed, and when its processing completes
    (the transcript can be encoded and the three paths written) its
    three artifacts replace whatever the paths held.  Consequently, when
    a run with overwrite disabled has left all three artifacts of every
    discovered file on disk, as every run on a machine where nothing
    fails does, a second run on the same inputs skips every file and
    leaves the files as they were.  A failed transcription request
    writes nothing: a file whose artifacts were not all on disk before
    still lacks one afterwards, and is processed again whenever its turn
    comes with the disk in that state. *)
Theorem skip_policy_and_rerun :
  (forall ok total idx name s,
      overwrite cfg = false -> complete cfg s name = true ->
      exists s',
        process_file w cfg ok total idx name s = (Ok tt, s')
        /\ files s' = files s /\ submitted s' = submitted s
        /\ rendered s' = rendered s
        /\ log s' = log s ++ [MsgSkip idx total name])
  /\ (forall ok total idx name s,
        overwrite cfg = true \/ complete cfg s name = false ->
        exists s0,
          process_file w cfg ok total idx name s
          = (use_path <- prepare_audio w cfg ok idx name ;;
             transcribe_and_finish w cfg use_path name) s0
          /\ files s0 = files s
          /\ log s0 = log s ++ [MsgProcessing idx total name])
  /\ (forall name resp t d c s,
        extract_transcript_from_response resp = Ok (VStr t, d, c) ->
        utf8_encodable (text_or_placeholder t) = true ->
        can_write w (json_path cfg name) = true ->
        can_write w (txt_path cfg name) = true ->
        can_write w (pdf_path cfg name) = true ->
        exists s',
          finish_file w cfg name resp s = (Ok tt, s')
          /\ files s'
             = <[pdf_path cfg name :=
                   pdf_artifact w cfg (text_or_placeholder t) (pdf_path cfg name)
                     (TITLE_PREFIX ++ stem name) (meta_of w cfg c)]>
                 (<[txt_path cfg name := TextFile (text_or_placeholder t)]>
                    (<[json_path cfg name := json_artifact w d resp]> (files s))))
  /\ (forall s0 s1,
        overwrite cfg = false ->
        process_videos w cfg s0 = (Ok tt, s1) ->
        (forall n, In n (discover (iterdir w (input_dir cfg))) ->
                   complete cfg s1 n = true) ->
        exists s2,
          process_videos w cfg (next_run s1) = (Ok tt, s2)
          /\ files s2 = files s1 /\ submitted s2 = [] /\ rendered s2 = []
          /\ log s2 = all_skipped_log w (discover (iterdir w (input_dir cfg))))
  /\ (forall s0,
        healthy w -> starts w cfg = true -> overwrite cfg = false ->
        exists s1 s2,
          process_videos w cfg s0 = (Ok tt, s1)
          /\ process_videos w cfg (next_run s1) = (Ok tt, s2)
          /\ files s2 = files s1 /\ submitted s2 = [] /\ rendered s2 = []
          /\ log s2 = all_skipped_log w (discover (iterdir w (input_dir cfg))))
  /\ (forall use_path name e s,
        service w use_path = Raise e ->
        complete cfg s name = false ->
        let s1 := snd (transcribe_and_finish w cfg use_path name s) in
        files s1 = files s
        /\ complete cfg s1 name = false
        /\ forall ok total idx s2,
             files s2 = files s1 ->
             exists s0,
               process_file w cfg ok total idx name s2
               = (use_path' <- prepare_audio w cfg ok idx name ;;
                  transcribe_and_finish w cfg use_path' name) s0
               /\ files s0 = files s2
               /\ log s0 = log s2 ++ [MsgProcessing idx total name]).
Proof.
  split; [|split; [|split; [|split; [|split]]]].
  - intros ok total idx name s Ho Hc. rewrite process_file_skip by assumption.
    eexists. split; [reflexivity|]. now simpl.
  - intros ok total idx name s Hgo.
    destruct (process_file_started ok total idx name s Hgo) as (s0 & E & F & L & _).
    now exists s0.
  - intros name resp t d c s He Hu Hj Ht Hp.
    destruct (finish_file_run name resp t d c s He Hj Ht Hu) as (s' & E & F & _).
    exists s'. split; [exact E|]. now rewrite F, Hp.
  - intros s0 s1 Ho Hrun Hc.
    destruct (process_videos_all_complete (next_run s1)
                (returns_means_started s0 s1 Hrun) Ho) as (s2 & E & F & S & R & L).
    { intros n Hn. rewrite (complete_ext s1); [now apply Hc | reflexivity]. }
    now exists s2.
  - intros s0 Hw Hs Ho.
    destruct (process_videos_healthy s0 Hw Hs) as (s1 & E1 & Hc).
    destruct (process_videos_all_complete (next_run s1) Hs Ho) as (s2 & E & F & S & R & L).
    { intros n Hn. rewrite (complete_ext s1); [now apply Hc | reflexivity]. }
    now exists s1, s2.
  - intros use_path name e s Hs Hc s1. subst s1.
    destruct (transcribe_and_finish_failed use_path name e s Hs) as (s' & -> & F & _).
    simpl. split; [exact F|].
    assert (Hc' : complete cfg s' name = false) by now rewrite (complete_ext s s' name F).
    split; [exact Hc'|].
    intros ok total idx s2 F2.
    destruct (process_file_started ok total idx name s2) as (s0 & E & F0 & L0 & _).
    { right. now rewrite (complete_ext s' s2 name F2). }
    now exists s0.
Qed.

End FileFacts.

(** ** The model on concrete machines *)

Lemma blank_world_healthy : healthy blank_world.
Proof.
  split; [reflexivity|]. split.
  - intros p. exists (sample_response (py "  ")). do 3 eexists.
    repeat split; reflexivity.
  - intros a b. now left.
Qed.

(** The re-run property on the blank-transcript machine. *)
Lemma skip_policy_and_rerun_witness :
  healthy blank_world
  /\ exists s1 s2,
       process_videos (T := ascii_table) blank_world (sample_cfg false) initial_state
       = (Ok tt, s1)
       /\ process_videos (T := ascii_table) blank_world (sample_cfg false) (next_run s1)
          = (Ok tt, s2)
       /\ files s2 = files s1 /\ submitted s2 = [] /\ rendered s2 = []
       /\ log s2 = all_skipped_log blank_world
                     (discover (T := ascii_table)
                        (iterdir blank_world (input_dir (sample_cfg false)))).
Proof.
  split; [exact blank_world_healthy|].
  apply (skip_policy_and_rerun (T := ascii_table) blank_world (sample_cfg false));
    [exact blank_world_healthy | reflexivity | reflexivity].
Defined.

(** C2, as stated, fails: a file whose transcription failed in the first
    run has no artifacts, so the second run, on the same inputs and with
    overwrite disabled, processes it again instead of skipping it. *)
Lemma failed_file_is_processed_again :
  let run := process_videos (T := ascii_table) service_down_world (sample_cfg false) in
  let s1 := snd (run initial_state) in
  let s2 := snd (run (next_run s1)) in
  discover (T := ascii_table) (iterdir service_down_world (py "/in")) = [py "a.mp3"]
  /\ fst (run initial_state) = Ok tt
  /\ fst (run (next_run s1)) = Ok tt
  /\ log s2 = [MsgNoFfmpeg; MsgFound 1; MsgProcessing 1 1 (py "a.mp3");
               MsgTranscriptionError (ServiceError 401); MsgDone]
  /\ ~ In (MsgSkip 1 1 (py "a.mp3")) (log s2).
Proof.
  vm_compute. repeat split.
  intros [H|[H|[H|[H|[H|[]]]]]]; discriminate H.
Qed.




(** The rough machine, evaluated. *)
Example rough_world_log :
  log (snd (process_videos (T := ascii_table) rough_world (sample_cfg false)
              initial_state))
  = [MsgNoFfmpeg; MsgFound 2;
     MsgProcessing 1 2 (py "a.mp3"); MsgTranscriptionError (ServiceError 500);
     MsgProcessing 2 2 (py "b.mp3"); MsgPdfError OSError;
     MsgSaved (py "b.txt") (py "b.deepgram.json") (py "b.pdf");
     MsgDone].
Proof. vm_compute. reflexivity. Qed.

(** C6, as stated, fails: the file is processed (its transcription is
    requested and returns), but the structured payload's path cannot be
    opened; the fallback write fails like the first one, the error
    leaves the batch, and no artifact exists at the path. *)
Lemma locked_payload_path_leaves_no_artifact :
  let out := process_videos (T := ascii_table) json_locked_world (sample_cfg false)
               initial_state in
  json_path (T := ascii_table) (sample_cfg false) (py "a.mp3")
  = py "/out/json/a.deepgram.json"
  /\ service json_locked_world (py "/in/a.mp3") = Ok (sample_response (py "hola"))
  /\ submitted (snd out) = [py "/in/a.mp3"]
  /\ fst out = Raise OSError
  /\ files (snd out) !! py "/out/json/a.deepgram.json" = None.
Proof. vm_compute. repeat split. Qed.

(** The payload write on the machine whose serialiser raises: the
    fallback text is what the path holds. *)
Lemma structured_payload_written_witness :
  can_write unserialisable_world
    (json_path (T := ascii_table) (sample_cfg false) (py "a.mp3")) = true
  /\ files (snd (transcribe_and_finish (T := ascii_table) unserialisable_world
                   (sample_cfg false) (py "/in/a.mp3") (py "a.mp3") initial_state))
       !! json_path (T := ascii_table) (sample_cfg false) (py "a.mp3")
     = Some (TextFile (py "<response>")).
Proof.
  split; [reflexivity|].
  eapply (structured_payload_written (T := ascii_table) unserialisable_world
            (sample_cfg false) (py "/in/a.mp3") (py "a.mp3")
            (sample_response (py "hola")) (py "hola")); reflexivity.
Defined.

(** The same write on a machine whose serialiser succeeds. *)
Example structured_payload_serialised :
  files (snd (transcribe_and_finish (T := ascii_table) blank_world
                (sample_cfg false) (py "/in/a.mp3") (py "a.mp3") initial_state))
    !! py "/out/json/a.deepgram.json"
  = Some (TextFile (py "{}")).
Proof. vm_compute. reflexivity. Qed.


(** The degraded path on the machine without [ffmpeg]. *)
Lemma degraded_audio_submits_original_witness :
  is_video (T := ascii_table) (py "v.mp4") = true
  /\ ffmpeg_present no_ffmpeg_world = false
  /\ submitted (snd (process_file (T := ascii_table) no_ffmpeg_world (sample_cfg false)
                       (ffmpeg_present no_ffmpeg_world) 1 1 (py "v.mp4") initial_state))
     = [py "/in/v.mp4"].
Proof.
  split; [reflexivity|]. split; [reflexivity|].
  apply (degraded_audio_submits_original (T := ascii_table) no_ffmpeg_world
           (sample_cfg false) 1 1 (py "v.mp4") initial_state eq_refl
           (or_introl eq_refl) (or_intror eq_refl)).
Defined.

(** The other degraded case: [ffmpeg] runs and exits non-zero. *)
Example failed_extraction_submits_original :
  let out := process_videos (T := ascii_table) ffmpeg_failing_world (sample_cfg false)
               initial_state in
  fst out = Ok tt
  /\ submitted (snd out) = [py "/in/v.mp4"]
  /\ log (snd out) = [MsgFound 1; MsgProcessing 1 1 (py "v.mp4");
                      MsgExtractFailed (py "v.mp4");
                      MsgSaved (py "v.txt") (py "v.deepgram.json") (py "v.pdf");
                      MsgDone].
Proof. vm_compute. repeat split. Qed.

(** ** Colliding base names *)

Section Collision.
Context {T : PyChars}.

Lemma keep_char_letter (c : N) : c < 128 -> ascii_isalnum c = true -> keep_char c = true.
Proof. intros Hc Ha. unfold keep_char. now rewrite isalnum_ascii, Ha. Qed.

Lemma isspace_letter (c : N) : c < 128 -> ascii_isspace c = false -> isspace c = false.
Proof. intros Hc Ha. now rewrite isspace_ascii. Qed.

Lemma clean_a_space_b : clean_filename [97; 32; 98] = [97; 95; 98].
Proof.
  assert (Ka : keep_char 97 = true) by (apply keep_char_letter; [lia | reflexivity]).
  assert (Kb : keep_char 98 = true) by (apply keep_char_letter; [lia | reflexivity]).
  assert (Ks : keep_char 32 = true).
  { unfold keep_char. rewrite isalnum_ascii by lia. reflexivity. }
  assert (Sa : isspace 97 = false) by (apply isspace_letter; [lia | reflexivity]).
  assert (Sb : isspace 98 = false) by (apply isspace_letter; [lia | reflexivity]).
  unfold clean_filename. cbn [List.filter]. rewrite Ka, Ks, Kb.
  unfold strip, rstrip. cbn [lstrip]. rewrite Sa. cbn [rev app lstrip]. rewrite Sb.
  reflexivity.
Qed.

Lemma clean_a_underscore_b : clean_filename [97; 95; 98] = [97; 95; 98].
Proof.
  assert (Ka : keep_char 97 = true) by (apply keep_char_letter; [lia | reflexivity]).
  assert (Kb : keep_char 98 = true) by (apply keep_char_letter; [lia | reflexivity]).
  assert (Ku : keep_char 95 = true).
  { unfold keep_char. rewrite isalnum_ascii by lia. reflexivity. }
  assert (Sa : isspace 97 = false) by (apply isspace_letter; [lia | reflexivity]).
  assert (Sb : isspace 98 = false) by (apply isspace_letter; [lia | reflexivity]).
  unfold clean_filename. cbn [List.filter]. rewrite Ka, Ku, Kb.
  unfold strip, rstrip. cbn [lstrip]. rewrite Sa. cbn [rev app lstrip]. rewrite Sb.
  reflexivity.
Qed.

Lemma base_name_collides :
  base_name (py "a b.mp3") = base_name (py "a_b.mp3").
Proof.
  unfold base_name.
  change (stem (py "a b.mp3")) with [97; 32; 98].
  change (stem (py "a_b.mp3")) with [97; 95; 98].
  now rewrite clean_a_space_b, clean_a_underscore_b.
Qed.

End Collision.

(** C10. [clean_filename] is not injective: the distinct names
    [a b.mp3] and [a_b.mp3] have the same sanitised base name, hence the
    same three destination paths under every configuration.  In a batch
    holding both, with overwrite enabled the later file's artifacts
    replace the earlier file's (three artifacts remain for two sources);
    with overwrite disabled the later file is skipped because the earlier
    file's artifacts exist, and is never submitted. *)
Theorem clean_filename_collision :
  py "a b.mp3" <> py "a_b.mp3"
  /\ (forall (T : PyChars) (cfg : Config),
        clean_filename (stem (py "a b.mp3")) = clean_filename (stem (py "a_b.mp3"))
        /\ txt_path cfg (py "a b.mp3") = txt_path cfg (py "a_b.mp3")
        /\ json_path cfg (py "a b.mp3") = json_path cfg (py "a_b.mp3")
        /\ pdf_path cfg (py "a b.mp3") = pdf_path cfg (py "a_b.mp3"))
  /\ (let out := process_videos (T := ascii_table) collision_world (sample_cfg true)
                   initial_state in
      fst out = Ok tt
      /\ log (snd out)
         = [MsgNoFfmpeg; MsgFound 2;
            MsgProcessing 1 2 (py "a b.mp3");
            MsgSaved (py "a_b.txt") (py "a_b.deepgram.json") (py "a_b.pdf");
            MsgProcessing 2 2 (py "a_b.mp3");
            MsgSaved (py "a_b.txt") (py "a_b.deepgram.json") (py "a_b.pdf");
            MsgDone]
      /\ submitted (snd out) = [py "/in/a b.mp3"; py "/in/a_b.mp3"]
      /\ files (snd out) !! py "/out/txt/a_b.txt" = Some (TextFile (py "second"))
      /\ size (files (snd out)) = 3%nat)
  /\ (let out := process_videos (T := ascii_table) collision_world (sample_cfg false)
                   initial_state in
      fst out = Ok tt
      /\ In (MsgSkip 2 2 (py "a_b.mp3")) (log (snd out))
      /\ submitted (snd out) = [py "/in/a b.mp3"]
      /\ files (snd out) !! py "/out/txt/a_b.txt" = Some (TextFile (py "first"))).
Proof.
  split; [discriminate|]. split; [|split].
  - intros T cfg. pose proof (base_name_collides (T := T)) as H.
    unfold txt_path, json_path, pdf_path. rewrite H. now repeat split.
  - vm_compute. repeat split.
  - vm_compute. repeat split. do 4 right. left. reflexivity.
Qed.

(** * Further properties of the code *)

(** ** [_sanitize_for_core_fonts] *)

Lemma replace1_app (old : N) (new a b : pystr) :
  replace1 old new (a ++ b) = replace1 old new a ++ replace1 old new b.
Proof. apply flat_map_app. Qed.

Lemma replace_steps_app (rs : list (N * pystr)) (a b : pystr) :
  fold_left (fun acc kv => replace1 (fst kv) (snd kv) acc) rs (a ++ b)
  = fold_left (fun acc kv => replace1 (fst kv) (snd kv) acc) rs a
    ++ fold_left (fun acc kv => replace1 (fst kv) (snd kv) acc) rs b.
Proof.
  revert a b. induction rs as [|[k v] rs IH]; intros a b; simpl; [reflexivity|].
  now rewrite replace1_app, IH.
Qed.

Lemma sanitize_app (a b : pystr) :
  _sanitize_for_core_fonts (a ++ b)
  = _sanitize_for_core_fonts a ++ _sanitize_for_core_fonts b.
Proof.
  unfold _sanitize_for_core_fonts, latin1_replace.
  now rewrite replace_steps_app, map_app.
Qed.

Lemma sanitize_single (c : N) : _sanitize_for_core_fonts [c] = sanitize_char c.
Proof.
  unfold sanitize_char.
  repeat match goal with
  | |- context [?x =? ?k] =>
      is_var x; destruct (N.eqb_spec x k) as [->|?]; [reflexivity|]
  end.
  unfold _sanitize_for_core_fonts, replacements, EM_DASH, EN_DASH, replace1 in *.
  cbn [fold_left fst snd].
  repeat (cbn [flat_map app];
          match goal with
          | |- context [c =? ?k] => rewrite (proj2 (N.eqb_neq c k)) by assumption
          end).
  unfold latin1_replace. cbn [app List.map orb]. now destruct (c <=? 255).
Qed.

Lemma sanitize_cons (c : N) (s : pystr) :
  _sanitize_for_core_fonts (c :: s) = sanitize_char c ++ _sanitize_for_core_fonts s.
Proof. now rewrite <- sanitize_single, <- sanitize_app. Qed.

Lemma sanitize_char_core (c x : N) : In x (sanitize_char c) -> core_char x.
Proof.
  unfold sanitize_char, core_char.
  repeat match goal with
  | |- context [if ?b then _ else _] => destruct b eqn:?
  end; intros H; cbv in H;
    repeat (destruct H as [<-|H]); try contradiction;
    try (split; [apply N.leb_le; reflexivity | discriminate]).
  all: repeat match goal with
       | E : (_ <=? _) = true |- _ => apply N.leb_le in E
       | E : (_ =? _) = false |- _ => apply N.eqb_neq in E
       end; split; [lia | assumption].
Qed.

Lemma core_char_kept (x : N) : core_char x -> sanitize_char x = [x].
Proof.
  intros [Hle Hne]. unfold sanitize_char, EM_DASH, EN_DASH.
  repeat match goal with
  | |- context [x =? ?k] => destruct (N.eqb_spec x k) as [->|_]; [lia|]
  end.
  cbn [orb]. destruct (N.leb_spec x 255); [reflexivity | lia].
Qed.

Lemma sanitize_core (s : pystr) : Forall core_char (_sanitize_for_core_fonts s).
Proof.
  induction s as [|c s IH]; [constructor|].
  rewrite sanitize_cons. apply Forall_app. split; [|exact IH].
  apply List.Forall_forall. intros x. apply sanitize_char_core.
Qed.

Lemma sanitize_fixed (s : pystr) :
  Forall core_char s -> _sanitize_for_core_fonts s = s.
Proof.
  induction 1 as [|c s Hc _ IH]; [reflexivity|].
  now rewrite sanitize_cons, IH, (core_char_kept c Hc).
Qed.

(** X1. The sanitiser acts character by character: its nine sequential
    replacements followed by the Latin-1 round trip amount to one pass in
    which every character is turned into its own fixed replacement, and
    no replacement text is touched again by a later step. *)
Theorem sanitize_is_one_pass (s : pystr) :
  _sanitize_for_core_fonts s = flat_map sanitize_char s.
Proof.
  induction s as [|c s IH]; [reflexivity|].
  rewrite sanitize_cons, IH. reflexivity.
Qed.

(** X2. Whatever the input, the sanitised text can be encoded by the
    core fonts: every code point is at most U+00FF, and none is the
    non-breaking space; in particular none of the typographic characters
    of the replacement table is left. *)
Theorem sanitize_output_is_latin1 (s : pystr) :
  Forall (fun c => c <= 255 /\ c <> 160) (_sanitize_for_core_fonts s)
  /\ (forall k, In k (List.map fst replacements) ->
                ~ In k (_sanitize_for_core_fonts s)).
Proof.
  split; [exact (sanitize_core s)|].
  intros k Hk Hin.
  pose proof (proj1 (List.Forall_forall _ _) (sanitize_core s) k Hin) as [Hle Hne].
  cbv in Hk. repeat (destruct Hk as [<-|Hk]); try contradiction; lia.
Qed.

(** X3. Sanitising is idempotent, and text that is already within the
    core repertoire is returned unchanged. *)
Theorem sanitize_idempotent (s : pystr) :
  _sanitize_for_core_fonts (_sanitize_for_core_fonts s) = _sanitize_for_core_fonts s
  /\ (Forall (fun c => c <= 255 /\ c <> 160) s -> _sanitize_for_core_fonts s = s).
Proof.
  split; [apply sanitize_fixed, sanitize_core | apply sanitize_fixed].
Qed.

(** ** [_find_unicode_font_paths] *)

Lemma first_existing_sound (env : FontEnv) (dir : pystr) (pairs : list (pystr * pystr))
  (r : pystr) (b : option pystr) :
  first_existing env dir pairs = Some (r, b) ->
  exists pre reg bold post,
    pairs = pre ++ (reg, bold) :: post
    /\ (forall x, In x pre -> path_exists env (joinpath dir (fst x)) = false)
    /\ r = joinpath dir reg
    /\ path_exists env r = true
    /\ b = (if path_exists env (joinpath dir bold) then Some (joinpath dir bold) else None).
Proof.
  induction pairs as [|[reg bold] rest IH]; simpl; [discriminate|].
  destruct (path_exists env (joinpath dir reg)) eqn:E.
  - intros [= <- <-]. exists [], reg, bold, rest. simpl. repeat split; auto. tauto.
  - intros H. destruct (IH H) as (pre & reg' & bold' & post & -> & Hpre & Hr & He & Hb).
    exists ((reg, bold) :: pre), reg', bold', post. repeat split; auto.
    intros x [<- | Hx]; [exact E | now apply Hpre].
Qed.

Lemma first_existing_none (env : FontEnv) (dir : pystr) (pairs : list (pystr * pystr)) :
  first_existing env dir pairs = None <->
  forall x, In x pairs -> path_exists env (joinpath dir (fst x)) = false.
Proof.
  induction pairs as [|[reg bold] rest IH]; simpl.
  - split; [intros _ x [] | reflexivity].
  - destruct (path_exists env (joinpath dir reg)) eqn:E.
    + split; [discriminate|]. intros H. specialize (H (reg, bold) (or_introl eq_refl)).
      simpl in H. congruence.
    + rewrite IH. split.
      * intros H x [<- | Hx]; [exact E | now apply H].
      * intros H x Hx. apply H. now right.
Qed.

Lemma first_existing_first (env : FontEnv) (dir : pystr)
  (pre post : list (pystr * pystr)) (reg bold : pystr) :
  (forall x, In x pre -> path_exists env (joinpath dir (fst x)) = false) ->
  path_exists env (joinpath dir reg) = true ->
  first_existing env dir (pre ++ (reg, bold) :: post)
  = Some (joinpath dir reg,
          if path_exists env (joinpath dir bold) then Some (joinpath dir bold) else None).
Proof.
  intros Hpre He. induction pre as [|[r0 b0] pre IH]; simpl.
  - now rewrite He.
  - pose proof (Hpre (r0, b0) (or_introl eq_refl)) as H0. simpl in H0.
    rewrite H0. apply IH. intros x Hx. apply Hpre. now right.
Qed.

(** X4. Every path the font search returns names a file that exists, and
    a bold font is only ever returned together with a regular one. *)
Theorem found_fonts_exist (env : FontEnv) :
  match _find_unicode_font_paths env with
  | (Some r, Some b) => path_exists env r = true /\ path_exists env b = true
  | (Some r, None) => path_exists env r = true
  | (None, b) => b = None
  end.
Proof.
  unfold _find_unicode_font_paths.
  destruct (first_existing env (fonts_dir env) local_candidates) as [[r b]|] eqn:E1.
  - destruct (first_existing_sound _ _ _ _ _ E1) as (? & ? & bold & ? & _ & _ & _ & Hr & ->).
    destruct (path_exists env (joinpath (fonts_dir env) bold)) eqn:Eb; auto.
  - destruct (path_exists env win_fonts); [|reflexivity].
    destruct (first_existing env win_fonts win_pairs) as [[r b]|] eqn:E2; [|reflexivity].
    destruct (first_existing_sound _ _ _ _ _ E2) as (? & ? & bold & ? & _ & _ & _ & Hr & ->).
    destruct (path_exists env (joinpath win_fonts bold)) eqn:Eb; auto.
Qed.

(** X5. The search is ordered and first match wins.  No font is found
    exactly when no local candidate exists and the system font directory
    is absent or holds none of its candidates.  The first local candidate
    whose regular file exists is returned whatever the system directory
    holds, with its bold companion when that file exists too; the system
    candidates are only consulted when every local one is missing. *)
Theorem font_search_order (env : FontEnv) :
  (fst (_find_unicode_font_paths env) = None <->
     (forall x, In x local_candidates ->
                path_exists env (joinpath (fonts_dir env) (fst x)) = false)
     /\ (path_exists env win_fonts = false
         \/ forall x, In x win_pairs ->
                      path_exists env (joinpath win_fonts (fst x)) = false))
  /\ (forall pre reg bold post,
        local_candidates = pre ++ (reg, bold) :: post ->
        (forall x, In x pre ->
                   path_exists env (joinpath (fonts_dir env) (fst x)) = false) ->
        path_exists env (joinpath (fonts_dir env) reg) = true ->
        _find_unicode_font_paths env
        = (Some (joinpath (fonts_dir env) reg),
           if path_exists env (joinpath (fonts_dir env) bold)
           then Some (joinpath (fonts_dir env) bold) else None))
  /\ (forall pre reg bold post,
        (forall x, In x local_candidates ->
                   path_exists env (joinpath (fonts_dir env) (fst x)) = false) ->
        path_exists env win_fonts = true ->
        win_pairs = pre ++ (reg, bold) :: post ->
        (forall x, In x pre -> path_exists env (joinpath win_fonts (fst x)) = false) ->
        path_exists env (joinpath win_fonts reg) = true ->
        _find_unicode_font_paths env
        = (Some (joinpath win_fonts reg),
           if path_exists env (joinpath win_fonts bold)
           then Some (joinpath win_fonts bold) else None)).
Proof.
  split; [|split].
  - unfold _find_unicode_font_paths.
    destruct (first_existing env (fonts_dir env) local_candidates) as [[r b]|] eqn:E1.
    + split; [discriminate|]. intros [H _].
      apply first_existing_none in H. congruence.
    + pose proof (proj1 (first_existing_none _ _ _) E1) as Hl.
      destruct (path_exists env win_fonts) eqn:Ew; [|simpl; tauto].
      destruct (first_existing env win_fonts win_pairs) as [[r b]|] eqn:E2.
      * split; [discriminate|]. intros [_ [H|H]]; [discriminate|].
        apply first_existing_none in H. congruence.
      * pose proof (proj1 (first_existing_none _ _ _) E2) as Hw. simpl. tauto.
  - intros pre reg bold post E Hpre He. unfold _find_unicode_font_paths.
    now rewrite E, (first_existing_first _ _ _ _ _ _ Hpre He).
  - intros pre reg bold post Hl Hw E Hpre He. unfold _find_unicode_font_paths.
    rewrite (proj2 (first_existing_none _ _ _) Hl), Hw, E.
    now rewrite (first_existing_first _ _ _ _ _ _ Hpre He).
Qed.

(** ** [to_pdf] *)

Section RenderingFacts.
Context {T : PyChars}.

Lemma register_fonts_unicode_iff (env : FontEnv) (reg bold : option pystr) :
  snd (register_fonts env reg bold) <> None <->
  exists r, reg = Some r /\ add_font_ok env r = true
            /\ (forall b, bold = Some b -> path_exists env b = true ->
                          add_font_ok env b = true).
Proof.
  unfold register_fonts. destruct reg as [r|].
  2:{ split; [simpl; congruence|]. intros (r & H & _). discriminate. }
  destruct (add_font_ok env r) eqn:Er.
  2:{ split; [simpl; congruence|]. intros (r' & [= <-] & H & _). congruence. }
  destruct bold as [b|].
  2:{ split; [|intros _; simpl; discriminate].
      intros _. exists r. repeat split; auto. discriminate. }
  destruct (path_exists env b) eqn:Eb.
  2:{ split; [|intros _; simpl; discriminate].
      intros _. exists r. repeat split; auto. intros b' [= <-]. congruence. }
  destruct (add_font_ok env b) eqn:Ea.
  - split; [|intros _; simpl; discriminate].
    intros _. exists r. repeat split; auto. intros b' [= <-] _. exact Ea.
  - split; [simpl; congruence|]. intros (r' & _ & _ & H).
    specialize (H b eq_refl Eb). congruence.
Qed.

Lemma written_texts_core (env : FontEnv) (now text path title : pystr)
  (meta : option (list (pystr * pystr))) (font_regular font_bold : option pystr)
  (minimal : bool) :
  using_core env font_regular font_bold = true ->
  written_texts
    (to_pdf_document env now text path title meta font_regular font_bold minimal)
  = fragments_through _sanitize_for_core_fonts now text title meta minimal.
Proof.
  unfold to_pdf_document, using_core.
  destruct (resolve_fonts env font_regular font_bold) as [reg bold].
  pose proof (written_texts_added env reg bold) as Ha.
  destruct (register_fonts env reg bold) as [added [fs|]]; simpl in *; [discriminate|].
  intros _. apply written_texts_fonts; [exact Ha | reflexivity..].
Qed.

Lemma latin1_of_core (s : pystr) :
  Forall core_char s -> Forall (fun c => c <= 255) s.
Proof. apply List.Forall_impl. now intros c [H _]. Qed.

(** X6. Whenever the core-font fallback is in use, every text fragment
    handed to the document (title, timestamp line, metadata line, body
    lines) lies within Latin-1, whatever characters the transcript,
    the title or the metadata contain. *)
Theorem core_output_is_latin1 (env : FontEnv) (now text path title : pystr)
  (meta : option (list (pystr * pystr))) (font_regular font_bold : option pystr)
  (minimal : bool) :
  using_core env font_regular font_bold = true ->
  Forall (Forall (fun c => c <= 255))
    (written_texts
       (to_pdf_document env now text path title meta font_regular font_bold minimal)).
Proof.
  intros Hc. rewrite (written_texts_core _ _ _ _ _ _ _ _ _ Hc).
  unfold fragments_through. apply Forall_app. split.
  - destruct minimal; [constructor|].
    apply Forall_app. split.
    + constructor; [apply latin1_of_core, sanitize_core|].
      constructor; [apply latin1_of_core, sanitize_core | constructor].
    + destruct (meta_info_of meta); [|constructor].
      constructor; [|constructor].
      apply Forall_app. split; [|apply latin1_of_core, sanitize_core].
      apply List.Forall_forall. intros c Hin. cbv in Hin.
      repeat (destruct Hin as [<-|Hin]; [lia|]). contradiction.
  - apply List.Forall_forall. intros l Hl.
    apply filter_In in Hl as [Hl _]. apply in_map_iff in Hl as (x & <- & _).
    apply latin1_of_core, sanitize_core.
Qed.

(** X7. The fonts of a render call.  A font path supplied by the caller
    is the one tried, and the font search is consulted only when none is
    supplied (an empty string counts as none).  Unicode output happens
    exactly when the resulting regular font registers and the bold font,
    if one is chosen and its file exists, registers as well; in every
    other case, including a bold font that fails after the regular one
    has registered, the core fonts are used. *)
Theorem unicode_font_choice (env : FontEnv) (font_regular font_bold : option pystr) :
  (forall r, if_given font_regular = Some r ->
             fst (resolve_fonts env font_regular font_bold) = Some r)
  /\ (if_given font_regular = None ->
      fst (resolve_fonts env font_regular font_bold)
      = fst (_find_unicode_font_paths env))
  /\ (forall b, if_given font_bold = Some b ->
                snd (resolve_fonts env font_regular font_bold) = Some b)
  /\ (if_given font_bold = None ->
      snd (resolve_fonts env font_regular font_bold)
      = snd (_find_unicode_font_paths env))
  /\ (using_core env font_regular font_bold = false <->
      exists r,
        fst (resolve_fonts env font_regular font_bold) = Some r
        /\ add_font_ok env r = true
        /\ (forall b, snd (resolve_fonts env font_regular font_bold) = Some b ->
                      path_exists env b = true -> add_font_ok env b = true)).
Proof.
  unfold using_core, resolve_fonts.
  destruct (_find_unicode_font_paths env) as [found auto_bold]. simpl.
  split; [now intros r ->|]. split; [now intros ->|].
  split; [now intros b ->|]. split; [now intros ->|].
  pose proof (register_fonts_unicode_iff env
    match if_given font_regular with Some r => Some r | None => found end
    match if_given font_bold with Some b => Some b | None => auto_bold end) as H.
  destruct (snd (register_fonts env _ _)).
  - split; [intros _ | intros _; reflexivity]. now apply (proj1 H).
  - split; [discriminate|]. intros Hex. now destruct (proj2 H Hex).
Qed.

End RenderingFacts.

(** ** [extract_transcript_from_response] *)

Lemma extract_at_alternative (r : response) (d : pyval) (alt : list (pystr * pyval)) :
  payload_of r = Some d -> first_alternative d = Ok (VDict alt) ->
  extract_transcript_from_response r
  = Ok match pick_transcript (VDict alt) with
       | Ok t => (t, d, confidence_of alt)
       | Raise _ => (VStr [], d, VNone)
       end.
Proof.
  intros Hp Ha. rewrite (extract_on_payload r d Hp).
  unfold read_alternative. rewrite Ha.
  destruct (pick_transcript (VDict alt)); reflexivity.
Qed.

(** X8. When the first alternative carries a paragraph-aggregated
    transcript that is not empty, that transcript is the one returned,
    whatever the flat transcript field holds; the payload is the
    converted response and the confidence is the alternative's. *)
Theorem paragraph_transcript_preferred (r : response) (d : pyval)
  (alt ps : list (pystr * pyval)) (p : pyval) :
  payload_of r = Some d ->
  first_alternative d = Ok (VDict alt) ->
  assoc (py "paragraphs") alt = Some (VDict ps) ->
  assoc (py "transcript") ps = Some p ->
  truthy p = true ->
  extract_transcript_from_response r = Ok (p, d, confidence_of alt).
Proof.
  intros Hp Ha Hps Ht Hp'. rewrite (extract_at_alternative r d alt Hp Ha).
  unfold pick_transcript, rbind, dict_get. now rewrite Hps, Ht, Hp'.
Qed.

(** X9. When the first alternative has no paragraphs field, or one
    whose transcript is missing or empty, the flat transcript field is
    returned, and the empty string when that is missing or empty too. *)
Theorem flat_transcript_fallback (r : response) (d : pyval)
  (alt : list (pystr * pyval)) :
  payload_of r = Some d ->
  first_alternative d = Ok (VDict alt) ->
  (assoc (py "paragraphs") alt = None
   \/ exists ps, assoc (py "paragraphs") alt = Some (VDict ps)
                 /\ forall p, assoc (py "transcript") ps = Some p -> truthy p = false) ->
  extract_transcript_from_response r
  = Ok (flat_transcript_of alt, d, confidence_of alt).
Proof.
  intros Hp Ha Hcase. rewrite (extract_at_alternative r d alt Hp Ha).
  assert (Hpick : pick_transcript (VDict alt) = Ok (flat_transcript_of alt)).
  { unfold pick_transcript, rbind, dict_get, flat_transcript_of.
    destruct Hcase as [-> | (ps & -> & Hf)]; simpl.
    - destruct (assoc (py "transcript") alt) as [t|]; [|reflexivity].
      now destruct (truthy t).
    - destruct (assoc (py "transcript") ps) as [p|] eqn:E.
      + rewrite (Hf p eq_refl).
        destruct (assoc (py "transcript") alt) as [t|]; [|reflexivity].
        now destruct (truthy t).
      + simpl. destruct (assoc (py "transcript") alt) as [t|]; [|reflexivity].
        now destruct (truthy t). }
  now rewrite Hpick.
Qed.

(** X10. A paragraphs field that is present but is not a mapping (a
    null, a list, a string) makes the extraction give up on the whole
    alternative: the transcript returned is empty and no confidence is
    reported, even when the alternative carries a flat transcript and a
    confidence. *)
Theorem non_mapping_paragraphs_empties (r : response) (d : pyval)
  (alt : list (pystr * pyval)) (v : pyval) :
  payload_of r = Some d ->
  first_alternative d = Ok (VDict alt) ->
  assoc (py "paragraphs") alt = Some v ->
  (forall ps, v <> VDict ps) ->
  extract_transcript_from_response r = Ok (VStr [], d, VNone).
Proof.
  intros Hp Ha Hv Hn. rewrite (extract_at_alternative r d alt Hp Ha).
  unfold pick_transcript, rbind, dict_get. rewrite Hv.
  destruct v; try reflexivity. now destruct (Hn kvs).
Qed.

(** A response with both transcripts. *)
Lemma paragraph_transcript_preferred_witness :
  extract_transcript_from_response (response_of_alternative both_alt)
  = Ok (VStr (py "by paragraph"), payload_of_alternative both_alt, VFloat 1 0).
Proof.
  exact (paragraph_transcript_preferred (response_of_alternative both_alt)
           (payload_of_alternative both_alt) both_alt
           [(py "transcript", VStr (py "by paragraph"))] (VStr (py "by paragraph"))
           eq_refl eq_refl eq_refl eq_refl eq_refl).
Defined.

(** A response whose paragraphs carry an empty transcript. *)
Lemma flat_transcript_fallback_witness :
  extract_transcript_from_response (response_of_alternative empty_paragraphs_alt)
  = Ok (VStr (py "flat"), payload_of_alternative empty_paragraphs_alt, VNone).
Proof.
  apply (flat_transcript_fallback (response_of_alternative empty_paragraphs_alt)
           (payload_of_alternative empty_paragraphs_alt) empty_paragraphs_alt
           eq_refl eq_refl).
  right. exists [(py "transcript", VStr [])]. split; [reflexivity|].
  now intros p [= <-].
Defined.

(** A response whose paragraphs field is null. *)
Lemma non_mapping_paragraphs_empties_witness :
  extract_transcript_from_response (response_of_alternative null_paragraphs_alt)
  = Ok (VStr [], payload_of_alternative null_paragraphs_alt, VNone).
Proof.
  apply (non_mapping_paragraphs_empties (response_of_alternative null_paragraphs_alt)
           (payload_of_alternative null_paragraphs_alt) null_paragraphs_alt VNone
           eq_refl eq_refl eq_refl).
  discriminate.
Defined.

(** ** [clean_filename] *)

Section CleaningFacts.
Context {T : PyChars}.

Lemma clean_filename_chars (name : pystr) : Forall safe_char (clean_filename name).
Proof.
  rewrite clean_filename_as_map. apply List.Forall_forall. intros c Hc.
  apply in_map_iff in Hc as (x & <- & Hx).
  apply strip_incl, filter_In in Hx as [_ Hk].
  unfold swap_char. destruct (N.eqb_spec x SPACE) as [_|Hne].
  - right; right; left; reflexivity.
  - destruct (keep_char_cases x Hk) as [->|Hs]; [congruence | exact Hs].
Qed.

Lemma clean_filename_spaceless (name : pystr) : ~ In SPACE (clean_filename name).
Proof.
  rewrite clean_filename_as_map. intros Hin.
  apply in_map_iff in Hin as (x & Hx & _).
  unfold swap_char in Hx. destruct (N.eqb_spec x SPACE); [discriminate | congruence].
Qed.

Lemma clean_filename_stripped (name : pystr) :
  strip (clean_filename name) = clean_filename name.
Proof.
  rewrite clean_filename_as_map. apply strip_fixed.
  - apply swap_head_ok, strip_head_ok.
  - rewrite <- map_rev. apply swap_head_ok, strip_last_ok.
Qed.

Lemma safe_char_kept (c : N) : safe_char c -> keep_char c = true.
Proof.
  unfold safe_char, keep_char. intros [-> | [-> | [-> | ->]]];
    rewrite ?orb_true_r; reflexivity.
Qed.

Lemma filter_all_kept (s : pystr) :
  Forall safe_char s -> List.filter keep_char s = s.
Proof.
  induction 1 as [|c s Hc _ IH]; simpl; [reflexivity|].
  now rewrite (safe_char_kept c Hc), IH.
Qed.

Lemma swap_absent (old new : N) (s : pystr) :
  ~ In old s -> List.map (swap_char old new) s = s.
Proof.
  induction s as [|c s IH]; simpl; intros H; [reflexivity|].
  unfold swap_char at 1. destruct (N.eqb_spec c old) as [->|_]; [tauto|].
  rewrite IH; tauto.
Qed.

Lemma lstrip_nil_iff (s : pystr) :
  lstrip s = [] <-> Forall (fun c => isspace c = true) s.
Proof.
  induction s as [|c s IH]; simpl.
  - split; [constructor | reflexivity].
  - destruct (isspace c) eqn:E.
    + rewrite IH. split; [now constructor | now inversion 1].
    + split; [discriminate|]. inversion 1. congruence.
Qed.

Lemma strip_nil_iff (s : pystr) :
  strip s = [] <-> Forall (fun c => isspace c = true) s.
Proof.
  split.
  - unfold strip, rstrip. intros H.
    apply (f_equal (@rev N)) in H. rewrite rev_involutive in H. simpl in H.
    apply lstrip_nil_iff in H. apply Forall_rev in H. rewrite rev_involutive in H.
    pose proof (lstrip_head_ok s) as Hh.
    destruct (lstrip s) as [|c r] eqn:E; [now apply lstrip_nil_iff|].
    inversion H; subst. simpl in Hh. congruence.
  - intros H. unfold strip. now rewrite (proj2 (lstrip_nil_iff s) H).
Qed.

(** X11. Cleaning is idempotent: a base name that came out of
    [clean_filename] is left as it is when cleaned again. *)
Theorem clean_filename_idempotent (name : pystr) :
  clean_filename (clean_filename name) = clean_filename name.
Proof.
  rewrite (clean_filename_as_map (clean_filename name)).
  rewrite (filter_all_kept _ (clean_filename_chars name)).
  rewrite clean_filename_stripped.
  apply swap_absent, clean_filename_spaceless.
Qed.

(** X12. The base name is empty exactly when the name holds no allowed
    character other than blanks, for instance when it is made of
    punctuation only; a name with at least one letter, digit, hyphen,
    underscore or dot that is not blank never cleans to the empty
    name. *)
Theorem clean_filename_empty_iff (name : pystr) :
  clean_filename name = [] <->
  forall c, In c name -> keep_char c = true -> isspace c = true.
Proof.
  rewrite clean_filename_as_map. split.
  - intros H. apply map_eq_nil in H. apply strip_nil_iff in H.
    intros c Hc Hk. apply (proj1 (List.Forall_forall _ _) H).
    now apply filter_In.
  - intros H.
    assert (Hs : strip (List.filter keep_char name) = []).
    { apply strip_nil_iff, List.Forall_forall. intros c Hc.
      apply filter_In in Hc as [Hc Hk]. now apply H. }
    now rewrite Hs.
Qed.

End CleaningFacts.

(** ** The footprint of [process_videos] *)

Lemma openings_app (a b : list log_msg) : openings (a ++ b) = openings a ++ openings b.
Proof. apply flat_map_app. Qed.

Lemma headers_nil_quiet (l : list log_msg) :
  headers l = [] -> openings l = [] /\ Forall (fun m => is_skip m = false) l.
Proof.
  induction l as [|m l IH]; [now split|].
  destruct m; simpl; try discriminate; intros H; destruct (IH H) as [Ho Hs];
    (split; [exact Ho | now constructor]).
Qed.

Section RunFacts.
Context {T : PyChars}.
Variable w : World.
Variable cfg : Config.

Lemma footprint_refl (names : list pystr) (s : State) : footprint w cfg names 0 [] s s.
Proof.
  split; [reflexivity|]. split.
  - exists []. rewrite app_nil_r. repeat split; auto.
  - exists []. rewrite app_nil_r. repeat split; auto.
Qed.

Lemma footprint_trans (names : list pystr) (k1 k2 : nat)
  (o1 o2 : list (nat * nat * pystr)) (s1 s2 s3 : State) :
  footprint w cfg names k1 o1 s1 s2 -> footprint w cfg names k2 o2 s2 s3 ->
  footprint w cfg names (k1 + k2) (o1 ++ o2) s1 s3.
Proof.
  intros (F1 & (a1 & S1 & K1 & A1) & (l1 & L1 & O1 & N1))
         (F2 & (a2 & S2 & K2 & A2) & (l2 & L2 & O2 & N2)).
  split; [|split].
  - intros p Hp. now rewrite F2, F1.
  - exists (a1 ++ a2). rewrite S2, S1, <- app_assoc, length_app.
    repeat split; [lia | now apply Forall_app].
  - exists (l1 ++ l2). rewrite L2, L1, <- app_assoc, openings_app, O1, O2.
    repeat split. intros Ho. apply Forall_app. auto.
Qed.

(** A step that only writes log lines without an opening message. *)
Lemma footprint_quiet (names : list pystr) (s s' : State) (l : list log_msg) :
  files s' = files s -> submitted s' = submitted s ->
  log s' = log s ++ l -> headers l = [] ->
  footprint w cfg names 0 [] s s'.
Proof.
  intros F S L H. destruct (headers_nil_quiet l H) as [Ho Hs].
  split; [intros p _; now rewrite F|]. split.
  - exists []. rewrite app_nil_r. repeat split; auto.
  - exists l. repeat split; auto.
Qed.

Lemma finish_file_untouched (name : pystr) (resp : response) (s : State) (p : pystr) :
  p <> txt_path cfg name -> p <> json_path cfg name -> p <> pdf_path cfg name ->
  files (snd (finish_file w cfg name resp s)) !! p = files s !! p.
Proof.
  intros Ht Hj Hp.
  destruct (extract_total resp) as (v & d & c & E).
  assert (Hcase : (exists t, v = VStr t) \/ (forall t, v <> VStr t)).
  { destruct v; eauto; right; discriminate. }
  destruct Hcase as [[t ->] | Hv].
  2:{ now rewrite (finish_file_not_text w cfg _ _ _ _ _ _ E Hv). }
  destruct (can_write w (json_path cfg name)) eqn:Ej.
  2:{ now rewrite (finish_file_json_locked w cfg _ _ _ _ _ _ E Ej). }
  destruct (can_write w (txt_path cfg name)) eqn:Et.
  2:{ destruct (finish_file_txt_locked w cfg _ _ _ _ _ s E Ej Et) as (s' & -> & F & _).
      simpl. rewrite F. now rewrite lookup_insert_ne. }
  destruct (utf8_encodable (text_or_placeholder t)) eqn:Eu.
  2:{ destruct (finish_file_txt_unencodable w cfg _ _ _ _ _ s E Ej Et Eu)
        as (s' & -> & F & _).
      simpl. rewrite F. repeat (rewrite lookup_insert_ne by congruence). reflexivity. }
  destruct (finish_file_run w cfg _ _ _ _ _ s E Ej Et Eu) as (s' & -> & F & _).
  simpl. rewrite F. destruct (can_write w (pdf_path cfg name));
    repeat (rewrite lookup_insert_ne by congruence); reflexivity.
Qed.

Lemma transcribe_and_finish_footprint (names : list pystr) (use_path name : pystr)
  (s : State) :
  In name names -> source_or_wav w cfg names use_path ->
  footprint w cfg names 1 [] s (snd (transcribe_and_finish w cfg use_path name s)).
Proof.
  intros Hn Hu. split; [|split].
  - intros p Hp.
    assert (Hd : p <> txt_path cfg name /\ p <> json_path cfg name
                 /\ p <> pdf_path cfg name).
    { repeat split; intros ->; apply Hp; exists name; auto. }
    destruct Hd as (H1 & H2 & H3).
    destruct (service w use_path) as [resp|e] eqn:E.
    + destruct (transcribe_and_finish_ok w cfg use_path name resp s E)
        as (s1 & -> & F & _).
      now rewrite finish_file_untouched, F.
    + destruct (transcribe_and_finish_failed w cfg use_path name e s E)
        as (s' & -> & F & _). simpl. now rewrite F.
  - exists [use_path]. rewrite transcribe_and_finish_submitted.
    repeat split; auto.
  - destruct (transcribe_and_finish_frame w cfg use_path name s) as [_ (l & L & H)].
    destruct (headers_nil_quiet l H) as [Ho Hs]. exists l. auto.
Qed.

Lemma prepare_audio_footprint (names : list pystr) (ok : bool) (idx : nat)
  (name : pystr) (s : State) :
  In name names ->
  footprint w cfg names 0 [] s (snd (prepare_audio w cfg ok idx name s))
  /\ forall p, fst (prepare_audio w cfg ok idx name s) = Ok p ->
               source_or_wav w cfg names p.
Proof.
  intros Hn.
  assert (Hsrc : source_or_wav w cfg names (src_path cfg name)).
  { exists name. auto. }
  assert (Hwav : source_or_wav w cfg names (wav_of w idx name)).
  { exists name. split; [exact Hn|]. right. now exists idx. }
  unfold prepare_audio.
  destruct (is_video name && ok).
  2:{ split; [apply footprint_refl | now intros p [= <-]]. }
  unfold try_except, bind, extract_audio_with_ffmpeg, lift.
  fold (wav_of w idx name).
  destruct (ffmpeg_run w (src_path cfg name) (wav_of w idx name)) as [[]|e]; simpl.
  - split; [|now intros p [= <-]].
    now apply (footprint_quiet names _ _ [MsgAudioExtracted (stem name ++ py ".wav")]).
  - destruct e; simpl; try (split; [apply footprint_refl | discriminate]).
    split; [|now intros p [= <-]].
    now apply (footprint_quiet names _ _ [MsgExtractFailed name]).
Qed.

Lemma process_file_footprint (names : list pystr) (ok : bool) (total idx : nat)
  (name : pystr) (s : State) :
  In name names ->
  footprint w cfg names 1 [(idx, total, name)] s
    (snd (process_file w cfg ok total idx name s)).
Proof.
  intros Hn.
  assert (Hcase : (overwrite cfg = false /\ complete cfg s name = true)
                  \/ (overwrite cfg = true \/ complete cfg s name = false)).
  { destruct (overwrite cfg), (complete cfg s name); auto. }
  destruct Hcase as [[Ho Hc] | Hgo].
  - rewrite process_file_skip by assumption. simpl.
    split; [reflexivity|]. split.
    + exists []. rewrite app_nil_r. repeat split; auto.
    + exists [MsgSkip idx total name]. repeat split. congruence.
  - destruct (process_file_started w cfg ok total idx name s Hgo)
      as (s0 & -> & F0 & L0 & S0 & _).
    assert (G0 : footprint w cfg names 0 [(idx, total, name)] s s0).
    { split; [intros p _; now rewrite F0|]. split.
      - exists []. rewrite app_nil_r. repeat split; auto.
      - exists [MsgProcessing idx total name]. repeat split; auto. }
    destruct (prepare_audio_footprint names ok idx name s0 Hn) as [G1 Hu].
    unfold bind.
    destruct (prepare_audio w cfg ok idx name s0) as [[use_path|e] s1]; simpl in G1, Hu.
    + pose proof (transcribe_and_finish_footprint names use_path name s1 Hn
                    (Hu use_path eq_refl)) as G2.
      apply (footprint_trans names 0 1 [(idx, total, name)] [] s s1 _);
        [|exact G2].
      exact (footprint_trans names 0 0 [(idx, total, name)] [] s s0 s1 G0 G1).
    + simpl.
      pose proof (footprint_trans names 0 0 [(idx, total, name)] [] s s0 s1 G0 G1)
        as (F & (a & S & K & A) & L).
      split; [exact F|]. split; [|exact L].
      exists a. simpl in K. repeat split; [exact S | lia | exact A].
Qed.

End RunFacts.

Section BatchFacts.
Context {T : PyChars}.
Variable w : World.
Variable cfg : Config.

Lemma footprint_then_quiet (names : list pystr) (k : nat)
  (o : list (nat * nat * pystr)) (s s1 s2 : State) (l : list log_msg) :
  footprint w cfg names k o s s1 ->
  files s2 = files s1 -> submitted s2 = submitted s1 ->
  log s2 = log s1 ++ l -> headers l = [] ->
  footprint w cfg names k o s s2.
Proof.
  intros G F S L H.
  pose proof (footprint_trans w cfg names k 0 o [] s s1 s2 G
                (footprint_quiet w cfg names s1 s2 l F S L H)) as G'.
  now rewrite Nat.add_0_r, app_nil_r in G'.
Qed.

Lemma for_each_footprint (names : list pystr) (ok : bool) (total : nat)
  (part : list pystr) (idx : nat) (s : State) :
  (forall n, In n part -> In n names) ->
  exists done rest,
    part = done ++ rest
    /\ footprint w cfg names (length done) (numbered total idx done) s
         (snd (for_each idx part (process_file w cfg ok total) s))
    /\ (fst (for_each idx part (process_file w cfg ok total) s) = Ok tt -> rest = []).
Proof.
  revert idx s. induction part as [|name part IH]; intros idx s Hin.
  - exists [], []. split; [reflexivity|]. split; [apply footprint_refl | auto].
  - pose proof (process_file_footprint w cfg names ok total idx name s
                  (Hin name (or_introl eq_refl))) as G1.
    simpl. unfold bind.
    destruct (process_file w cfg ok total idx name s) as [[[]|e] s1]; simpl in G1.
    + destruct (IH (S idx) s1) as (done & rest & -> & G2 & Hr).
      { intros n Hn. apply Hin. now right. }
      exists (name :: done), rest. split; [reflexivity|]. split; [|exact Hr].
      exact (footprint_trans w cfg names 1 (length done) [(idx, total, name)]
               (numbered total (S idx) done) s s1 _ G1 G2).
    + exists [name], part. split; [reflexivity|]. split; [exact G1 | discriminate].
Qed.

Lemma transcribe_all_footprint (names : list pystr) (s : State) :
  exists done rest,
    names = done ++ rest
    /\ footprint w cfg names (length done) (numbered (length names) 1 done) s
         (snd (transcribe_all w cfg (ffmpeg_present w) names s))
    /\ (fst (transcribe_all w cfg (ffmpeg_present w) names s) = Ok tt -> rest = []).
Proof.
  destruct (transcribe_all w cfg (ffmpeg_present w) names s) as [r s'] eqn:H.
  simpl. unfold transcribe_all in H. destruct names as [|n0 names0].
  - injection H as <- <-. exists [], []. split; [reflexivity|]. split; [|auto].
    now apply (footprint_quiet w cfg [] _ _ [MsgNoFiles]).
  - remember (n0 :: names0) as names eqn:En. clear En.
    unfold bind, log_callback in H.
    match type of H with context [for_each 1 names ?body ?s0] =>
      destruct (for_each_footprint names (ffmpeg_present w) (length names) names 1 s0)
        as (done & rest & E & G & Hr); [auto|];
      assert (G0 : footprint w cfg names 0 [] s s0) by
        (now apply (footprint_quiet w cfg names _ _ [MsgFound (length names)]))
    end.
    destruct (for_each 1 names _ _) as [[[]|e] s1]; simpl in G, Hr;
      exists done, rest; (split; [exact E|]); injection H as <- <-.
    + split; [|intros _; now apply Hr].
      apply (footprint_then_quiet names _ _ s s1 _ [MsgDone]); try reflexivity.
      exact (footprint_trans w cfg names 0 _ [] _ s _ s1 G0 G).
    + split; [|discriminate].
      exact (footprint_trans w cfg names 0 _ [] _ s _ s1 G0 G).
Qed.

Lemma process_videos_footprint (s : State) :
  exists done rest,
    discover (iterdir w (input_dir cfg)) = done ++ rest
    /\ footprint w cfg (discover (iterdir w (input_dir cfg))) (length done)
         (numbered (length (discover (iterdir w (input_dir cfg)))) 1 done) s
         (snd (process_videos w cfg s))
    /\ (fst (process_videos w cfg s) = Ok tt -> rest = []).
Proof.
  destruct (starts w cfg) eqn:Hs.
  - destruct (process_videos_started w cfg s Hs) as (s0 & -> & F & S & _ & L).
    destruct (transcribe_all_footprint (discover (iterdir w (input_dir cfg))) s0)
      as (done & rest & E & G & Hr).
    exists done, rest. split; [exact E|]. split; [|exact Hr].
    refine (footprint_trans w cfg _ 0 _ [] _ s s0 _ _ G).
    eapply footprint_quiet; [exact F | exact S | exact L |].
    now destruct (ffmpeg_present w).
  - destruct (process_videos_not_started w cfg s Hs) as (e & ->).
    exists [], (discover (iterdir w (input_dir cfg))).
    split; [reflexivity|]. split; [apply footprint_refl | discriminate].
Qed.

(** X13. When the output directories can be created but the source path
    is not an existing directory, the call raises [FileNotFoundError]
    before anything else happens: nothing is sent to the sink, no file is
    listed, submitted or written. *)
Theorem invalid_source_raises (s : State) :
  mkdir_ok w (output_dir cfg) = true -> mkdir_ok w (txt_dir cfg) = true ->
  mkdir_ok w (json_dir cfg) = true -> mkdir_ok w (pdf_dir cfg) = true ->
  is_dir w (input_dir cfg) = false ->
  process_videos w cfg s = (Raise FileNotFoundError, s).
Proof.
  intros H1 H2 H3 H4 Hd. unfold process_videos, mkdir, bind, ret, raise.
  now rewrite H1, H2, H3, H4, Hd.
Qed.


(** X15. A run writes nowhere but at the destination paths of the
    discovered files: any other path, a source file for one, holds after
    the call exactly what it held before, whether the call returns or
    raises. *)
Theorem run_writes_only_destinations (s : State) (p : pystr) :
  (forall n, In n (discover (iterdir w (input_dir cfg))) ->
             p <> txt_path cfg n /\ p <> json_path cfg n /\ p <> pdf_path cfg n) ->
  files (snd (process_videos w cfg s)) !! p = files s !! p.
Proof.
  intros Hp.
  destruct (process_videos_footprint s) as (done & rest & _ & (F & _) & _).
  apply F. intros (n & Hn & Hcase). destruct (Hp n Hn) as (H1 & H2 & H3).
  destruct Hcase as [-> | [-> | ->]]; congruence.
Qed.

(** X16. With overwrite enabled no file is ever skipped: none of the
    messages a run adds to the log is a skip message, whatever the disk
    already holds. *)
Theorem overwrite_never_skips (s : State) :
  overwrite cfg = true ->
  exists l,
    log (snd (process_videos w cfg s)) = log s ++ l
    /\ Forall (fun m => is_skip m = false) l.
Proof.
  intros Ho.
  destruct (process_videos_footprint s) as (done & rest & _ & (_ & _ & l & L & _ & Hs) & _).
  exists l. split; [exact L | now apply Hs].
Qed.

(** X17. There is no retry and no stray request: a run submits at most
    one transcription request per discovered file, and every path it
    submits is a discovered file in the source directory or the audio
    extracted from one. *)
Theorem one_request_per_file (s : State) :
  exists l,
    submitted (snd (process_videos w cfg s)) = submitted s ++ l
    /\ (length l <= length (discover (iterdir w (input_dir cfg))))%nat
    /\ Forall (fun p => exists n,
                  In n (discover (iterdir w (input_dir cfg)))
                  /\ (p = src_path cfg n \/ exists idx, p = wav_of w idx n)) l.
Proof.
  destruct (process_videos_footprint s)
    as (done & rest & E & (_ & (l & S & K & A) & _) & _).
  exists l. split; [exact S|]. split; [|exact A].
  rewrite E, length_app. lia.
Qed.

(** X18. The per-file opening messages are numbered like
    [enumerate(files, start=1)]: the i-th discovered file is announced
    (as skipped or as being processed) with index i and with the number
    of discovered files as total, in discovery order; when the call
    returns every discovered file has been announced. *)
Theorem announcements_are_numbered (s : State) :
  exists done rest,
    discover (iterdir w (input_dir cfg)) = done ++ rest
    /\ openings (log (snd (process_videos w cfg s)))
       = openings (log s)
         ++ numbered (length (discover (iterdir w (input_dir cfg)))) 1 done
    /\ (fst (process_videos w cfg s) = Ok tt -> rest = []).
Proof.
  destruct (process_videos_footprint s)
    as (done & rest & E & (_ & _ & l & L & O & _) & Hr).
  exists done, rest. split; [exact E|]. split; [|exact Hr].
  now rewrite L, openings_app, O.
Qed.

End BatchFacts.

(** ** One file, from the audio to the artifacts *)

Section StepFacts.
Context {T : PyChars}.
Variable w : World.
Variable cfg : Config.

Lemma prepare_audio_extracted (idx : nat) (name : pystr) (s : State) :
  is_video name = true ->
  ffmpeg_run w (src_path cfg name) (wav_of w idx name) = Ok tt ->
  exists s',
    prepare_audio w cfg true idx name s = (Ok (wav_of w idx name), s')
    /\ files s' = files s /\ submitted s' = submitted s /\ rendered s' = rendered s
    /\ log s' = log s ++ [MsgAudioExtracted (stem name ++ py ".wav")].
Proof.
  intros Hv Hr. unfold prepare_audio. rewrite Hv. cbn [andb].
  unfold try_except, bind, extract_audio_with_ffmpeg, lift. fold (wav_of w idx name).
  rewrite Hr. eexists. split; [reflexivity|]. now simpl.
Qed.

Lemma prepare_audio_crash (idx : nat) (name : pystr) (e : exn) (s : State) :
  is_video name = true ->
  ffmpeg_run w (src_path cfg name) (wav_of w idx name) = Raise e ->
  e <> CalledProcessError ->
  prepare_audio w cfg true idx name s = (Raise e, s).
Proof.
  intros Hv Hr He. unfold prepare_audio. rewrite Hv. cbn [andb].
  unfold try_except, bind, extract_audio_with_ffmpeg, lift. fold (wav_of w idx name).
  rewrite Hr. destruct e; try reflexivity. now destruct He.
Qed.

Lemma prepare_audio_plain (ok : bool) (idx : nat) (name : pystr) (s : State) :
  is_video name = false ->
  prepare_audio w cfg ok idx name s = (Ok (src_path cfg name), s).
Proof. intros Hv. unfold prepare_audio. now rewrite Hv. Qed.

Lemma text_kept (t : pystr) : strip t <> [] -> text_or_placeholder t = t.
Proof. unfold text_or_placeholder. destruct (strip t); congruence. Qed.

Lemma marker_kept : text_or_placeholder ERROR_MARKER = ERROR_MARKER.
Proof.
  apply text_kept. rewrite strip_fixed; [discriminate | |];
    cbv -[isspace]; now rewrite isspace_ascii by lia.
Qed.

Lemma has_file_insert (p : pystr) (c : file_content) (s : State)
  (m : gmap pystr file_content) :
  files s = <[p := c]> m -> has_file s p = true.
Proof.
  intros F. unfold has_file. apply bool_decide_eq_true.
  rewrite F, lookup_insert_eq. eauto.
Qed.

(** X19. A video whose audio extraction succeeds is transcribed from the
    extracted audio: the path submitted is the WAV file named after the
    video's stem in the temporary directory of that iteration, the sink
    is told so, and the artifacts are still those of the video's own
    name. *)
Theorem extracted_audio_is_submitted (total idx : nat) (name : pystr) (s : State) :
  is_video name = true ->
  ffmpeg_present w = true ->
  ffmpeg_run w (src_path cfg name) (wav_of w idx name) = Ok tt ->
  overwrite cfg = true \/ complete cfg s name = false ->
  let out := process_file w cfg (ffmpeg_present w) total idx name s in
  submitted (snd out) = submitted s ++ [joinpath (mkdtemp w idx) (stem name ++ py ".wav")]
  /\ exists s1,
       out = transcribe_and_finish w cfg (wav_of w idx name) name s1
       /\ files s1 = files s /\ submitted s1 = submitted s /\ rendered s1 = rendered s
       /\ log s1 = log s ++ [MsgProcessing idx total name;
                             MsgAudioExtracted (stem name ++ py ".wav")].
Proof.
  intros Hv Hp Hr Hgo out. subst out. rewrite Hp.
  destruct (process_file_started w cfg true total idx name s Hgo)
    as (s0 & -> & F0 & L0 & S0 & R0).
  destruct (prepare_audio_extracted idx name s0 Hv Hr) as (s1 & E & F & S & R & L).
  unfold bind. rewrite E. split.
  - rewrite transcribe_and_finish_submitted. now rewrite S, S0.
  - exists s1. split; [reflexivity|]. rewrite F, S, R, L, F0, L0, S0, R0.
    rewrite <- app_assoc. now repeat split.
Qed.

(** X20. A file that is not a video is never handed to [ffmpeg]: whether
    or not [ffmpeg] is available, and whatever its run would do, the path
    submitted is the source file and the sink receives no extraction
    message. *)
Theorem audio_file_bypasses_ffmpeg (ok : bool) (total idx : nat) (name : pystr)
  (s : State) :
  is_video name = false ->
  overwrite cfg = true \/ complete cfg s name = false ->
  let out := process_file w cfg ok total idx name s in
  submitted (snd out) = submitted s ++ [src_path cfg name]
  /\ exists s1,
       out = transcribe_and_finish w cfg (src_path cfg name) name s1
       /\ files s1 = files s /\ submitted s1 = submitted s /\ rendered s1 = rendered s
       /\ log s1 = log s ++ [MsgProcessing idx total name].
Proof.
  intros Hv Hgo out. subst out.
  destruct (process_file_started w cfg ok total idx name s Hgo)
    as (s0 & -> & F0 & L0 & S0 & R0).
  unfold bind. rewrite (prepare_audio_plain ok idx name s0 Hv). split.
  - rewrite transcribe_and_finish_submitted. now rewrite S0.
  - exists s0. now repeat split.
Qed.

(** X21. Only a non-zero exit of [ffmpeg] is tolerated.  When the
    extraction run of a video ends with any other exception, that
    exception leaves the iteration: after the opening message nothing is
    sent to the sink, nothing is submitted and nothing is written. *)
Theorem extraction_crash_aborts (total idx : nat) (name : pystr) (e : exn) (s : State) :
  is_video name = true ->
  ffmpeg_present w = true ->
  ffmpeg_run w (src_path cfg name) (wav_of w idx name) = Raise e ->
  e <> CalledProcessError ->
  overwrite cfg = true \/ complete cfg s name = false ->
  exists s',
    process_file w cfg (ffmpeg_present w) total idx name s = (Raise e, s')
    /\ files s' = files s /\ submitted s' = submitted s /\ rendered s' = rendered s
    /\ log s' = log s ++ [MsgProcessing idx total name].
Proof.
  intros Hv Hp Hr He Hgo. rewrite Hp.
  destruct (process_file_started w cfg true total idx name s Hgo)
    as (s0 & -> & F0 & L0 & S0 & R0).
  unfold bind. rewrite (prepare_audio_crash idx name e s0 Hv Hr He).
  exists s0. now repeat split.
Qed.

(** X22. A transcript that is not blank is stored as it was returned:
    the text artifact holds it character for character (leading and
    trailing blanks included), the same text is handed to the renderer,
    and the document is the one rendered from it.  This needs a
    transcript that UTF-8 can encode, that is, one without a lone
    surrogate. *)
Theorem transcript_written_verbatim (use_path name : pystr) (resp : response)
  (t : pystr) (d c : pyval) (s : State) :
  service w use_path = Ok resp ->
  extract_transcript_from_response resp = Ok (VStr t, d, c) ->
  strip t <> [] ->
  utf8_encodable t = true ->
  can_write w (json_path cfg name) = true ->
  can_write w (txt_path cfg name) = true ->
  let s' := snd (transcribe_and_finish w cfg use_path name s) in
  files s' !! txt_path cfg name = Some (TextFile t)
  /\ rendered s' = rendered s ++ [t]
  /\ (can_write w (pdf_path cfg name) = true ->
      files s' !! pdf_path cfg name
      = Some (PdfFile (to_pdf_document (font_env w) (now w) t
                         (pdf_path cfg name) (TITLE_PREFIX ++ stem name)
                         (meta_of w cfg c) (font_regular cfg) (font_bold cfg)
                         (pdf_minimal cfg)))).
Proof.
  intros Hs He Hb Hu Hj Ht.
  destruct (transcribe_and_finish_ok w cfg use_path name resp s Hs)
    as (s1 & -> & _ & _ & _ & R1).
  destruct (finish_file_run w cfg _ _ _ _ _ s1 He Hj Ht
              (text_or_placeholder_encodable t Hu)) as (s' & -> & F & _ & _ & R).
  rewrite (text_kept t Hb) in F, R.
  simpl. rewrite F, R, R1. split; [|split; [reflexivity|]].
  - destruct (can_write w (pdf_path cfg name)).
    + rewrite lookup_insert_ne by (apply not_eq_sym, txt_pdf_distinct).
      apply lookup_insert_eq.
    + apply lookup_insert_eq.
  - intros ->. apply lookup_insert_eq.
Qed.

(** X23. A response that can neither be converted nor read as a mapping
    is not treated as a failure.  The fixed error marker is stored as if
    it were the transcript, next to an empty payload; nothing about it
    reaches the sink beyond the usual saved message; and once the
    document is written the file counts as processed, so that a later
    run without overwrite skips it. *)
Theorem unprocessable_response_saved (use_path name : pystr) (resp : response)
  (s : State) :
  service w use_path = Ok resp ->
  payload_of resp = None ->
  can_write w (json_path cfg name) = true ->
  can_write w (txt_path cfg name) = true ->
  exists s',
    transcribe_and_finish w cfg use_path name s = (Ok tt, s')
    /\ files s' !! txt_path cfg name = Some (TextFile ERROR_MARKER)
    /\ files s' !! json_path cfg name = Some (json_artifact w (VDict []) resp)
    /\ rendered s' = rendered s ++ [ERROR_MARKER]
    /\ log s' = log s
                ++ (if can_write w (pdf_path cfg name) then [] else [MsgPdfError OSError])
                ++ [MsgSaved (base_name name ++ py ".txt")
                             (base_name name ++ py ".deepgram.json")
                             (base_name name ++ py ".pdf")]
    /\ (can_write w (pdf_path cfg name) = true -> complete cfg s' name = true).
Proof.
  intros Hs Hn Hj Ht.
  destruct (transcribe_and_finish_ok w cfg use_path name resp s Hs)
    as (s1 & -> & F1 & L1 & _ & R1).
  assert (Hu : utf8_encodable (text_or_placeholder ERROR_MARKER) = true).
  { rewrite marker_kept. reflexivity. }
  destruct (finish_file_run w cfg name resp ERROR_MARKER (VDict []) VNone s1
              (extract_without_payload resp Hn) Hj Ht Hu) as (s' & -> & F & L & _ & R).
  rewrite marker_kept in F, R. rewrite F1 in F. rewrite L1 in L. rewrite R1 in R.
  exists s'. split; [reflexivity|].
  assert (Htxt : files s' !! txt_path cfg name = Some (TextFile ERROR_MARKER)).
  { rewrite F. destruct (can_write w (pdf_path cfg name)).
    - rewrite lookup_insert_ne by (apply not_eq_sym, txt_pdf_distinct).
      apply lookup_insert_eq.
    - apply lookup_insert_eq. }
  assert (Hjson : files s' !! json_path cfg name
                  = Some (json_artifact w (VDict []) resp)).
  { rewrite F. destruct (can_write w (pdf_path cfg name)).
    - rewrite lookup_insert_ne by (apply not_eq_sym, json_pdf_distinct).
      rewrite lookup_insert_ne by apply txt_json_distinct.
      apply lookup_insert_eq.
    - rewrite lookup_insert_ne by apply txt_json_distinct.
      apply lookup_insert_eq. }
  split; [exact Htxt|]. split; [exact Hjson|]. split; [exact R|]. split; [exact L|].
  intros Hp. rewrite Hp in F. unfold complete.
  rewrite (has_file_insert _ _ s' _ F). unfold has_file.
  rewrite Htxt, Hjson. rewrite !bool_decide_eq_true_2 by eauto. reflexivity.
Qed.

(** X24. The write of the text artifact is not guarded.  When the
    payload has been written and the text path cannot be opened, the
    error leaves the iteration: the payload stays on disk, the text path
    keeps what it held, nothing is rendered, and the sink is told
    nothing. *)
Theorem text_write_failure_escapes (use_path name : pystr) (resp : response)
  (t : pystr) (d c : pyval) (s : State) :
  service w use_path = Ok resp ->
  extract_transcript_from_response resp = Ok (VStr t, d, c) ->
  can_write w (json_path cfg name) = true ->
  can_write w (txt_path cfg name) = false ->
  exists s',
    transcribe_and_finish w cfg use_path name s = (Raise OSError, s')
    /\ files s' = <[json_path cfg name := json_artifact w d resp]> (files s)
    /\ files s' !! txt_path cfg name = files s !! txt_path cfg name
    /\ log s' = log s
    /\ submitted s' = submitted s ++ [use_path]
    /\ rendered s' = rendered s.
Proof.
  intros Hs He Hj Ht.
  destruct (transcribe_and_finish_ok w cfg use_path name resp s Hs)
    as (s1 & -> & F1 & L1 & S1 & R1).
  destruct (finish_file_txt_locked w cfg _ _ _ _ _ s1 He Hj Ht)
    as (s' & -> & F & L & S & R).
  exists s'. split; [reflexivity|].
  rewrite F, L, S, R, F1, L1, S1, R1. repeat split.
  now rewrite lookup_insert_ne by (apply not_eq_sym, txt_json_distinct).
Qed.

(** X25. A transcript field that holds something other than a string (a
    number, a list, a mapping) is returned by the extractor as it is and
    breaks the blank test that follows, which is not guarded: the error
    leaves the iteration before any artifact is written and without a
    word to the sink. *)
Theorem non_string_transcript_aborts (use_path name : pystr) (resp : response)
  (v d c : pyval) (s : State) :
  service w use_path = Ok resp ->
  extract_transcript_from_response resp = Ok (v, d, c) ->
  (forall t, v <> VStr t) ->
  exists s',
    transcribe_and_finish w cfg use_path name s = (Raise AttributeError, s')
    /\ files s' = files s /\ log s' = log s /\ rendered s' = rendered s
    /\ submitted s' = submitted s ++ [use_path].
Proof.
  intros Hs He Hv.
  destruct (transcribe_and_finish_ok w cfg use_path name resp s Hs)
    as (s1 & -> & F1 & L1 & S1 & R1).
  rewrite (finish_file_not_text w cfg name resp v d c s1 He Hv).
  exists s1. now repeat split.
Qed.

(** X30. A transcript that UTF-8 cannot encode (one holding a lone
    surrogate) is lost with the run.  The text path is opened, which
    empties it, the write raises, and nothing guards it: the error
    leaves the iteration with the payload written, the text artifact
    empty, nothing rendered and nothing sent to the sink. *)
Theorem unencodable_transcript_escapes (use_path name : pystr) (resp : response)
  (t : pystr) (d c : pyval) (s : State) :
  service w use_path = Ok resp ->
  extract_transcript_from_response resp = Ok (VStr t, d, c) ->
  strip t <> [] ->
  utf8_encodable t = false ->
  can_write w (json_path cfg name) = true ->
  can_write w (txt_path cfg name) = true ->
  exists s',
    transcribe_and_finish w cfg use_path name s = (Raise UnicodeEncodeError, s')
    /\ files s' !! txt_path cfg name = Some (TextFile [])
    /\ files s' !! json_path cfg name = Some (json_artifact w d resp)
    /\ files s' !! pdf_path cfg name = files s !! pdf_path cfg name
    /\ log s' = log s
    /\ submitted s' = submitted s ++ [use_path]
    /\ rendered s' = rendered s.
Proof.
  intros Hs He Hb Hu Hj Ht.
  destruct (transcribe_and_finish_ok w cfg use_path name resp s Hs)
    as (s1 & -> & F1 & L1 & S1 & R1).
  rewrite <- (text_kept t Hb) in Hu.
  destruct (finish_file_txt_unencodable w cfg _ _ _ _ _ s1 He Hj Ht Hu)
    as (s' & -> & F & L & S & R).
  exists s'. split; [reflexivity|].
  rewrite F, L, S, R, F1, L1, S1, R1. repeat split.
  - apply lookup_insert_eq.
  - rewrite lookup_insert_ne by apply txt_json_distinct. apply lookup_insert_eq.
  - rewrite lookup_insert_ne by apply txt_pdf_distinct.
    now rewrite lookup_insert_ne by apply json_pdf_distinct.
Qed.

End StepFacts.

(** ** The entry points *)

Section EntryFacts.
Context {T : PyChars}.
Variable w : World.

(** X26. The exit status of the command line.  It is 0 exactly when a
    non-empty key is set and [process_videos] returns, and 1 otherwise;
    the error stream stays empty exactly when the status is 0; and
    without a key nothing is done at all: no directory is created, no
    file is listed, nothing is sent to the sink. *)
Theorem main_exit_status (api_key : option pystr) (cfg : Config) (s : State) :
  let out := main w api_key cfg s in
  let code := fst (fst out) in
  (code = 0 <-> if_given api_key <> None /\ fst (process_videos w cfg s) = Ok tt)
  /\ (code = 0 \/ code = 1)
  /\ (code = 0 <-> snd (fst out) = [])
  /\ (if_given api_key = None -> out = (1, [ErrMissingKey], s))
  /\ (if_given api_key <> None -> snd out = snd (process_videos w cfg s)).
Proof.
  unfold main. destruct (if_given api_key) as [k|]; simpl.
  - destruct (process_videos w cfg s) as [[[]|e] s']; simpl;
      intuition (try discriminate; try congruence).
  - intuition (try discriminate; try congruence).
Qed.


(** X28. The form is validated before anything is started.  A thread is
    started exactly when the key and both directory fields are filled
    in, the source directory exists, and the output directory exists or
    can be created; the button is then disabled and the text box
    cleared.  In every other case nothing but one error dialog happens.
    The run is given the form's directories, a model that is never empty
    ([nova-3] when the field is empty), no language when that field is
    empty, and the default artifact directories under the output
    directory. *)
Theorem form_validation (f : Form) (g : Gui) :
  let out := start_transcription_thread w f g in
  let valid := api_key_entry f <> [] /\ input_dir_entry f <> []
               /\ output_dir_entry f <> []
               /\ is_dir w (input_dir_entry f) = true
               /\ (is_dir w (output_dir_entry f) = true
                   \/ mkdir_ok w (output_dir_entry f) = true) in
  (valid ->
   out = ({| textbox := []; dialogs := dialogs g; start_enabled := false |},
          Some (gui_config f)))
  /\ (~ valid ->
      snd out = None /\ textbox (fst out) = textbox g
      /\ start_enabled (fst out) = start_enabled g
      /\ exists d, dialogs (fst out) = dialogs g ++ [d])
  /\ model (gui_config f) <> []
  /\ language (gui_config f) = if_given (Some (language_entry f))
  /\ txt_dir (gui_config f) = joinpath (output_dir_entry f) (py "txt")
  /\ json_dir (gui_config f) = joinpath (output_dir_entry f) (py "json")
  /\ pdf_dir (gui_config f) = joinpath (output_dir_entry f) (py "pdf").
Proof.
  unfold start_transcription_thread.
  split; [|split; [|split; [|split; [|now repeat split]]]].
  - intros (Hk & Hi & Ho & Hd & Hm).
    destruct (api_key_entry f); [now destruct Hk|].
    destruct (input_dir_entry f) eqn:Ei; [now destruct Hi|].
    destruct (output_dir_entry f) eqn:Eo; [now destruct Ho|].
    rewrite Hd. cbn [negb]. destruct Hm as [-> | ->]; [reflexivity|].
    now rewrite andb_false_r.
  - intros Hn.
    destruct (api_key_entry f) eqn:Ek; [simpl; eauto 6|].
    destruct (input_dir_entry f) eqn:Ei; [simpl; eauto 6|].
    destruct (output_dir_entry f) eqn:Eo; [simpl; eauto 6|].
    destruct (is_dir w (n0 :: l0)) eqn:Hd; cbn [negb]; [|simpl; eauto 6].
    destruct (is_dir w (n1 :: l1)) eqn:Ho; cbn [negb andb].
    + destruct Hn. repeat split; auto; discriminate.
    + destruct (mkdir_ok w (n1 :: l1)) eqn:Hm; cbn [negb]; [|simpl; eauto 6].
      destruct Hn. repeat split; auto; discriminate.
  - unfold gui_config, str_or. simpl. destruct (model_entry f); discriminate.
  - unfold gui_config, str_or_none. simpl. now destruct (language_entry f).
Qed.

(** X29. However the run ends, the button is enabled again and exactly
    one dialog is shown: the success dialog when [process_videos]
    returned, the error dialog carrying the exception when it raised.
    The text box keeps what it showed, followed by the messages of the
    run in the order they were sent and by one closing line. *)
Theorem run_reenables_button (cfg : Config) (g : Gui) (s : State) :
  let out := run_transcription w cfg g s in
  let run := process_videos w cfg (next_run s) in
  start_enabled (fst out) = true
  /\ snd out = snd run
  /\ (exists d, dialogs (fst out) = dialogs g ++ [d]
                /\ (d = InfoSuccess <-> fst run = Ok tt)
                /\ (forall e, d = ErrorDuringRun e <-> fst run = Raise e))
  /\ (exists closing,
        textbox (fst out) = textbox g ++ List.map Line (log (snd run)) ++ [closing]
        /\ (closing = LineCompleted <-> fst run = Ok tt)
        /\ (forall e, closing = LineError e <-> fst run = Raise e)).
Proof.
  unfold run_transcription.
  destruct (process_videos w cfg (next_run s)) as [[[]|e] s']; simpl.
  - split; [reflexivity|]. split; [reflexivity|]. split.
    + exists InfoSuccess. repeat split; auto; discriminate.
    + exists LineCompleted. repeat split; auto; discriminate.
  - split; [reflexivity|]. split; [reflexivity|]. split.
    + exists (ErrorDuringRun e). repeat split; try discriminate; congruence.
    + exists (LineError e). repeat split; try discriminate; congruence.
Qed.

End EntryFacts.

(** ** The further properties on concrete machines *)

(** A quoted CJK character and a dashed title on a machine without any
    Unicode font. *)
Lemma core_output_is_latin1_witness :
  using_core no_font_env None None = true
  /\ Forall (Forall (fun c => c <= 255))
       (written_texts
          (to_pdf_document (T := ascii_table) no_font_env (py "2025-01-01 00:00:00")
             [8220; 20320; 8221] (py "/out/pdf/a.pdf") dashed_title None None None
             false)).
Proof.
  split; [reflexivity|].
  apply (core_output_is_latin1 (T := ascii_table)). reflexivity.
Defined.

(** A source directory that does not exist. *)
Lemma invalid_source_raises_witness :
  is_dir missing_dir_world (input_dir (sample_cfg false)) = false
  /\ process_videos (T := ascii_table) missing_dir_world (sample_cfg false)
       disk_with_source
     = (Raise FileNotFoundError, disk_with_source).
Proof.
  split; [reflexivity|].
  apply (invalid_source_raises (T := ascii_table)); reflexivity.
Defined.


(** The source file survives the run that transcribes it. *)
Lemma run_writes_only_destinations_witness :
  files (snd (process_videos (T := ascii_table) blank_world (sample_cfg false)
                disk_with_source)) !! py "/in/a.mp3"
  = Some (TextFile (py "RIFF")).
Proof.
  refine (eq_trans
            (run_writes_only_destinations (T := ascii_table) blank_world
               (sample_cfg false) disk_with_source (py "/in/a.mp3") _) _).
  - intros n _. repeat split; intros H;
      apply (f_equal (fun l => List.last l 0)) in H;
      [rewrite txt_path_last in H | rewrite json_path_last in H
       | rewrite pdf_path_last in H]; vm_compute in H; discriminate H.
  - vm_compute. reflexivity.
Defined.

(** A second run with overwrite enabled, on a disk that holds all three
    artifacts of the only file. *)
Lemma overwrite_never_skips_witness :
  let s := next_run (snd (process_videos (T := ascii_table) blank_world
                            (sample_cfg false) initial_state)) in
  complete (T := ascii_table) (sample_cfg true) s (py "a.mp3") = true
  /\ exists l,
       log (snd (process_videos (T := ascii_table) blank_world (sample_cfg true) s))
       = log s ++ l
       /\ Forall (fun m => is_skip m = false) l.
Proof.
  intros s. split; [vm_compute; reflexivity|].
  apply (overwrite_never_skips (T := ascii_table) blank_world (sample_cfg true)).
  reflexivity.
Defined.

(** A video on a machine whose [ffmpeg] works. *)
Lemma extracted_audio_is_submitted_witness :
  is_video (T := ascii_table) (py "v.mp4") = true
  /\ submitted (snd (process_file (T := ascii_table) ffmpeg_ok_world (sample_cfg false)
                       (ffmpeg_present ffmpeg_ok_world) 1 1 (py "v.mp4") initial_state))
     = [py "/tmp/td/v.wav"].
Proof.
  split; [reflexivity|].
  apply (extracted_audio_is_submitted (T := ascii_table) ffmpeg_ok_world
           (sample_cfg false) 1 1 (py "v.mp4") initial_state eq_refl eq_refl eq_refl
           (or_intror eq_refl)).
Defined.

(** An audio file on the same machine. *)
Lemma audio_file_bypasses_ffmpeg_witness :
  is_video (T := ascii_table) (py "a.mp3") = false
  /\ submitted (snd (process_file (T := ascii_table) ffmpeg_ok_world (sample_cfg false)
                       true 1 1 (py "a.mp3") initial_state))
     = [py "/in/a.mp3"].
Proof.
  split; [reflexivity|].
  apply (audio_file_bypasses_ffmpeg (T := ascii_table) ffmpeg_ok_world
           (sample_cfg false) true 1 1 (py "a.mp3") initial_state eq_refl
           (or_intror eq_refl)).
Defined.

(** A video on a machine whose [ffmpeg] cannot be run. *)
Lemma extraction_crash_aborts_witness :
  ffmpeg_run ffmpeg_crash_world (py "/in/v.mp4") (py "/tmp/td/v.wav") = Raise OSError
  /\ exists s',
       process_file (T := ascii_table) ffmpeg_crash_world (sample_cfg false)
         (ffmpeg_present ffmpeg_crash_world) 1 1 (py "v.mp4") initial_state
       = (Raise OSError, s')
       /\ submitted s' = [] /\ log s' = [MsgProcessing 1 1 (py "v.mp4")].
Proof.
  split; [reflexivity|].
  destruct (extraction_crash_aborts (T := ascii_table) ffmpeg_crash_world
              (sample_cfg false) 1 1 (py "v.mp4") OSError initial_state
              eq_refl eq_refl eq_refl ltac:(discriminate) (or_intror eq_refl))
    as (s' & E & _ & S & _ & L).
  exists s'. split; [exact E|]. split; [exact S | exact L].
Defined.

(** A transcript with a blank at either end. *)
Lemma transcript_written_verbatim_witness :
  let s' := snd (transcribe_and_finish (T := ascii_table)
                   (answering_world (sample_response (py " hola ")))
                   (sample_cfg false) (py "/in/a.mp3") (py "a.mp3") initial_state) in
  files s' !! py "/out/txt/a.txt" = Some (TextFile (py " hola "))
  /\ rendered s' = [py " hola "].
Proof.
  pose proof (transcript_written_verbatim (T := ascii_table)
                (answering_world (sample_response (py " hola ")))
                (sample_cfg false) (py "/in/a.mp3") (py "a.mp3")
                (sample_response (py " hola ")) (py " hola ") _ _ initial_state
                eq_refl eq_refl ltac:(vm_compute; discriminate) eq_refl eq_refl eq_refl)
    as (H1 & H2 & _).
  split; [exact H1 | exact H2].
Defined.

(** A service that hands back [None]. *)
Lemma unprocessable_response_saved_witness :
  payload_of (PlainValue VNone) = None
  /\ exists s',
       transcribe_and_finish (T := ascii_table) (answering_world (PlainValue VNone))
         (sample_cfg false) (py "/in/a.mp3") (py "a.mp3") initial_state
       = (Ok tt, s')
       /\ files s' !! py "/out/txt/a.txt" = Some (TextFile ERROR_MARKER)
       /\ complete (T := ascii_table) (sample_cfg false) s' (py "a.mp3") = true.
Proof.
  split; [reflexivity|].
  destruct (unprocessable_response_saved (T := ascii_table)
              (answering_world (PlainValue VNone)) (sample_cfg false)
              (py "/in/a.mp3") (py "a.mp3") (PlainValue VNone) initial_state
              eq_refl eq_refl eq_refl eq_refl) as (s' & E & Ht & _ & _ & _ & Hc).
  exists s'. split; [exact E|]. split; [exact Ht|]. apply Hc. reflexivity.
Defined.

(** The machine on which the text artifact's path cannot be opened. *)
Lemma text_write_failure_escapes_witness :
  can_write txt_locked_world (py "/out/txt/a.txt") = false
  /\ exists s',
       transcribe_and_finish (T := ascii_table) txt_locked_world (sample_cfg false)
         (py "/in/a.mp3") (py "a.mp3") initial_state
       = (Raise OSError, s')
       /\ files s' !! py "/out/json/a.deepgram.json" = Some (TextFile (py "{}"))
       /\ log s' = [].
Proof.
  split; [reflexivity|].
  destruct (text_write_failure_escapes (T := ascii_table) txt_locked_world
              (sample_cfg false) (py "/in/a.mp3") (py "a.mp3")
              (sample_response (py "hola")) (py "hola") _ _ initial_state
              eq_refl eq_refl eq_refl eq_refl) as (s' & E & F & _ & L & _).
  exists s'. split; [exact E|]. split; [|exact L].
  rewrite F. vm_compute. reflexivity.
Defined.

(** A transcript field that holds the number 5. *)
Lemma non_string_transcript_aborts_witness :
  exists d,
    extract_transcript_from_response numeric_transcript_response = Ok (VInt 5, d, VNone)
    /\ exists s',
         transcribe_and_finish (T := ascii_table)
           (answering_world numeric_transcript_response)
           (sample_cfg false) (py "/in/a.mp3") (py "a.mp3") initial_state
         = (Raise AttributeError, s')
         /\ files s' = files initial_state /\ log s' = [].
Proof.
  eexists. split; [reflexivity|].
  destruct (non_string_transcript_aborts (T := ascii_table)
              (answering_world numeric_transcript_response)
              (sample_cfg false) (py "/in/a.mp3") (py "a.mp3")
              numeric_transcript_response (VInt 5) _ _ initial_state
              eq_refl eq_refl ltac:(intros t; discriminate))
    as (s' & E & F & L & _).
  exists s'. split; [exact E|]. split; [exact F | exact L].
Defined.


(** The form on a machine where every directory exists. *)
Example form_accepted :
  start_transcription_thread service_down_world sample_form idle_gui
  = ({| textbox := []; dialogs := []; start_enabled := false |},
     Some (gui_config sample_form))
  /\ model (gui_config sample_form) = py "nova-3"
  /\ language (gui_config sample_form) = None.
Proof. vm_compute. repeat split. Qed.

(** The same form on the machine without a source directory. *)
Example form_rejected :
  start_transcription_thread missing_dir_world sample_form idle_gui
  = ({| textbox := [LineCompleted]; dialogs := [ErrorInputDir]; start_enabled := true |},
     None).
Proof. vm_compute. reflexivity. Qed.

(** A run from the form on the machine whose service rejects every
    request ends with the success dialog. *)
Example gui_success_despite_failures :
  let out := run_transcription (T := ascii_table) service_down_world
               (gui_config sample_form)
               {| textbox := []; dialogs := []; start_enabled := false |}
               initial_state in
  dialogs (fst out) = [InfoSuccess]
  /\ start_enabled (fst out) = true
  /\ textbox (fst out)
     = [Line MsgNoFfmpeg; Line (MsgFound 1); Line (MsgProcessing 1 1 (py "a.mp3"));
        Line (MsgTranscriptionError (ServiceError 401)); Line MsgDone; LineCompleted].
Proof. vm_compute. repeat split. Qed.

(** A transcript with a lone surrogate: the text artifact is left
    empty. *)
Lemma unencodable_transcript_escapes_witness :
  utf8_encodable lone_surrogate_text = false
  /\ exists s',
       transcribe_and_finish (T := ascii_table) surrogate_world (sample_cfg false)
         (py "/in/a.mp3") (py "a.mp3") initial_state
       = (Raise UnicodeEncodeError, s')
       /\ files s' !! py "/out/txt/a.txt" = Some (TextFile [])
       /\ files s' !! py "/out/json/a.deepgram.json" = Some (TextFile (py "{}"))
       /\ log s' = [].
Proof.
  split; [reflexivity|].
  destruct (unencodable_transcript_escapes (T := ascii_table) surrogate_world
              (sample_cfg false) (py "/in/a.mp3") (py "a.mp3")
              (sample_response lone_surrogate_text) lone_surrogate_text _ _
              initial_state eq_refl eq_refl ltac:(vm_compute; discriminate)
              eq_refl eq_refl eq_refl) as (s' & E & Ht & Hj & _ & L & _).
  exists s'. split; [exact E|]. split; [exact Ht|]. split; [exact Hj | exact L].
Defined.

(** The same transcript in a whole run: every path can be opened and
    the response carries a textual transcript, yet the error leaves the
    call and the completion message is not sent. *)
Example lone_surrogate_aborts_batch :
  let out := process_videos (T := ascii_table) surrogate_world (sample_cfg false)
               initial_state in
  fst out = Raise UnicodeEncodeError
  /\ log (snd out) = [MsgNoFfmpeg; MsgFound 1; MsgProcessing 1 1 (py "a.mp3")]
  /\ files (snd out) !! py "/out/txt/a.txt" = Some (TextFile [])
  /\ files (snd out) !! py "/out/pdf/a.pdf" = None.
Proof. vm_compute. repeat split. Qed.
